(** * Scribe: the typing load driver and its streaming telemetry

    A shallow embedding of [typeFile] / [typeChunk] (src/unnamed/part_000):
    the chart ring buffer, the acknowledgement handler with its running
    latency statistics, the paced typing step governed by the global
    [play] flag, and the multi-writer dispatch of [typeFile].

    Conventions of the embedding.
    - Clock readings ([Date.now()]), client sequence numbers and trace
      timestamps are integers ([Z]); cursors, counts and indices are [nat].
    - Every other JavaScript number is a [jsnum]: exact real arithmetic
      (no rounding), with [undefined] and the non-finite results kept apart.
    - One handler invocation reads the clock once: the event carries [now].
    - The [metrics] object is shared and mutated in place; [clone] allocates.
      Objects handed out are therefore recorded by reference ([Ref]). *)

From Stdlib Require Import Reals Lra Lia ZArith List String Ascii Bool Arith.
From Stdlib Require Import Permutation DecimalString.
Import ListNotations.

Local Open Scope nat_scope.

(* ================================================================== *)
(** ** JavaScript numbers, exactly *)

Module JS.

(** [NonFinite] stands for [NaN] and the two infinities.  The program
    never branches on such a value and never divides by one, so every
    operation it performs on a non-finite operand is non-finite again. *)
Inductive jsnum : Type :=
| Undefined
| NonFinite
| Num (r : R).

Definition ofZ (z : Z) : jsnum := Num (IZR z).
Definition ofNat (n : nat) : jsnum := Num (INR n).

Definition lift2 (f : R -> R -> R) (a b : jsnum) : jsnum :=
  match a, b with
  | Num x, Num y => Num (f x y)
  | _, _ => NonFinite
  end.

Definition add : jsnum -> jsnum -> jsnum := lift2 Rplus.
Definition sub : jsnum -> jsnum -> jsnum := lift2 Rminus.
Definition mul : jsnum -> jsnum -> jsnum := lift2 Rmult.

(** [a / b]: a zero divisor gives [NaN] or an infinity. *)
Definition div (a b : jsnum) : jsnum :=
  match a, b with
  | Num x, Num y => if Req_dec_T y 0 then NonFinite else Num (x / y)
  | _, _ => NonFinite
  end.

(** [Math.sqrt]: [NaN] below zero. *)
Definition sqrt (a : jsnum) : jsnum :=
  match a with
  | Num x => if Rlt_dec x 0 then NonFinite else Num (R_sqrt.sqrt x)
  | _ => NonFinite
  end.

Definition min : jsnum -> jsnum -> jsnum := lift2 Rmin.
Definition max : jsnum -> jsnum -> jsnum := lift2 Rmax.

(** [x !== undefined] *)
Definition isDefined (a : jsnum) : bool :=
  match a with Undefined => false | _ => true end.

(** A JavaScript array indexed by position.  [pop] takes the LAST element,
    [push] appends, [splice(0, n)] cuts the first [n] elements out (all of
    them when [n] exceeds the length) and returns them. *)
Definition push {A} (a : list A) (x : A) : list A := a ++ [x].

Definition pop {A} (a : list A) : option A * list A :=
  match rev a with
  | [] => (None, [])
  | x :: r => (Some x, rev r)
  end.

Definition splice0 {A} (a : list A) (n : nat) : list A * list A :=
  (firstn n a, skipn n a).

(** [a[i] = v]: in range the slot is overwritten; past the end the array
    grows, the skipped slots being holes. *)
Fixpoint assign {A} (hole : A) (a : list A) (i : nat) (v : A) : list A :=
  match i, a with
  | 0, [] => [v]
  | 0, _ :: t => v :: t
  | S j, [] => hole :: assign hole [] j v
  | S j, x :: t => x :: assign hole t j v
  end.

End JS.

Import JS.

(* ================================================================== *)
(** ** Constants of the module *)

Definition saveLineFrequency : nat := 5.
Definition RunningCalculationDelay : Z := 10000.
Definition ChartSamples : nat := 10.
(** [samplingRate] of [typeChunk]: a new rate sample after one second. *)
Definition samplingRate : Z := 1000.

(** [padTime value = `0${value}`.slice(-2)] *)
Definition slice_last2 (s : string) : string :=
  let n := String.length s in substring (n - 2) 2 s.

Definition padTime (value : nat) : string :=
  slice_last2 ("0" ++ NilEmpty.string_of_uint (Nat.to_uint value)).

(* ================================================================== *)
(** ** The chart ring buffer *)

Module Chart.

Record IChartData : Type := mkChartData {
  minimum : list jsnum;
  maximum : list jsnum;
  mean : list jsnum;
  stdDev : list jsnum;
  label : list string;
  index : nat
}.

(** [createChartData length]: [length] zeroes per series, empty labels. *)
Definition createChartData (length : nat) : IChartData :=
  let empty := repeat (Num 0) length in
  let emptyLabel := repeat EmptyString length in
  {| index := 0; label := emptyLabel;
     maximum := empty; mean := empty; minimum := empty; stdDev := empty |}.

(** [rearrange array index]: clone, splice the first [index + 1] elements
    out, and put them behind the rest. *)
Definition rearrange {A} (array : list A) (index : nat) : list A :=
  let '(spliced, arrayClone) := splice0 array (index + 1) in
  arrayClone ++ spliced.

(** [combine first second f]: one result per element of [first];
    [second[i]] is [undefined] past its end. *)
Fixpoint combine (first second : list jsnum)
         (f : jsnum -> jsnum -> jsnum) : list jsnum :=
  match first with
  | [] => []
  | a :: first' => f a (hd Undefined second) :: combine first' (tl second) f
  end.

(** The series of [getChartConfiguration]; the constant layout and title
    fields of the configuration object are left out. *)
Record ChartConfiguration : Type := mkChartConfiguration {
  categoryNames : list string;
  meanValues : list jsnum;
  plusStddev : list jsnum;
  negStddev : list jsnum;
  minimumValues : list jsnum;
  maximumValues : list jsnum
}.

Definition getChartConfiguration (data : IChartData) : ChartConfiguration :=
  let mean := rearrange (mean data) (index data) in
  let stddev := rearrange (stdDev data) (index data) in
  {| categoryNames := rearrange (label data) (index data);
     meanValues := mean;
     plusStddev := combine mean stddev add;
     negStddev := combine mean stddev sub;
     minimumValues := rearrange (minimum data) (index data);
     maximumValues := rearrange (maximum data) (index data) |}.

End Chart.

(* ================================================================== *)
(** ** Rate counters *)

Module RateCounter.

(** Modelled from the spec: [utils.RateCounter] is imported from the client
    API and its source is not in the repository sources at hand.  The spec
    gives its fields (accumulated value, sample count, minimum and maximum
    seen, window start).  [reset] zeroes the state and restarts the window;
    [increment] adds to the accumulator and updates minimum, maximum and
    sample count; [elapsed] is the time since the last reset; [getRate] is
    the accumulated value over the elapsed time, and a defined value (0)
    when no time has elapsed. *)
Record t : Type := mk {
  accumulatedValue : jsnum;
  sampleCount : nat;
  minSeen : jsnum;
  maxSeen : jsnum;
  windowStartTime : Z
}.

Definition reset (now : Z) : t :=
  {| accumulatedValue := Num 0; sampleCount := 0;
     minSeen := Num 0; maxSeen := Num 0; windowStartTime := now |}.

Definition increment (c : t) (amount : jsnum) : t :=
  {| accumulatedValue := add (accumulatedValue c) amount;
     sampleCount := S (sampleCount c);
     minSeen := match sampleCount c with
                | 0 => amount
                | S _ => JS.min (minSeen c) amount
                end;
     maxSeen := match sampleCount c with
                | 0 => amount
                | S _ => JS.max (maxSeen c) amount
                end;
     windowStartTime := windowStartTime c |}.

Definition elapsed (c : t) (now : Z) : Z := (now - windowStartTime c)%Z.

Definition getRate (c : t) (now : Z) : jsnum :=
  if (elapsed c now =? 0)%Z then Num 0
  else div (accumulatedValue c) (ofZ (elapsed c now)).

Definition getValue (c : t) : jsnum := accumulatedValue c.
Definition getSamples (c : t) : nat := sampleCount c.
Definition getMinimum (c : t) : jsnum := minSeen c.
Definition getMaximum (c : t) : jsnum := maxSeen c.

End RateCounter.

(* ================================================================== *)
(** ** The metrics object *)

Record IScribeMetrics : Type := mkMetrics {
  latencyAverage : jsnum;
  latencyStdDev : jsnum;
  latencyMinimum : jsnum;
  latencyMaximum : jsnum;
  ackRate : jsnum;
  typingRate : jsnum;
  typingProgress : jsnum;
  ackProgress : jsnum;
  time : jsnum;
  textLength : jsnum;
  pingAverage : jsnum;
  pingMaximum : jsnum;
  typingInterval : jsnum
}.

(** Field assignments [metrics.f = v]. *)
Definition set_ackRate (v : jsnum) (m : IScribeMetrics) : IScribeMetrics :=
  mkMetrics (latencyAverage m) (latencyStdDev m) (latencyMinimum m)
    (latencyMaximum m) v (typingRate m) (typingProgress m) (ackProgress m)
    (time m) (textLength m) (pingAverage m) (pingMaximum m) (typingInterval m).

Definition set_typingRate (v : jsnum) (m : IScribeMetrics) : IScribeMetrics :=
  mkMetrics (latencyAverage m) (latencyStdDev m) (latencyMinimum m)
    (latencyMaximum m) (ackRate m) v (typingProgress m) (ackProgress m)
    (time m) (textLength m) (pingAverage m) (pingMaximum m) (typingInterval m).

Definition set_typingProgress (v : jsnum) (m : IScribeMetrics) : IScribeMetrics :=
  mkMetrics (latencyAverage m) (latencyStdDev m) (latencyMinimum m)
    (latencyMaximum m) (ackRate m) (typingRate m) v (ackProgress m)
    (time m) (textLength m) (pingAverage m) (pingMaximum m) (typingInterval m).

Definition set_ackProgress (v : jsnum) (m : IScribeMetrics) : IScribeMetrics :=
  mkMetrics (latencyAverage m) (latencyStdDev m) (latencyMinimum m)
    (latencyMaximum m) (ackRate m) (typingRate m) (typingProgress m) v
    (time m) (textLength m) (pingAverage m) (pingMaximum m) (typingInterval m).

Definition set_time (v : jsnum) (m : IScribeMetrics) : IScribeMetrics :=
  mkMetrics (latencyAverage m) (latencyStdDev m) (latencyMinimum m)
    (latencyMaximum m) (ackRate m) (typingRate m) (typingProgress m)
    (ackProgress m) v (textLength m) (pingAverage m) (pingMaximum m)
    (typingInterval m).

Definition set_pingAverage (v : jsnum) (m : IScribeMetrics) : IScribeMetrics :=
  mkMetrics (latencyAverage m) (latencyStdDev m) (latencyMinimum m)
    (latencyMaximum m) (ackRate m) (typingRate m) (typingProgress m)
    (ackProgress m) (time m) (textLength m) v (pingMaximum m)
    (typingInterval m).

Definition set_pingMaximum (v : jsnum) (m : IScribeMetrics) : IScribeMetrics :=
  mkMetrics (latencyAverage m) (latencyStdDev m) (latencyMinimum m)
    (latencyMaximum m) (ackRate m) (typingRate m) (typingProgress m)
    (ackProgress m) (time m) (textLength m) (pingAverage m) v
    (typingInterval m).

Definition set_latencyMinimum (v : jsnum) (m : IScribeMetrics) : IScribeMetrics :=
  mkMetrics (latencyAverage m) (latencyStdDev m) v
    (latencyMaximum m) (ackRate m) (typingRate m) (typingProgress m)
    (ackProgress m) (time m) (textLength m) (pingAverage m) (pingMaximum m)
    (typingInterval m).

Definition set_latencyMaximum (v : jsnum) (m : IScribeMetrics) : IScribeMetrics :=
  mkMetrics (latencyAverage m) (latencyStdDev m) (latencyMinimum m)
    v (ackRate m) (typingRate m) (typingProgress m)
    (ackProgress m) (time m) (textLength m) (pingAverage m) (pingMaximum m)
    (typingInterval m).

Definition set_latencyAverage (v : jsnum) (m : IScribeMetrics) : IScribeMetrics :=
  mkMetrics v (latencyStdDev m) (latencyMinimum m)
    (latencyMaximum m) (ackRate m) (typingRate m) (typingProgress m)
    (ackProgress m) (time m) (textLength m) (pingAverage m) (pingMaximum m)
    (typingInterval m).

Definition set_latencyStdDev (v : jsnum) (m : IScribeMetrics) : IScribeMetrics :=
  mkMetrics (latencyAverage m) v (latencyMinimum m)
    (latencyMaximum m) (ackRate m) (typingRate m) (typingProgress m)
    (ackProgress m) (time m) (textLength m) (pingAverage m) (pingMaximum m)
    (typingInterval m).

(** References to metrics objects.  [MetricsRef] is the object bound to
    [metrics] in [typeChunk]; [CloneRef n] is the object made by the
    [n]-th call of [clone] (counting from 0). *)
Inductive Ref : Type :=
| MetricsRef
| CloneRef (n : nat).

(* ================================================================== *)
(** ** One typing session: the state closed over by [typeChunk] *)

(** A sequenced message as the ["op"] listener receives it. *)
Record ITrace : Type := mkTrace {
  service : string;
  timestamp : Z
}.

Record Message : Type := mkMessage {
  clientSequenceNumber : Z;
  clientId : string;
  traces : list ITrace
}.

(** Calls made on the shared string and on the document. *)
Inductive Op : Type :=
| InsertMarker (pos : Z)
| InsertText (text : list nat) (pos : Z)
| Save (line : nat).

(** The parameters of [typeChunk] ([chunk] already normalized, as a list of
    UTF-16 code units), [startTime], and every variable of the promise
    executor.  [clones] holds the objects allocated by [clone];
    [histogram] the samples passed to [histogram.add]; [performanceData]
    the configurations written to the chart cell; [callbackCalls],
    [queueCallbackCalls] and [resolved] the references handed to
    [callback], [queueCallback] and [resolve]; [ops] the calls made on the
    shared string and the document.  [metricsInterval] and [typingTimer]
    tell whether the snapshot timer and the typing loop are still armed. *)
Record Session : Type := mkSession {
  docClientId : string;
  chunkKey : string;
  chunk : list nat;
  intervalTime : Z;
  startTime : Z;
  readPosition : nat;
  lineNumber : nat;
  metrics : IScribeMetrics;
  clones : list IScribeMetrics;
  ackCounter : RateCounter.t;
  latencyCounter : RateCounter.t;
  pingCounter : RateCounter.t;
  typingCounter : RateCounter.t;
  messageStart : list Z;
  mean : jsnum;
  stdDev : jsnum;
  histogram : list jsnum;
  chartData : Chart.IChartData;
  performanceData : list Chart.ChartConfiguration;
  metricsInterval : bool;
  typingTimer : bool;
  resolved : option Ref;
  callbackCalls : list Ref;
  queueCallbackCalls : list Ref;
  ops : list Op
}.


(** The state right after the promise executor of [typeChunk] has run. *)
Definition newSession (docClientId chunkKey : string) (chunk : list nat)
           (intervalTime : Z) (startTime : Z) : Session :=
  {| docClientId := docClientId; chunkKey := chunkKey; chunk := chunk;
     intervalTime := intervalTime; startTime := startTime;
     readPosition := 0; lineNumber := 0;
     metrics :=
       {| ackProgress := Undefined; ackRate := Undefined;
          latencyAverage := Undefined; latencyMaximum := Undefined;
          latencyMinimum := Undefined; latencyStdDev := Undefined;
          pingAverage := Undefined; pingMaximum := Undefined;
          textLength := ofNat (List.length chunk); time := Num 0;
          typingInterval := ofZ intervalTime;
          typingProgress := Undefined; typingRate := Undefined |};
     clones := [];
     ackCounter := RateCounter.reset startTime;
     latencyCounter := RateCounter.reset startTime;
     pingCounter := RateCounter.reset startTime;
     typingCounter := RateCounter.reset startTime;
     messageStart := [];
     mean := Num 0; stdDev := Num 0;
     histogram := [];
     chartData := Chart.createChartData ChartSamples;
     performanceData := [];
     metricsInterval := true; typingTimer := true;
     resolved := None;
     callbackCalls := []; queueCallbackCalls := [];
     ops := [] |}.

(** *** Assignments to single variables of the session *)

Definition set_readPosition (v : nat) (s : Session) : Session :=
  {| docClientId := docClientId s; chunkKey := chunkKey s; chunk := chunk s;
     intervalTime := intervalTime s; startTime := startTime s;
     readPosition := v; lineNumber := lineNumber s; metrics := metrics s;
     clones := clones s; ackCounter := ackCounter s;
     latencyCounter := latencyCounter s; pingCounter := pingCounter s;
     typingCounter := typingCounter s; messageStart := messageStart s;
     mean := mean s; stdDev := stdDev s; histogram := histogram s;
     chartData := chartData s; performanceData := performanceData s;
     metricsInterval := metricsInterval s; typingTimer := typingTimer s;
     resolved := resolved s; callbackCalls := callbackCalls s;
     queueCallbackCalls := queueCallbackCalls s; ops := ops s |}.

Definition set_lineNumber (v : nat) (s : Session) : Session :=
  {| docClientId := docClientId s; chunkKey := chunkKey s; chunk := chunk s;
     intervalTime := intervalTime s; startTime := startTime s;
     readPosition := readPosition s; lineNumber := v; metrics := metrics s;
     clones := clones s; ackCounter := ackCounter s;
     latencyCounter := latencyCounter s; pingCounter := pingCounter s;
     typingCounter := typingCounter s; messageStart := messageStart s;
     mean := mean s; stdDev := stdDev s; histogram := histogram s;
     chartData := chartData s; performanceData := performanceData s;
     metricsInterval := metricsInterval s; typingTimer := typingTimer s;
     resolved := resolved s; callbackCalls := callbackCalls s;
     queueCallbackCalls := queueCallbackCalls s; ops := ops s |}.

Definition set_metrics (v : IScribeMetrics) (s : Session) : Session :=
  {| docClientId := docClientId s; chunkKey := chunkKey s; chunk := chunk s;
     intervalTime := intervalTime s; startTime := startTime s;
     readPosition := readPosition s; lineNumber := lineNumber s;
     metrics := v; clones := clones s; ackCounter := ackCounter s;
     latencyCounter := latencyCounter s; pingCounter := pingCounter s;
     typingCounter := typingCounter s; messageStart := messageStart s;
     mean := mean s; stdDev := stdDev s; histogram := histogram s;
     chartData := chartData s; performanceData := performanceData s;
     metricsInterval := metricsInterval s; typingTimer := typingTimer s;
     resolved := resolved s; callbackCalls := callbackCalls s;
     queueCallbackCalls := queueCallbackCalls s; ops := ops s |}.

Definition set_clones (v : list IScribeMetrics) (s : Session) : Session :=
  {| docClientId := docClientId s; chunkKey := chunkKey s; chunk := chunk s;
     intervalTime := intervalTime s; startTime := startTime s;
     readPosition := readPosition s; lineNumber := lineNumber s;
     metrics := metrics s; clones := v; ackCounter := ackCounter s;
     latencyCounter := latencyCounter s; pingCounter := pingCounter s;
     typingCounter := typingCounter s; messageStart := messageStart s;
     mean := mean s; stdDev := stdDev s; histogram := histogram s;
     chartData := chartData s; performanceData := performanceData s;
     metricsInterval := metricsInterval s; typingTimer := typingTimer s;
     resolved := resolved s; callbackCalls := callbackCalls s;
     queueCallbackCalls := queueCallbackCalls s; ops := ops s |}.

Definition set_ackCounter (v : RateCounter.t) (s : Session) : Session :=
  {| docClientId := docClientId s; chunkKey := chunkKey s; chunk := chunk s;
     intervalTime := intervalTime s; startTime := startTime s;
     readPosition := readPosition s; lineNumber := lineNumber s;
     metrics := metrics s; clones := clones s; ackCounter := v;
     latencyCounter := latencyCounter s; pingCounter := pingCounter s;
     typingCounter := typingCounter s; messageStart := messageStart s;
     mean := mean s; stdDev := stdDev s; histogram := histogram s;
     chartData := chartData s; performanceData := performanceData s;
     metricsInterval := metricsInterval s; typingTimer := typingTimer s;
     resolved := resolved s; callbackCalls := callbackCalls s;
     queueCallbackCalls := queueCallbackCalls s; ops := ops s |}.

Definition set_latencyCounter (v : RateCounter.t) (s : Session) : Session :=
  {| docClientId := docClientId s; chunkKey := chunkKey s; chunk := chunk s;
     intervalTime := intervalTime s; startTime := startTime s;
     readPosition := readPosition s; lineNumber := lineNumber s;
     metrics := metrics s; clones := clones s; ackCounter := ackCounter s;
     latencyCounter := v; pingCounter := pingCounter s;
     typingCounter := typingCounter s; messageStart := messageStart s;
     mean := mean s; stdDev := stdDev s; histogram := histogram s;
     chartData := chartData s; performanceData := performanceData s;
     metricsInterval := metricsInterval s; typingTimer := typingTimer s;
     resolved := resolved s; callbackCalls := callbackCalls s;
     queueCallbackCalls := queueCallbackCalls s; ops := ops s |}.

Definition set_pingCounter (v : RateCounter.t) (s : Session) : Session :=
  {| docClientId := docClientId s; chunkKey := chunkKey s; chunk := chunk s;
     intervalTime := intervalTime s; startTime := startTime s;
     readPosition := readPosition s; lineNumber := lineNumber s;
     metrics := metrics s; clones := clones s; ackCounter := ackCounter s;
     latencyCounter := latencyCounter s; pingCounter := v;
     typingCounter := typingCounter s; messageStart := messageStart s;
     mean := mean s; stdDev := stdDev s; histogram := histogram s;
     chartData := chartData s; performanceData := performanceData s;
     metricsInterval := metricsInterval s; typingTimer := typingTimer s;
     resolved := resolved s; callbackCalls := callbackCalls s;
     queueCallbackCalls := queueCallbackCalls s; ops := ops s |}.

Definition set_typingCounter (v : RateCounter.t) (s : Session) : Session :=
  {| docClientId := docClientId s; chunkKey := chunkKey s; chunk := chunk s;
     intervalTime := intervalTime s; startTime := startTime s;
     readPosition := readPosition s; lineNumber := lineNumber s;
     metrics := metrics s; clones := clones s; ackCounter := ackCounter s;
     latencyCounter := latencyCounter s; pingCounter := pingCounter s;
     typingCounter := v; messageStart := messageStart s; mean := mean s;
     stdDev := stdDev s; histogram := histogram s; chartData := chartData s;
     performanceData := performanceData s;
     metricsInterval := metricsInterval s; typingTimer := typingTimer s;
     resolved := resolved s; callbackCalls := callbackCalls s;
     queueCallbackCalls := queueCallbackCalls s; ops := ops s |}.

Definition set_messageStart (v : list Z) (s : Session) : Session :=
  {| docClientId := docClientId s; chunkKey := chunkKey s; chunk := chunk s;
     intervalTime := intervalTime s; startTime := startTime s;
     readPosition := readPosition s; lineNumber := lineNumber s;
     metrics := metrics s; clones := clones s; ackCounter := ackCounter s;
     latencyCounter := latencyCounter s; pingCounter := pingCounter s;
     typingCounter := typingCounter s; messageStart := v; mean := mean s;
     stdDev := stdDev s; histogram := histogram s; chartData := chartData s;
     performanceData := performanceData s;
     metricsInterval := metricsInterval s; typingTimer := typingTimer s;
     resolved := resolved s; callbackCalls := callbackCalls s;
     queueCallbackCalls := queueCallbackCalls s; ops := ops s |}.

Definition set_mean (v : jsnum) (s : Session) : Session :=
  {| docClientId := docClientId s; chunkKey := chunkKey s; chunk := chunk s;
     intervalTime := intervalTime s; startTime := startTime s;
     readPosition := readPosition s; lineNumber := lineNumber s;
     metrics := metrics s; clones := clones s; ackCounter := ackCounter s;
     latencyCounter := latencyCounter s; pingCounter := pingCounter s;
     typingCounter := typingCounter s; messageStart := messageStart s;
     mean := v; stdDev := stdDev s; histogram := histogram s;
     chartData := chartData s; performanceData := performanceData s;
     metricsInterval := metricsInterval s; typingTimer := typingTimer s;
     resolved := resolved s; callbackCalls := callbackCalls s;
     queueCallbackCalls := queueCallbackCalls s; ops := ops s |}.

Definition set_stdDev (v : jsnum) (s : Session) : Session :=
  {| docClientId := docClientId s; chunkKey := chunkKey s; chunk := chunk s;
     intervalTime := intervalTime s; startTime := startTime s;
     readPosition := readPosition s; lineNumber := lineNumber s;
     metrics := metrics s; clones := clones s; ackCounter := ackCounter s;
     latencyCounter := latencyCounter s; pingCounter := pingCounter s;
     typingCounter := typingCounter s; messageStart := messageStart s;
     mean := mean s; stdDev := v; histogram := histogram s;
     chartData := chartData s; performanceData := performanceData s;
     metricsInterval := metricsInterval s; typingTimer := typingTimer s;
     resolved := resolved s; callbackCalls := callbackCalls s;
     queueCallbackCalls := queueCallbackCalls s; ops := ops s |}.

Definition set_histogram (v : list jsnum) (s : Session) : Session :=
  {| docClientId := docClientId s; chunkKey := chunkKey s; chunk := chunk s;
     intervalTime := intervalTime s; startTime := startTime s;
     readPosition := readPosition s; lineNumber := lineNumber s;
     metrics := metrics s; clones := clones s; ackCounter := ackCounter s;
     latencyCounter := latencyCounter s; pingCounter := pingCounter s;
     typingCounter := typingCounter s; messageStart := messageStart s;
     mean := mean s; stdDev := stdDev s; histogram := v;
     chartData := chartData s; performanceData := performanceData s;
     metricsInterval := metricsInterval s; typingTimer := typingTimer s;
     resolved := resolved s; callbackCalls := callbackCalls s;
     queueCallbackCalls := queueCallbackCalls s; ops := ops s |}.

Definition set_chartData (v : Chart.IChartData) (s : Session) : Session :=
  {| docClientId := docClientId s; chunkKey := chunkKey s; chunk := chunk s;
     intervalTime := intervalTime s; startTime := startTime s;
     readPosition := readPosition s; lineNumber := lineNumber s;
     metrics := metrics s; clones := clones s; ackCounter := ackCounter s;
     latencyCounter := latencyCounter s; pingCounter := pingCounter s;
     typingCounter := typingCounter s; messageStart := messageStart s;
     mean := mean s; stdDev := stdDev s; histogram := histogram s;
     chartData := v; performanceData := performanceData s;
     metricsInterval := metricsInterval s; typingTimer := typingTimer s;
     resolved := resolved s; callbackCalls := callbackCalls s;
     queueCallbackCalls := queueCallbackCalls s; ops := ops s |}.

Definition set_performanceData (v : list Chart.ChartConfiguration) (s : Session) : Session :=
  {| docClientId := docClientId s; chunkKey := chunkKey s; chunk := chunk s;
     intervalTime := intervalTime s; startTime := startTime s;
     readPosition := readPosition s; lineNumber := lineNumber s;
     metrics := metrics s; clones := clones s; ackCounter := ackCounter s;
     latencyCounter := latencyCounter s; pingCounter := pingCounter s;
     typingCounter := typingCounter s; messageStart := messageStart s;
     mean := mean s; stdDev := stdDev s; histogram := histogram s;
     chartData := chartData s; performanceData := v;
     metricsInterval := metricsInterval s; typingTimer := typingTimer s;
     resolved := resolved s; callbackCalls := callbackCalls s;
     queueCallbackCalls := queueCallbackCalls s; ops := ops s |}.

Definition set_metricsInterval (v : bool) (s : Session) : Session :=
  {| docClientId := docClientId s; chunkKey := chunkKey s; chunk := chunk s;
     intervalTime := intervalTime s; startTime := startTime s;
     readPosition := readPosition s; lineNumber := lineNumber s;
     metrics := metrics s; clones := clones s; ackCounter := ackCounter s;
     latencyCounter := latencyCounter s; pingCounter := pingCounter s;
     typingCounter := typingCounter s; messageStart := messageStart s;
     mean := mean s; stdDev := stdDev s; histogram := histogram s;
     chartData := chartData s; performanceData := performanceData s;
     metricsInterval := v; typingTimer := typingTimer s;
     resolved := resolved s; callbackCalls := callbackCalls s;
     queueCallbackCalls := queueCallbackCalls s; ops := ops s |}.

Definition set_typingTimer (v : bool) (s : Session) : Session :=
  {| docClientId := docClientId s; chunkKey := chunkKey s; chunk := chunk s;
     intervalTime := intervalTime s; startTime := startTime s;
     readPosition := readPosition s; lineNumber := lineNumber s;
     metrics := metrics s; clones := clones s; ackCounter := ackCounter s;
     latencyCounter := latencyCounter s; pingCounter := pingCounter s;
     typingCounter := typingCounter s; messageStart := messageStart s;
     mean := mean s; stdDev := stdDev s; histogram := histogram s;
     chartData := chartData s; performanceData := performanceData s;
     metricsInterval := metricsInterval s; typingTimer := v;
     resolved := resolved s; callbackCalls := callbackCalls s;
     queueCallbackCalls := queueCallbackCalls s; ops := ops s |}.

Definition set_resolved (v : option Ref) (s : Session) : Session :=
  {| docClientId := docClientId s; chunkKey := chunkKey s; chunk := chunk s;
     intervalTime := intervalTime s; startTime := startTime s;
     readPosition := readPosition s; lineNumber := lineNumber s;
     metrics := metrics s; clones := clones s; ackCounter := ackCounter s;
     latencyCounter := latencyCounter s; pingCounter := pingCounter s;
     typingCounter := typingCounter s; messageStart := messageStart s;
     mean := mean s; stdDev := stdDev s; histogram := histogram s;
     chartData := chartData s; performanceData := performanceData s;
     metricsInterval := metricsInterval s; typingTimer := typingTimer s;
     resolved := v; callbackCalls := callbackCalls s;
     queueCallbackCalls := queueCallbackCalls s; ops := ops s |}.

Definition set_callbackCalls (v : list Ref) (s : Session) : Session :=
  {| docClientId := docClientId s; chunkKey := chunkKey s; chunk := chunk s;
     intervalTime := intervalTime s; startTime := startTime s;
     readPosition := readPosition s; lineNumber := lineNumber s;
     metrics := metrics s; clones := clones s; ackCounter := ackCounter s;
     latencyCounter := latencyCounter s; pingCounter := pingCounter s;
     typingCounter := typingCounter s; messageStart := messageStart s;
     mean := mean s; stdDev := stdDev s; histogram := histogram s;
     chartData := chartData s; performanceData := performanceData s;
     metricsInterval := metricsInterval s; typingTimer := typingTimer s;
     resolved := resolved s; callbackCalls := v;
     queueCallbackCalls := queueCallbackCalls s; ops := ops s |}.

Definition set_queueCallbackCalls (v : list Ref) (s : Session) : Session :=
  {| docClientId := docClientId s; chunkKey := chunkKey s; chunk := chunk s;
     intervalTime := intervalTime s; startTime := startTime s;
     readPosition := readPosition s; lineNumber := lineNumber s;
     metrics := metrics s; clones := clones s; ackCounter := ackCounter s;
     latencyCounter := latencyCounter s; pingCounter := pingCounter s;
     typingCounter := typingCounter s; messageStart := messageStart s;
     mean := mean s; stdDev := stdDev s; histogram := histogram s;
     chartData := chartData s; performanceData := performanceData s;
     metricsInterval := metricsInterval s; typingTimer := typingTimer s;
     resolved := resolved s; callbackCalls := callbackCalls s;
     queueCallbackCalls := v; ops := ops s |}.

Definition set_ops (v : list Op) (s : Session) : Session :=
  {| docClientId := docClientId s; chunkKey := chunkKey s; chunk := chunk s;
     intervalTime := intervalTime s; startTime := startTime s;
     readPosition := readPosition s; lineNumber := lineNumber s;
     metrics := metrics s; clones := clones s; ackCounter := ackCounter s;
     latencyCounter := latencyCounter s; pingCounter := pingCounter s;
     typingCounter := typingCounter s; messageStart := messageStart s;
     mean := mean s; stdDev := stdDev s; histogram := histogram s;
     chartData := chartData s; performanceData := performanceData s;
     metricsInterval := metricsInterval s; typingTimer := typingTimer s;
     resolved := resolved s; callbackCalls := callbackCalls s;
     queueCallbackCalls := queueCallbackCalls s; ops := v |}.

(** *** The snapshot timer ([metricsInterval], once a second) *)

Definition metricsTick (hours minutes seconds : nat) (s : Session) : Session :=
  if isDefined (latencyStdDev (metrics s)) then
    let data := chartData s in
    let index := Chart.index data in
    let written :=
      {| Chart.label :=
           assign EmptyString (Chart.label data) index
             (padTime hours ++ ":" ++ padTime minutes ++ ":" ++ padTime seconds)%string;
         Chart.maximum :=
           assign Undefined (Chart.maximum data) index (latencyMaximum (metrics s));
         Chart.mean :=
           assign Undefined (Chart.mean data) index (latencyAverage (metrics s));
         Chart.minimum :=
           assign Undefined (Chart.minimum data) index (latencyMinimum (metrics s));
         Chart.stdDev :=
           assign Undefined (Chart.stdDev data) index (latencyStdDev (metrics s));
         Chart.index := index |} in
    let advanced :=
      {| Chart.label := Chart.label written;
         Chart.maximum := Chart.maximum written;
         Chart.mean := Chart.mean written;
         Chart.minimum := Chart.minimum written;
         Chart.stdDev := Chart.stdDev written;
         Chart.index :=
           (Chart.index written + 1) mod List.length (Chart.maximum written) |} in
    set_chartData advanced
      (set_performanceData
         (performanceData s ++ [Chart.getChartConfiguration written]) s)
  else s.

(** *** The ["op"] listener *)

(** Lines 350-355: count the acknowledgement, sample the rate. *)
Definition countAck (now : Z) (s : Session) : Session :=
  let counted := RateCounter.increment (ackCounter s) (Num 1) in
  if (RateCounter.elapsed counted now >? samplingRate)%Z
  then set_ackCounter (RateCounter.reset now)
         (set_metrics
            (set_ackRate (mul (RateCounter.getRate counted now) (Num 1000))
                         (metrics s))
            s)
  else set_ackCounter counted s.

(** [message.traces.length === 8 && message.traces[7].service === "ping"] *)
Definition pingSample (message : Message) : option jsnum :=
  if List.length (traces message) =? 8 then
    match nth_error (traces message) 7, nth_error (traces message) 0 with
    | Some last, Some first =>
        if String.eqb (service last) "ping"%string
        then Some (ofZ (timestamp last - timestamp first))
        else None
    | _, _ => None
    end
  else None.

(** Lines 360-381: one round trip enters the running statistics.  The
    latency counter, the ping counter, the histogram, the ping and latency
    metrics and the two Welford variables [mean] and [stdDev] are updated. *)
Definition recordRoundTrip (message : Message) (roundTrip : jsnum)
           (s : Session) : Session :=
  let latencyCounter' := RateCounter.increment (latencyCounter s) roundTrip in
  let pingCounter' :=
    match pingSample message with
    | Some d => RateCounter.increment (pingCounter s) d
    | None => pingCounter s
    end in
  let samples := RateCounter.getSamples latencyCounter' in
  let average := div (RateCounter.getValue latencyCounter') (ofNat samples) in
  let stdDev' :=
    add (stdDev s) (mul (sub roundTrip average) (sub roundTrip (mean s))) in
  let deviation :=
    if 1 <? samples
    then JS.sqrt (div stdDev' (sub (ofNat samples) (Num 1)))
    else Num 0 in
  set_mean average
    (set_stdDev stdDev'
       (set_metrics
          (set_latencyStdDev deviation
             (set_latencyAverage average
                (set_latencyMaximum (RateCounter.getMaximum latencyCounter')
                   (set_latencyMinimum (RateCounter.getMinimum latencyCounter')
                      (set_pingMaximum (RateCounter.getMaximum pingCounter')
                         (set_pingAverage
                            (div (RateCounter.getValue pingCounter')
                                 (ofNat (RateCounter.getSamples pingCounter')))
                            (metrics s)))))))
          (set_histogram (histogram s ++ [roundTrip])
             (set_pingCounter pingCounter'
                (set_latencyCounter latencyCounter' s))))).

(** Lines 358-382: past the start-up delay, pop a send time and record the
    round trip from it.  [pop] on the empty array gives [undefined], and
    the round trip is then [NaN]. *)
Definition runningCalculation (message : Message) (now : Z) (s : Session)
  : Session :=
  if (now - startTime s >? RunningCalculationDelay)%Z then
    let '(popped, remaining) := pop (messageStart s) in
    let roundTrip :=
      match popped with
      | Some sent => ofZ (now - sent)
      | None => NonFinite
      end in
    recordRoundTrip message roundTrip (set_messageStart remaining s)
  else s.

(** [resolve(metrics)]: the first call settles the promise, with the
    [metrics] object itself; later calls change nothing. *)
Definition settle (r : option Ref) : option Ref :=
  match r with
  | Some r => Some r
  | None => Some MetricsRef
  end.

(** Lines 387-392: the completion test.  The timer and [metrics.time] are
    touched every time the test succeeds. *)
Definition completionCheck (message : Message) (now : Z) (s : Session)
  : Session :=
  if (clientSequenceNumber message >=? Z.of_nat (List.length (chunk s)))%Z
  then set_resolved (settle (resolved s))
         (set_metrics (set_time (ofZ (now - startTime s)) (metrics s))
            (set_metricsInterval false s))
  else s.

(** Lines 394-397: set the progress, hand a clone to [callback]. *)
Definition notify (message : Message) (s : Session) : Session :=
  let s1 :=
    set_metrics
      (set_ackProgress
         (div (ofZ (clientSequenceNumber message))
              (ofNat (List.length (chunk s))))
         (metrics s))
      s in
  set_callbackCalls (callbackCalls s1 ++ [CloneRef (List.length (clones s1))])
    (set_clones (clones s1 ++ [metrics s1]) s1).

(** [message.clientSequenceNumber && message.clientId === doc.clientId] *)
Definition attributed (s : Session) (message : Message) : bool :=
  negb (clientSequenceNumber message =? 0)%Z
  && String.eqb (clientId message) (docClientId s).

Definition onOp (message : Message) (now : Z) (s : Session) : Session :=
  if attributed s message
  then notify message
         (completionCheck message now
            (runningCalculation message now (countAck now s)))
  else s.

(** *** The typing step *)

(** [chunk.charCodeAt(i)]: [None] is [NaN], past the end of the string. *)
Definition charCodeAt (text : list nat) (i : nat) : option nat :=
  nth_error text i.

(** [chunk.charAt(i)]: the empty string past the end. *)
Definition charAt (text : list nat) (i : nat) : list nat :=
  match nth_error text i with
  | Some c => [c]
  | None => []
  end.

(** [code === n] *)
Definition codeIs (code : option nat) (n : nat) : bool :=
  match code with
  | Some c => c =? n
  | None => false
  end.

(** [trackOperation fn]: count the operation, sample the typing rate, run
    [fn], push the send time. *)
Definition trackOperation (fn : Session -> Session) (now : Z) (s : Session)
  : Session :=
  let counted := RateCounter.increment (typingCounter s) (Num 1) in
  let s1 :=
    if (RateCounter.elapsed counted now >? samplingRate)%Z
    then set_typingCounter (RateCounter.reset now)
           (set_metrics
              (set_typingRate
                 (mul (RateCounter.getRate counted now) (Num 1000))
                 (metrics s))
              s)
    else set_typingCounter counted s in
  let s2 := fn s1 in
  set_messageStart (push (messageStart s2) now) s2.

(** The closure passed to [trackOperation]: [code] and [pos] are captured,
    the cursor is read when the closure runs. *)
Definition insertion (code : option nat) (pos : Z) (s : Session) : Session :=
  let char := charAt (chunk s) (readPosition s) in
  if codeIs code 10 then
    let s1 := set_ops (ops s ++ [InsertMarker pos]) s in
    let s2 := set_readPosition (S (readPosition s1)) s1 in
    let s3 := set_lineNumber (S (lineNumber s2)) s2 in
    if lineNumber s3 mod saveLineFrequency =? 0
    then set_ops (ops s3 ++ [Save (lineNumber s3)]) s3
    else s3
  else
    let s1 := set_ops (ops s ++ [InsertText char pos]) s in
    set_readPosition (S (readPosition s1)) s1.

(** [type()]: [play] is the global flag as read by this call, [pos] what
    [posFromRelativePos] answers.  The boolean is the return value. *)
Definition type (play : bool) (now pos : Z) (s : Session) : Session * bool :=
  if readPosition s =? List.length (chunk s) then
    (set_queueCallbackCalls (queueCallbackCalls s ++ [MetricsRef]) s, false)
  else if negb play then (s, true)
  else
    let code := charCodeAt (chunk s) (readPosition s) in
    let s1 :=
      if codeIs code 13 then set_readPosition (S (readPosition s)) s else s in
    let code1 :=
      if codeIs code 13 then charCodeAt (chunk s1) (readPosition s1)
      else code in
    let s2 := trackOperation (insertion code1 pos) now s1 in
    (set_metrics
       (set_typingProgress
          (div (ofNat (readPosition s2)) (ofNat (List.length (chunk s2))))
          (metrics s2))
       s2,
     true).

(** One turn of the typing loop ([typeFast] or the [setInterval] body):
    the loop stays armed exactly when [type()] returns [true]. *)
Definition typingTurn (play : bool) (now pos : Z) (s : Session) : Session :=
  if typingTimer s then
    let '(s', again) := type play now pos s in
    set_typingTimer again s'
  else s.

(** *** Events of one session *)

Inductive Event : Type :=
| OpEvent (message : Message) (now : Z)
| SnapshotEvent (hours minutes seconds : nat)
| TypeEvent (play : bool) (now pos : Z).

Definition step (s : Session) (e : Event) : Session :=
  match e with
  | OpEvent message now => onOp message now s
  | SnapshotEvent h m sec =>
      if metricsInterval s then metricsTick h m sec s else s
  | TypeEvent play now pos => typingTurn play now pos s
  end.

Definition run (s : Session) (events : list Event) : Session :=
  fold_left step events s.

(* ================================================================== *)
(** ** The process: the global [play] flag and every running session *)

Record World : Type := mkWorld {
  play : bool;
  sessions : list Session
}.

(** [let play: boolean = false;] and no session started yet. *)
Definition initialWorld : World := {| play := false; sessions := [] |}.

(** [togglePlay()] *)
Definition togglePlay (w : World) : World :=
  {| play := negb (play w); sessions := sessions w |}.

Fixpoint updateAt {A} (l : list A) (i : nat) (f : A -> A) : list A :=
  match l, i with
  | [], _ => []
  | x :: t, 0 => f x :: t
  | x :: t, S j => x :: updateAt t j f
  end.

Inductive WorldEvent : Type :=
| TogglePlay
| StartSession (docClientId chunkKey : string) (chunk : list nat)
               (intervalTime now : Z)
| Sequenced (session : nat) (message : Message) (now : Z)
| Snapshot (session : nat) (hours minutes seconds : nat)
| Typing (session : nat) (now pos : Z).

Definition worldStep (w : World) (e : WorldEvent) : World :=
  match e with
  | TogglePlay => togglePlay w
  | StartSession clientId key text interval now =>
      {| play := play w;
         sessions := sessions w ++ [newSession clientId key text interval now] |}
  | Sequenced i message now =>
      {| play := play w;
         sessions := updateAt (sessions w) i (fun s => step s (OpEvent message now)) |}
  | Snapshot i h m sec =>
      {| play := play w;
         sessions := updateAt (sessions w) i (fun s => step s (SnapshotEvent h m sec)) |}
  | Typing i now pos =>
      {| play := play w;
         sessions :=
           updateAt (sessions w) i (fun s => step s (TypeEvent (play w) now pos)) |}
  end.

Definition worldRun (w : World) (events : list WorldEvent) : World :=
  fold_left worldStep events w.

Definition isToggle (e : WorldEvent) : bool :=
  match e with TogglePlay => true | _ => false end.

(* ================================================================== *)
(** ** [typeFile]: one writer, or a queue of writers *)

Module Promise.

(** How a promise ends: settled with a value, settled with an error, or
    never settled. *)
Inductive t (A : Type) : Type :=
| Resolved (value : A)
| Rejected (error : string)
| Pending.

Arguments Resolved {A} value.
Arguments Rejected {A} error.
Arguments Pending {A}.

(** [p.then(f)]: [f] answers with a promise (a plain value is [Resolved],
    a throw is [Rejected]). *)
Definition then_ {A B} (p : t A) (f : A -> t B) : t B :=
  match p with
  | Resolved a => f a
  | Rejected e => Rejected e
  | Pending => Pending
  end.

(** [p.catch(f)] *)
Definition catch_ {A} (p : t A) (f : string -> t A) : t A :=
  match p with
  | Resolved a => Resolved a
  | Rejected e => f e
  | Pending => Pending
  end.

End Promise.

Section TypeFile.

Import Promise.

(** The collaborators of [typeFile].  [chunks] is the promise
    [doc.getRoot().get("chunks")], which may resolve to [undefined]
    ([None]); [getView] is [chunkMap.getView()]; [single] is the promise of
    [typeChunk(doc, ss, "p-0", ...)]; [queued view writers] is the promise
    built around the work queue, which resolves with [metricsArray[0]] when
    the queue drains. *)
Variables IMap ChunkView Metrics : Type.
Variable chunks : Promise.t (option IMap).
Variable getView : IMap -> Promise.t ChunkView.
Variable single : Promise.t Metrics.
Variable queued : ChunkView -> Z -> Promise.t Metrics.

(** The result is a metrics object or [null] ([None]). *)
Definition typeFile (writers : Z) : Promise.t (option Metrics) :=
  if (writers =? 1)%Z then
    then_ single (fun m => Resolved (Some m))
  else
    catch_
      (then_
         (then_ chunks
            (fun chunkMap =>
               match chunkMap with
               | Some map => getView map
               | None => Rejected "TypeError"
               end))
         (fun chunkView =>
            then_ (queued chunkView writers) (fun m => Resolved (Some m))))
      (fun error => Resolved None).

End TypeFile.

(* ================================================================== *)
(** ** Vocabulary of the properties *)

(** The five series of a chart buffer have [n] slots each and the write
    index lies inside them. *)
Definition chartShape (n : nat) (data : Chart.IChartData) : Prop :=
  List.length (Chart.minimum data) = n /\
  List.length (Chart.maximum data) = n /\
  List.length (Chart.mean data) = n /\
  List.length (Chart.stdDev data) = n /\
  List.length (Chart.label data) = n /\
  Chart.index data < n.

(** Operations emitted on the shared string: one per inserted character or
    marker ([doc.save] is not one). *)
Definition isInsert (o : Op) : bool :=
  match o with
  | InsertMarker _ | InsertText _ _ => true
  | Save _ => false
  end.

Definition sent (s : Session) : nat := List.length (filter isInsert (ops s)).

(** Acknowledgements the listener of [s] attributes to its session, and
    among them those handled after, or within, the start-up delay. *)
Definition isAck (s : Session) (e : Event) : bool :=
  match e with
  | OpEvent message _ => attributed s message
  | _ => false
  end.

Definition isLateAck (s : Session) (e : Event) : bool :=
  match e with
  | OpEvent message now =>
      attributed s message && (now - startTime s >? RunningCalculationDelay)%Z
  | _ => false
  end.

Definition isEarlyAck (s : Session) (e : Event) : bool :=
  match e with
  | OpEvent message now =>
      attributed s message
      && negb (now - startTime s >? RunningCalculationDelay)%Z
  | _ => false
  end.

Definition countAcks (s : Session) (events : list Event) : nat :=
  List.length (filter (isAck s) events).

Definition countLateAcks (s : Session) (events : list Event) : nat :=
  List.length (filter (isLateAck s) events).

Definition countEarlyAcks (s : Session) (events : list Event) : nat :=
  List.length (filter (isEarlyAck s) events).

(** The client sequence numbers of the attributed acknowledgements of a
    run, in order of arrival. *)
Definition ackNumbers (s : Session) (events : list Event) : list Z :=
  flat_map (fun e =>
              match e with
              | OpEvent message _ =>
                  if attributed s message
                  then [clientSequenceNumber message] else []
              | _ => []
              end) events.

(** Every acknowledgement answers an operation sent before it: when an
    attributed acknowledgement arrives, fewer acknowledgements than sends
    have been seen.  [acks] counts those seen before [events]. *)
Fixpoint acksFollowSends (s : Session) (acks : nat) (events : list Event)
  : bool :=
  match events with
  | [] => true
  | e :: rest =>
      if isAck s e
      then (acks <? sent s) && acksFollowSends (step s e) (S acks) rest
      else acksFollowSends (step s e) acks rest
  end.

(** Batch statistics of a list of samples. *)
Definition sumR (xs : list R) : R := fold_right Rplus 0%R xs.

Definition batchMean (xs : list R) : R :=
  (sumR xs / INR (List.length xs))%R.

Definition sumSquaredDelta (c : R) (xs : list R) : R :=
  sumR (map (fun x => ((x - c) * (x - c))%R) xs).

(** The sample standard deviation, in its (n-1) form. *)
Definition batchStdDev (xs : list R) : R :=
  R_sqrt.sqrt
    (sumSquaredDelta (batchMean xs) xs / (INR (List.length xs) - 1))%R.

(** Samples handed to the estimator one after the other, each with the
    message it arrived with. *)
Definition feed (s : Session) (samples : list (Message * R)) : Session :=
  fold_left (fun s sample => recordRoundTrip (fst sample) (Num (snd sample)) s)
            samples s.


(** Statements of the specification that the code does not meet, as
    predicates on runs. *)

(** C2 as stated: the session is completed exactly when the number of
    acknowledgements attributed to it has reached the corpus length. *)
Definition completedAtAckCount (s0 : Session) (events : list Event) : Prop :=
  resolved (run s0 events) <> None
  <-> List.length (chunk s0) <= countAcks s0 events.


(** C4 as stated: with every emitted operation acknowledged, no send time
    is left. *)
Definition drainedWhenAcked (s0 : Session) (events : list Event) : Prop :=
  countAcks s0 events = sent (run s0 events) ->
  messageStart (run s0 events) = [].

(** The parameters of a session, which no handler assigns. *)
Definition sameConfig (s s' : Session) : Prop :=
  docClientId s' = docClientId s /\ chunk s' = chunk s
  /\ startTime s' = startTime s.

(** [n >= L], the completion test on a client sequence number. *)
Definition reaches (L : nat) (n : Z) : bool := (n >=? Z.of_nat L)%Z.

(** The part of the state the estimator lives in. *)
Definition estimatorView (s : Session)
  : list jsnum * RateCounter.t * jsnum * jsnum * jsnum * jsnum :=
  (histogram s, latencyCounter s, mean s, stdDev s,
   latencyAverage (metrics s), latencyStdDev (metrics s)).

Definition estimatorOk
           (v : list jsnum * RateCounter.t * jsnum * jsnum * jsnum * jsnum)
  : Prop :=
  let '(fed, counter, mean, m2, average, deviation) := v in
  forall xs,
    fed = map Num xs ->
    RateCounter.accumulatedValue counter = Num (sumR xs)
    /\ RateCounter.sampleCount counter = List.length xs
    /\ mean = Num (batchMean xs)
    /\ m2 = Num (sumSquaredDelta (batchMean xs) xs)
    /\ (xs <> [] ->
        average = Num (batchMean xs)
        /\ deviation
           = Num (if List.length xs =? 1 then 0%R else batchStdDev xs)).

From Stdlib Require Import DecimalNat.

(* ================================================================== *)
(** ** The histogram chart *)

(** [n.toString()] for a natural number: its decimal digits. *)
Definition toString (n : nat) : string :=
  NilEmpty.string_of_uint (Nat.to_uint n).

(** [array.map((x, index) => f x index)], the indices starting at [from]. *)
Fixpoint mapIndexed {A B} (f : A -> nat -> B) (from : nat) (array : list A)
  : list B :=
  match array with
  | [] => []
  | x :: rest => f x from :: mapIndexed f (S from) rest
  end.

(** The series of [getHistogramConfiguration].  Of the histogram object the
    function reads the fields [buckets] and [increment], which are its
    arguments here; the constant layout and title fields are left out. *)
Record HistogramConfiguration : Type := mkHistogramConfiguration {
  bucketNames : list string;
  bucketValues : list nat
}.

Definition getHistogramConfiguration (buckets : list nat) (increment : nat)
  : HistogramConfiguration :=
  {| bucketNames :=
       mapIndexed (fun bucket index => toString (index * increment)) 0 buckets;
     bucketValues := buckets |}.

(* ================================================================== *)
(** ** [DeltaQueueProxy] (deltaManagerProxy.ts) *)

Module DeltaQueueProxy.

(** Calls the proxy makes on the queue it wraps. *)
Inductive QueueCall : Type :=
| QueuePause
| QueueResume.

(** The two private flags, and the calls made on the wrapped queue so far,
    oldest first. *)
Record t : Type := mk {
  systemPaused : bool;
  localPaused : bool;
  calls : list QueueCall
}.

(** The constructor: both flags [false], no call made. *)
Definition create : t :=
  {| systemPaused := false; localPaused := false; calls := [] |}.

Definition systemPause (p : t) : t :=
  {| systemPaused := true; localPaused := localPaused p;
     calls := calls p ++ [QueuePause] |}.

Definition pause (p : t) : t :=
  {| systemPaused := systemPaused p; localPaused := true;
     calls := calls p ++ [QueuePause] |}.

Definition updateResume (p : t) : t :=
  if negb (systemPaused p) && negb (localPaused p)
  then {| systemPaused := systemPaused p; localPaused := localPaused p;
          calls := calls p ++ [QueueResume] |}
  else p.

Definition systemResume (p : t) : t :=
  updateResume {| systemPaused := false; localPaused := localPaused p;
                  calls := calls p |}.

Definition resume (p : t) : t :=
  updateResume {| systemPaused := systemPaused p; localPaused := false;
                  calls := calls p |}.

(** The four methods that change the proxy, as requests. *)
Inductive Request : Type :=
| SystemPause
| Pause
| SystemResume
| Resume.

Definition handle (p : t) (r : Request) : t :=
  match r with
  | SystemPause => systemPause p
  | Pause => pause p
  | SystemResume => systemResume p
  | Resume => resume p
  end.

Definition serve (p : t) (requests : list Request) : t :=
  fold_left handle requests p.

Definition isLocal (r : Request) : bool :=
  match r with
  | Pause | Resume => true
  | SystemPause | SystemResume => false
  end.

End DeltaQueueProxy.

(* ================================================================== *)
(** ** Further vocabulary *)

(** The decimal digit [d] as a character. *)
Definition digitChar (d : nat) : ascii := ascii_of_nat (48 + d).

(** The code units an operation puts into the shared string: a marker
    stands for the line feed it replaces. *)
Definition unitsOf (o : Op) : list nat :=
  match o with
  | InsertMarker _ => [10]
  | InsertText text _ => text
  | Save _ => []
  end.

Definition typedUnits (s : Session) : list nat := flat_map unitsOf (ops s).

(** Every carriage return of the corpus is followed by a code unit that is
    not a carriage return. *)
Fixpoint crFollowed (text : list nat) : bool :=
  match text with
  | [] => true
  | c :: rest =>
      (if c =? 13
       then match rest with
            | [] => false
            | d :: _ => negb (d =? 13)
            end
       else true)
      && crFollowed rest
  end.

Definition notCR (c : nat) : bool := negb (c =? 13).

Definition isMarker (o : Op) : bool :=
  match o with InsertMarker _ => true | _ => false end.

Definition isSave (o : Op) : bool :=
  match o with Save _ => true | _ => false end.

(** A number that is [NaN] or finite and not negative. *)
Definition nanOrNonNegative (x : jsnum) : Prop :=
  x = NonFinite \/ exists r, x = Num r /\ (0 <= r)%R.

(** A progress value not yet set, or inside [0, 1]. *)
Definition unsetOrUnit (x : jsnum) : Prop :=
  x = Undefined \/ exists r, x = Num r /\ (0 <= r <= 1)%R.

(** The clock never runs backwards along the events: [latest] is the
    reading before them.  Snapshot events carry no reading. *)
Fixpoint clockMonotone (latest : Z) (events : list Event) : bool :=
  match events with
  | [] => true
  | OpEvent _ now :: rest => (latest <=? now)%Z && clockMonotone now rest
  | TypeEvent _ now _ :: rest => (latest <=? now)%Z && clockMonotone now rest
  | SnapshotEvent _ _ _ :: rest => clockMonotone latest rest
  end.

(** Three parts of the session state, by the handler that owns them: what
    the typing loop writes, what the snapshot timer writes, and what the
    listener writes apart from the send times. *)
Definition typistView (s : Session)
  : nat * nat * list Op * bool * list Ref * jsnum :=
  (readPosition s, lineNumber s, ops s, typingTimer s, queueCallbackCalls s,
   typingProgress (metrics s)).

Definition displayView (s : Session)
  : Chart.IChartData * list Chart.ChartConfiguration :=
  (chartData s, performanceData s).

Definition listenerView (s : Session)
  : list IScribeMetrics * list Ref * option Ref * bool * list jsnum
    * jsnum * jsnum * jsnum * jsnum * RateCounter.t :=
  (clones s, callbackCalls s, resolved s, metricsInterval s, histogram s,
   stdDev s, mean s, latencyStdDev (metrics s), latencyAverage (metrics s),
   latencyCounter s).

(** The checkpoint policy as an invariant of the session. *)
Definition checkpointsOk (s : Session) : Prop :=
  lineNumber s = List.length (filter isMarker (ops s))
  /\ List.length (filter isSave (ops s)) = lineNumber s / saveLineFrequency
  /\ forall n, In (Save n) (ops s) ->
               n mod saveLineFrequency = 0 /\ 1 <= n <= lineNumber s.

(** The two states of the typing loop over the corpus [text]: armed with
    [queueCallback] not yet called, or stopped at the end of the corpus with
    [queueCallback] called once. *)
Definition loopState (text : list nat) (s : Session) : Prop :=
  chunk s = text
  /\ ((typingTimer s = true /\ queueCallbackCalls s = [])
      \/ (typingTimer s = false /\ queueCallbackCalls s = [MetricsRef]
          /\ readPosition s = List.length text)).

(** No outstanding send time lies after the clock reading [latest], and
    no recorded round trip is negative. *)
Definition clockOk (latest : Z) (s : Session) : Prop :=
  (forall sent, In sent (messageStart s) -> (sent <= latest)%Z)
  /\ Forall nanOrNonNegative (histogram s).

(** The latency statistics hold [NaN]. *)
Definition poisoned (s : Session) : Prop :=
  RateCounter.accumulatedValue (latencyCounter s) = NonFinite
  /\ stdDev s = NonFinite /\ mean s = NonFinite
  /\ latencyAverage (metrics s) = NonFinite.

(** The last call made on the wrapped queue agrees with the two flags:
    [QueuePause] while a flag is set; none at all, or [QueueResume], while
    both are clear. *)
Definition queueAgrees (p : DeltaQueueProxy.t) : Prop :=
  if DeltaQueueProxy.systemPaused p || DeltaQueueProxy.localPaused p
  then exists before,
      DeltaQueueProxy.calls p = before ++ [DeltaQueueProxy.QueuePause]
  else DeltaQueueProxy.calls p = []
       \/ exists before,
           DeltaQueueProxy.calls p = before ++ [DeltaQueueProxy.QueueResume].


(** The references one step passes to [callback] and to [queueCallback]:
    what the step appends to the log of each parameter.  A step calls at
    most one of the two: an acknowledgement calls [callback], a typing turn
    at the end of the corpus calls [queueCallback]. *)
Definition callbackOf (s : Session) (e : Event) : list Ref :=
  skipn (List.length (callbackCalls s)) (callbackCalls (step s e)).

Definition queueCallbackOf (s : Session) (e : Event) : list Ref :=
  skipn (List.length (queueCallbackCalls s)) (queueCallbackCalls (step s e)).

(** The references the function given to [typeFile] receives from one
    session, in order of time.  With one writer, line 212 passes that
    function to [typeChunk] both as [callback] and as [queueCallback], so it
    receives the calls of both parameters; with several writers it is
    [callback] only, [queueCallback] being the completion function of the
    work queue. *)
Fixpoint handedToCaller (writers : Z) (s : Session) (events : list Event)
  : list Ref :=
  match events with
  | [] => []
  | e :: rest =>
      (callbackOf s e
         ++ (if (writers =? 1)%Z then queueCallbackOf s e else []))
        ++ handedToCaller writers (step s e) rest
  end.

(* ================================================================== *)
(** ** Proof automation *)

(** Frame conditions: a block leaves alone the variables it does not
    assign.  Each is read off the block by case analysis on its tests. *)
Ltac frame :=
  first
    [ reflexivity
    | match goal with
      | |- context [if ?b then _ else _] => destruct b eqn:?
      | |- context [let '(_, _) := ?p in _] => destruct p eqn:?
      | |- context [match ?o with Some _ => _ | None => _ end] =>
          destruct o eqn:?
      end; frame ].

(** Projections of a session and its assignments, computed away. *)
Ltac proj_simpl :=
  cbn [docClientId chunkKey chunk intervalTime startTime readPosition
       lineNumber metrics clones ackCounter latencyCounter pingCounter
       typingCounter messageStart mean stdDev histogram chartData
       performanceData metricsInterval typingTimer resolved callbackCalls
       queueCallbackCalls ops fst snd
       set_readPosition set_lineNumber set_metrics set_clones set_ackCounter
       set_latencyCounter set_pingCounter set_typingCounter set_messageStart
       set_mean set_stdDev set_histogram set_chartData set_performanceData
       set_metricsInterval set_typingTimer set_resolved set_callbackCalls
       set_queueCallbackCalls set_ops].

(* ================================================================== *)
(** * Properties *)

(** ** Runs and invariants *)

Lemma run_app (s : Session) (es1 es2 : list Event) :
  run s (es1 ++ es2) = run (run s es1) es2.
Proof. unfold run. apply fold_left_app. Qed.

Lemma run_snoc (s : Session) (es : list Event) (e : Event) :
  run s (es ++ [e]) = step (run s es) e.
Proof. rewrite run_app. reflexivity. Qed.

Lemma run_invariant (P : Session -> Prop) :
  (forall s e, P s -> P (step s e)) ->
  forall es s, P s -> P (run s es).
Proof.
  intros Hstep es. induction es as [|e es IH]; intros s Hs.
  - exact Hs.
  - cbn. apply IH, Hstep, Hs.
Qed.

(** ** Small checks of the embedding *)

Example padTime_one_digit : padTime 5 = "05"%string.
Proof. reflexivity. Qed.

Example padTime_two_digits : padTime 42 = "42"%string.
Proof. reflexivity. Qed.

Example rearrange_after_write_index :
  Chart.rearrange [0; 1; 2; 3; 4] 1 = [2; 3; 4; 0; 1].
Proof. reflexivity. Qed.

Example pop_takes_last : pop [1; 2; 3] = (Some 3, [1; 2]).
Proof. reflexivity. Qed.

Example marker_and_save_every_fifth_line :
  ops (run (newSession "c" "p-0" [10; 10; 10; 10; 10] 0 0)
           (map (fun n => TypeEvent true (Z.of_nat n) 7) (seq 1 5)))
  = [InsertMarker 7; InsertMarker 7; InsertMarker 7; InsertMarker 7;
     InsertMarker 7; Save 5].
Proof. reflexivity. Qed.

Example carriage_return_is_skipped :
  let s := run (newSession "c" "p-0" [97; 13; 10; 98] 0 0)
               [TypeEvent true 1 0; TypeEvent true 2 0; TypeEvent true 3 0;
                TypeEvent true 4 0] in
  ops s = [InsertText [97] 0; InsertMarker 0; InsertText [98] 0]
  /\ readPosition s = 4 /\ typingTimer s = false
  /\ queueCallbackCalls s = [MetricsRef].
Proof. cbv zeta. repeat split; reflexivity. Qed.

(** ** The chart buffer *)

Lemma assign_length {A} (hole : A) (a : list A) (i : nat) (v : A) :
  i < List.length a -> List.length (assign hole a i v) = List.length a.
Proof.
  revert i. induction a as [|x a IH]; intros [|i] H; cbn in *; try lia.
  rewrite IH; lia.
Qed.

Lemma createChartData_shape (n : nat) :
  0 < n -> chartShape n (Chart.createChartData n).
Proof.
  intros Hn. unfold chartShape, Chart.createChartData. cbn.
  rewrite !repeat_length. repeat split; auto.
Qed.

Lemma countAck_chartData now s : chartData (countAck now s) = chartData s.
Proof. unfold countAck. frame. Qed.

Lemma runningCalculation_chartData message now s :
  chartData (runningCalculation message now s) = chartData s.
Proof. unfold runningCalculation, recordRoundTrip. frame. Qed.

Lemma completionCheck_chartData message now s :
  chartData (completionCheck message now s) = chartData s.
Proof. unfold completionCheck. frame. Qed.

Lemma onOp_chartData message now s :
  chartData (onOp message now s) = chartData s.
Proof.
  unfold onOp. destruct (attributed s message); [|reflexivity].
  unfold notify; proj_simpl.
  now rewrite completionCheck_chartData, runningCalculation_chartData,
    countAck_chartData.
Qed.

Lemma trackOperation_chartData fn now s :
  (forall s', chartData (fn s') = chartData s') ->
  chartData (trackOperation fn now s) = chartData s.
Proof.
  intros Hfn. unfold trackOperation. cbn [set_messageStart chartData].
  rewrite Hfn. frame.
Qed.

Lemma insertion_chartData code pos s :
  chartData (insertion code pos s) = chartData s.
Proof. unfold insertion. frame. Qed.

Lemma type_chartData play now pos s :
  chartData (fst (type play now pos s)) = chartData s.
Proof.
  unfold type.
  destruct (readPosition s =? _); [reflexivity|].
  destruct (negb play); [reflexivity|].
  cbn [fst set_metrics chartData].
  rewrite trackOperation_chartData by apply insertion_chartData.
  frame.
Qed.

Lemma step_chartShape n s e :
  chartShape n (chartData s) -> chartShape n (chartData (step s e)).
Proof.
  intros H. destruct e as [message now|h m sec|play now pos]; cbn.
  - rewrite onOp_chartData. exact H.
  - destruct (metricsInterval s); [|exact H].
    unfold metricsTick. destruct (isDefined _); [|exact H].
    destruct H as (H1 & H2 & H3 & H4 & H5 & H6). cbn.
    unfold chartShape; cbn.
    rewrite !assign_length by lia.
    repeat split; try assumption.
    rewrite H2. apply Nat.mod_upper_bound. lia.
  - unfold typingTurn. destruct (typingTimer s); [|exact H].
    pose proof (type_chartData play now pos s) as E.
    destruct (type play now pos s) as [s' again]; cbn in *.
    rewrite E. exact H.
Qed.

Lemma rearrange_rotation {A} (a : list A) (i : nat) :
  Chart.rearrange a i = skipn (i + 1) a ++ firstn (i + 1) a.
Proof. reflexivity. Qed.

Lemma rearrange_nth {A} (a : list A) (i k : nat) :
  i < List.length a -> k < List.length a ->
  nth_error (Chart.rearrange a i) k
  = nth_error a ((i + 1 + k) mod List.length a).
Proof.
  intros Hi Hk. rewrite rearrange_rotation.
  set (n := List.length a) in *.
  destruct (Nat.lt_ge_cases k (n - (i + 1))) as [Hlt|Hge].
  - rewrite nth_error_app1 by (rewrite length_skipn; fold n; lia).
    rewrite nth_error_skipn. rewrite Nat.mod_small by lia. reflexivity.
  - rewrite nth_error_app2 by (rewrite length_skipn; fold n; lia).
    rewrite length_skipn. fold n.
    rewrite nth_error_firstn.
    replace ((i + 1 + k) mod n) with (k - (n - (i + 1))).
    + destruct (Nat.ltb_spec (k - (n - (i + 1))) (i + 1)); [reflexivity|lia].
    + apply Nat.mod_unique with (q := 1); lia.
Qed.

Lemma reachable_chartShape docId key text interval t0 events :
  chartShape ChartSamples
    (chartData (run (newSession docId key text interval t0) events)).
Proof.
  apply (run_invariant (fun s => chartShape ChartSamples (chartData s))).
  - intros s e. apply step_chartShape.
  - cbn. apply createChartData_shape. unfold ChartSamples. lia.
Qed.


Lemma assign_nth {A} (hole : A) (a : list A) : forall i v,
  i < List.length a -> nth_error (assign hole a i v) i = Some v.
Proof.
  induction a as [|x a IH]; intros [|i] v H; cbn in *; try lia.
  - reflexivity.
  - apply IH. lia.
Qed.







(** ** Pausing *)

Lemma set_typingTimer_same s : set_typingTimer (typingTimer s) s = s.
Proof. destruct s; reflexivity. Qed.

Lemma type_paused now pos s :
  readPosition s <> List.length (chunk s) ->
  type false now pos s = (s, true).
Proof.
  intros H. unfold type.
  destruct (Nat.eqb_spec (readPosition s) (List.length (chunk s)));
    [contradiction|reflexivity].
Qed.

Lemma typingTurn_paused now pos s :
  readPosition s <> List.length (chunk s) ->
  typingTurn false now pos s = s.
Proof.
  intros H. unfold typingTurn.
  destruct (typingTimer s) eqn:E; [|reflexivity].
  rewrite type_paused by assumption.
  rewrite <- E. apply set_typingTimer_same.
Qed.






(** ** No emission before the first [togglePlay] *)

Lemma countAck_ops now s : ops (countAck now s) = ops s.
Proof. unfold countAck. frame. Qed.

Lemma runningCalculation_ops message now s :
  ops (runningCalculation message now s) = ops s.
Proof. unfold runningCalculation, recordRoundTrip. frame. Qed.

Lemma completionCheck_ops message now s :
  ops (completionCheck message now s) = ops s.
Proof. unfold completionCheck. frame. Qed.

Lemma onOp_ops message now s : ops (onOp message now s) = ops s.
Proof.
  unfold onOp. destruct (attributed s message); [|reflexivity].
  unfold notify; proj_simpl.
  now rewrite completionCheck_ops, runningCalculation_ops, countAck_ops.
Qed.

Lemma metricsTick_ops h m sec s : ops (metricsTick h m sec s) = ops s.
Proof. unfold metricsTick. frame. Qed.

Lemma type_paused_ops now pos s : ops (fst (type false now pos s)) = ops s.
Proof. unfold type. frame. Qed.

Lemma step_paused_ops s e :
  (forall now pos, e <> TypeEvent true now pos) ->
  ops (step s e) = ops s.
Proof.
  intros He. destruct e as [message now|h m sec|[|] now pos]; cbn.
  - apply onOp_ops.
  - destruct (metricsInterval s); [apply metricsTick_ops|reflexivity].
  - exfalso. now apply (He now pos).
  - unfold typingTurn. destruct (typingTimer s); [|reflexivity].
    pose proof (type_paused_ops now pos s) as E.
    destruct (type false now pos s) as [s' again]. exact E.
Qed.

Lemma updateAt_Forall {A} (P : A -> Prop) (l : list A) (i : nat) (f : A -> A) :
  (forall x, P x -> P (f x)) -> Forall P l -> Forall P (updateAt l i f).
Proof.
  intros Hf H. revert i. induction H as [|x l Hx Hl IH]; intros [|i]; cbn;
    constructor; auto.
Qed.

(** C10.  The flag starts cleared, and as long as [togglePlay] is not
    called it stays so and no session of the process, however many are
    started and whatever their corpus and pacing, issues any call on the
    shared string or the document. *)
Theorem no_emission_before_first_toggle :
  forall (events : list WorldEvent),
    forallb (fun e => negb (isToggle e)) events = true ->
    play initialWorld = false
    /\ play (worldRun initialWorld events) = false
    /\ Forall (fun s => ops s = [] /\ sent s = 0)
              (sessions (worldRun initialWorld events)).
Proof.
  intros events Hev. split; [reflexivity|].
  assert (G : forall w,
             play w = false -> Forall (fun s => ops s = []) (sessions w) ->
             play (worldRun w events) = false
             /\ Forall (fun s => ops s = []) (sessions (worldRun w events))).
  { induction events as [|e events IH]; intros w Hp Hs; [now split|].
    cbn in Hev. apply andb_prop in Hev as [He Hev].
    cbn [worldRun fold_left]. apply (IH Hev).
    - destruct e; cbn in *; try assumption. discriminate.
    - destruct e; cbn [worldStep sessions]; try discriminate.
      + apply Forall_app; split; [assumption|]. now constructor.
      + apply updateAt_Forall; [|assumption].
        intros s E. rewrite step_paused_ops; [assumption|discriminate].
      + apply updateAt_Forall; [|assumption].
        intros s E. rewrite step_paused_ops; [assumption|discriminate].
      + apply updateAt_Forall; [|assumption].
        intros s E. rewrite Hp.
        rewrite step_paused_ops; [assumption|discriminate]. }
  destruct (G initialWorld eq_refl (Forall_nil _)) as [G1 G2].
  split; [exact G1|].
  eapply Forall_impl; [|exact G2].
  intros s E. split; [exact E|]. unfold sent. now rewrite E.
Qed.

Lemma no_emission_before_first_toggle_witness :
  Forall (fun s => ops s = [] /\ sent s = 0)
    (sessions (worldRun initialWorld
                 [StartSession "c" "p-0" [104; 105] 0 0;
                  Typing 0 1 0; Typing 0 2 0;
                  StartSession "d" "p-1" [10] 50 3; Typing 1 53 0])).
Proof.
  apply (no_emission_before_first_toggle
           [StartSession "c" "p-0" [104; 105] 0 0;
            Typing 0 1 0; Typing 0 2 0;
            StartSession "d" "p-1" [10] 50 3; Typing 1 53 0]).
  reflexivity.
Defined.

(** ** The multi-writer dispatch *)

(** C9.  With more than one writer, when the chunk map cannot be resolved
    (the lookup promise rejects, resolves to [undefined], or [getView]
    fails), [typeFile] resolves to [null]; and in that branch no rejection
    whatsoever reaches the caller. *)
Theorem missing_chunk_map_resolves_null :
  forall (IMap ChunkView Metrics : Type)
         (chunks : Promise.t (option IMap))
         (getView : IMap -> Promise.t ChunkView)
         (single : Promise.t Metrics)
         (queued : ChunkView -> Z -> Promise.t Metrics)
         (writers : Z),
    writers <> 1%Z ->
    ((exists error, chunks = Promise.Rejected error)
     \/ chunks = Promise.Resolved None
     \/ (exists map error,
           chunks = Promise.Resolved (Some map)
           /\ getView map = Promise.Rejected error)) ->
    typeFile IMap ChunkView Metrics chunks getView single queued writers
    = Promise.Resolved None
    /\ forall error,
        typeFile IMap ChunkView Metrics chunks getView single queued writers
        <> Promise.Rejected error.
Proof.
  intros IMap ChunkView Metrics chunks getView single queued writers Hw Hfail.
  assert (E : typeFile IMap ChunkView Metrics chunks getView single queued
                       writers = Promise.Resolved None).
  { unfold typeFile. destruct (Z.eqb_spec writers 1); [contradiction|].
    destruct Hfail as [[error ->]|[->|(map & error & -> & Hv)]]; cbn;
      [reflexivity|reflexivity|now rewrite Hv]. }
  split; [exact E|]. intros error. rewrite E. discriminate.
Qed.

Lemma missing_chunk_map_resolves_null_witness :
  typeFile unit unit unit (Promise.Rejected "not found")
           (fun _ => Promise.Resolved tt) Promise.Pending
           (fun _ _ => Promise.Pending) 2
  = Promise.Resolved None.
Proof.
  apply (missing_chunk_map_resolves_null unit unit unit
           (Promise.Rejected "not found") (fun _ => Promise.Resolved tt)
           Promise.Pending (fun _ _ => Promise.Pending) 2%Z).
  - lia.
  - left. now exists "not found"%string.
Defined.

(** ** Exact arithmetic on numbers *)

Lemma div_Num (x y : R) : y <> 0%R -> div (Num x) (Num y) = Num (x / y).
Proof.
  intros H. unfold div. destruct (Req_dec_T y 0); [contradiction|reflexivity].
Qed.

Lemma sqrt_Num (x : R) : (0 <= x)%R -> JS.sqrt (Num x) = Num (R_sqrt.sqrt x).
Proof.
  intros H. unfold JS.sqrt. destruct (Rlt_dec x 0); [lra|reflexivity].
Qed.

Lemma INR_S_neq_0 (n : nat) : INR (S n) <> 0%R.
Proof. apply not_0_INR. discriminate. Qed.

(** ** Progress beyond one *)

(** C6, on the code.  Over the two-character corpus ["ab"] an attributed
    acknowledgement with client sequence number 3 sets [ackProgress] to
    3/2; over the corpus ["a\r"] the second typing turn skips the carriage
    return, inserts the empty string and leaves the cursor at 3, so
    [typingProgress] is 3/2.  Both exceed 1. *)
Theorem progress_exceeds_one :
  ackProgress
    (metrics (run (newSession "c" "p-0" [97; 98] 0 0)
                  [OpEvent (mkMessage 3 "c" []) 5]))
  = Num (3 / 2)
  /\ (let s := run (newSession "c" "p-0" [97; 13] 0 0)
                   [TypeEvent true 1 0; TypeEvent true 2 0] in
      readPosition s = 3
      /\ ops s = [InsertText [97] 0; InsertText [] 0]
      /\ typingProgress (metrics s) = Num (3 / 2))
  /\ (1 < 3 / 2)%R.
Proof.
  split; [|split; [|lra]].
  - change (div (ofZ 3) (ofNat 2) = Num (3 / 2)).
    unfold ofZ, ofNat. rewrite div_Num by apply INR_S_neq_0.
    apply f_equal. cbn. lra.
  - cbv zeta. split; [reflexivity|]. split; [reflexivity|].
    change (div (ofNat 3) (ofNat 2) = Num (3 / 2)).
    unfold ofNat. rewrite div_Num by apply INR_S_neq_0.
    apply f_equal. cbn. lra.
Qed.

(** ** Completion *)

Lemma sameConfig_refl s : sameConfig s s.
Proof. now repeat split. Qed.

Lemma sameConfig_trans s1 s2 s3 :
  sameConfig s1 s2 -> sameConfig s2 s3 -> sameConfig s1 s3.
Proof.
  intros (A1 & A2 & A3) (B1 & B2 & B3).
  repeat split; congruence.
Qed.

Lemma countAck_config now s : sameConfig s (countAck now s).
Proof. unfold sameConfig, countAck. repeat split; frame. Qed.

Lemma countAck_startTime now s : startTime (countAck now s) = startTime s.
Proof. apply countAck_config. Qed.

Lemma countAck_messageStart now s :
  messageStart (countAck now s) = messageStart s.
Proof. unfold countAck. frame. Qed.

Lemma countAck_histogram now s : histogram (countAck now s) = histogram s.
Proof. unfold countAck. frame. Qed.

Lemma runningCalculation_config message now s :
  sameConfig s (runningCalculation message now s).
Proof. unfold sameConfig, runningCalculation, recordRoundTrip. repeat split; frame. Qed.

Lemma completionCheck_config message now s :
  sameConfig s (completionCheck message now s).
Proof. unfold sameConfig, completionCheck. repeat split; frame. Qed.

Lemma notify_config message s : sameConfig s (notify message s).
Proof. now repeat split. Qed.

Lemma onOp_config message now s : sameConfig s (onOp message now s).
Proof.
  unfold onOp. destruct (attributed s message); [|apply sameConfig_refl].
  eapply sameConfig_trans; [apply countAck_config|].
  eapply sameConfig_trans; [apply runningCalculation_config|].
  eapply sameConfig_trans; [apply completionCheck_config|].
  apply notify_config.
Qed.

Lemma metricsTick_config h m sec s : sameConfig s (metricsTick h m sec s).
Proof. unfold sameConfig, metricsTick. repeat split; frame. Qed.

Lemma insertion_config code pos s : sameConfig s (insertion code pos s).
Proof. unfold sameConfig, insertion. repeat split; frame. Qed.

Lemma trackOperation_config fn now s :
  (forall s', sameConfig s' (fn s')) ->
  sameConfig s (trackOperation fn now s).
Proof.
  intros Hfn. unfold trackOperation.
  match goal with
  | |- sameConfig _ (set_messageStart _ (fn ?x)) =>
      destruct (Hfn x) as (A & B & C);
      assert (D : sameConfig s x) by (unfold sameConfig; repeat split; frame)
  end.
  destruct D as (D1 & D2 & D3).
  unfold sameConfig. proj_simpl. repeat split; congruence.
Qed.

Lemma type_config play now pos s : sameConfig s (fst (type play now pos s)).
Proof.
  unfold type.
  destruct (readPosition s =? _); [now repeat split|].
  destruct (negb play); [apply sameConfig_refl|].
  proj_simpl.
  match goal with
  | |- sameConfig _ (set_metrics _ (trackOperation ?fn ?now ?x)) =>
      destruct (trackOperation_config fn now x) as (A & B & C);
      [intros; apply insertion_config|];
      assert (D : sameConfig s x) by (unfold sameConfig; repeat split; frame)
  end.
  destruct D as (D1 & D2 & D3).
  unfold sameConfig. proj_simpl. repeat split; congruence.
Qed.

Lemma step_config s e : sameConfig s (step s e).
Proof.
  destruct e as [message now|h m sec|play now pos]; cbn.
  - apply onOp_config.
  - destruct (metricsInterval s);
      [apply metricsTick_config|apply sameConfig_refl].
  - unfold typingTurn. destruct (typingTimer s); [|apply sameConfig_refl].
    pose proof (type_config play now pos s) as E.
    destruct (type play now pos s) as [s' again]. exact E.
Qed.

Lemma attributed_config s s' message :
  sameConfig s s' -> attributed s' message = attributed s message.
Proof. intros (A & _). unfold attributed. now rewrite A. Qed.

(** What the listener does to the completion state. *)
Lemma runningCalculation_completion message now s :
  resolved (runningCalculation message now s) = resolved s
  /\ metricsInterval (runningCalculation message now s) = metricsInterval s
  /\ time (metrics (runningCalculation message now s)) = time (metrics s).
Proof. unfold runningCalculation, recordRoundTrip. repeat split; frame. Qed.

Lemma countAck_completion now s :
  resolved (countAck now s) = resolved s
  /\ metricsInterval (countAck now s) = metricsInterval s
  /\ time (metrics (countAck now s)) = time (metrics s).
Proof. unfold countAck. repeat split; proj_simpl; frame. Qed.

Lemma onOp_completion message now s :
  attributed s message = true ->
  let done :=
    (clientSequenceNumber message >=? Z.of_nat (List.length (chunk s)))%Z in
  resolved (onOp message now s)
  = (if done then settle (resolved s) else resolved s)
  /\ metricsInterval (onOp message now s)
     = (if done then false else metricsInterval s)
  /\ time (metrics (onOp message now s))
     = (if done then ofZ (now - startTime s) else time (metrics s)).
Proof.
  intros Ha done. unfold onOp. rewrite Ha.
  set (s1 := runningCalculation message now (countAck now s)).
  assert (C : sameConfig s s1).
  { eapply sameConfig_trans;
      [apply countAck_config|apply runningCalculation_config]. }
  assert (F : resolved s1 = resolved s
              /\ metricsInterval s1 = metricsInterval s
              /\ time (metrics s1) = time (metrics s)).
  { destruct (runningCalculation_completion message now (countAck now s))
      as (A1 & A2 & A3).
    destruct (countAck_completion now s) as (B1 & B2 & B3).
    unfold s1. repeat split; congruence. }
  destruct C as (_ & C2 & C3). destruct F as (F1 & F2 & F3).
  unfold notify. proj_simpl. unfold completionCheck.
  rewrite C2, C3. fold done. destruct done; proj_simpl; cbn [time set_ackProgress set_time];
    rewrite ?F1, ?F2, ?F3; repeat split; reflexivity.
Qed.

Lemma metricsTick_completion h m sec s :
  resolved (metricsTick h m sec s) = resolved s
  /\ metricsInterval (metricsTick h m sec s) = metricsInterval s.
Proof. unfold metricsTick. repeat split; frame. Qed.

Lemma insertion_completion code pos s :
  resolved (insertion code pos s) = resolved s
  /\ metricsInterval (insertion code pos s) = metricsInterval s.
Proof. unfold insertion. repeat split; frame. Qed.

Lemma type_completion play now pos s :
  resolved (fst (type play now pos s)) = resolved s
  /\ metricsInterval (fst (type play now pos s)) = metricsInterval s.
Proof.
  unfold type.
  destruct (readPosition s =? _); [now split|].
  destruct (negb play); [now split|].
  unfold trackOperation. proj_simpl.
  match goal with
  | |- context [insertion ?c ?p ?x] =>
      destruct (insertion_completion c p x) as (A & B); rewrite A, B
  end.
  split; frame.
Qed.

Lemma step_completion_other s e :
  isAck s e = false ->
  resolved (step s e) = resolved s
  /\ metricsInterval (step s e) = metricsInterval s.
Proof.
  intros He. destruct e as [message now|h m sec|play now pos]; cbn in *.
  - unfold onOp. rewrite He. now split.
  - destruct (metricsInterval s) eqn:E; [|now split].
    rewrite <- E. apply metricsTick_completion.
  - unfold typingTurn. destruct (typingTimer s); [|now split].
    pose proof (type_completion play now pos s) as E.
    destruct (type play now pos s) as [s' again]. exact E.
Qed.

Lemma settle_not_None r : settle r <> None.
Proof. destruct r; discriminate. Qed.

Lemma run_completion events :
  forall s,
    (resolved s = None <-> metricsInterval s = true) ->
    (resolved (run s events) <> None
     <-> resolved s <> None
         \/ existsb (reaches (List.length (chunk s))) (ackNumbers s events)
            = true)
    /\ (resolved (run s events) = None
        <-> metricsInterval (run s events) = true).
Proof.
  induction events as [|e events IH]; intros s Hinv.
  - cbn. split; [|exact Hinv]. split; [now left|].
    intros [H|H]; [exact H|discriminate].
  - cbn [run fold_left]. fold (run (step s e) events).
    pose proof (step_config s e) as C.
    assert (EA : ackNumbers (step s e) events = ackNumbers s events).
    { unfold ackNumbers.
      apply flat_map_ext. intros [message now| |]; try reflexivity.
      now rewrite (attributed_config s (step s e) message C). }
    destruct (isAck s e) eqn:He.
    + destruct e as [message now| |]; try discriminate. cbn in He.
      destruct (onOp_completion message now s He) as (A & B & _).
      cbn [step ackNumbers flat_map]. rewrite He.
      cbn [step] in IH, C, EA.
      destruct (IH (onOp message now s)) as [I1 I2].
      { cbn [step]. rewrite A, B.
        destruct (clientSequenceNumber message >=? _)%Z.
        - split; [intros E; now apply settle_not_None in E|discriminate].
        - exact Hinv. }
      split; [|exact I2].
      rewrite I1. destruct C as (_ & C2 & _). rewrite C2, EA, A.
      cbn [app existsb]. unfold reaches at 2.
      destruct (clientSequenceNumber message >=? _)%Z; cbn [orb].
      * split; [now right|]. intros _. left. apply settle_not_None.
      * reflexivity.
    + destruct (step_completion_other s e He) as (A & B).
      destruct (IH (step s e)) as [I1 I2]; [now rewrite A, B|].
      split; [|exact I2].
      rewrite I1. destruct C as (_ & C2 & _). rewrite C2, EA, A.
      assert (E0 : ackNumbers s (e :: events) = ackNumbers s events).
      { destruct e as [message now| |]; try reflexivity.
        cbn in He. cbn [ackNumbers flat_map]. now rewrite He. }
      now rewrite E0.
Qed.

Lemma existsb_reaches_seq (L k : nat) :
  existsb (reaches L) (map Z.of_nat (seq 1 k)) = true <-> 1 <= k /\ L <= k.
Proof.
  rewrite existsb_exists. split.
  - intros (n & Hin & Hn). apply in_map_iff in Hin as (j & <- & Hj).
    apply in_seq in Hj. unfold reaches in Hn. lia.
  - intros [H1 H2]. exists (Z.of_nat k). split.
    + apply in_map, in_seq. lia.
    + unfold reaches. lia.
Qed.

(** C2, as the code has it.  An attributed acknowledgement completes the
    session (timer cleared, elapsed time set, promise settled) exactly when
    its client sequence number has reached the corpus length, and leaves
    the completion state alone otherwise.  When the attributed
    acknowledgements of a run carry the numbers 1, 2, ..., k in order, the
    session started fresh is completed exactly when k has reached the
    corpus length (and is at least 1), and its timer is cleared exactly
    then. *)
Theorem completion_follows_sequence_number :
  forall (docClientId chunkKey : string) (text : list nat)
         (interval t0 : Z) (events : list Event) (k : nat)
         (s : Session) (message : Message) (now : Z),
    attributed s message = true ->
    ackNumbers (newSession docClientId chunkKey text interval t0) events
    = map Z.of_nat (seq 1 k) ->
    let L := Z.of_nat (List.length (chunk s)) in
    let final := run (newSession docClientId chunkKey text interval t0) events in
    ((L <= clientSequenceNumber message)%Z ->
     resolved (onOp message now s) <> None
     /\ metricsInterval (onOp message now s) = false
     /\ time (metrics (onOp message now s)) = ofZ (now - startTime s))
    /\ ((clientSequenceNumber message < L)%Z ->
        resolved (onOp message now s) = resolved s
        /\ metricsInterval (onOp message now s) = metricsInterval s
        /\ time (metrics (onOp message now s)) = time (metrics s))
    /\ (resolved final <> None <-> 1 <= k /\ List.length text <= k)
    /\ (metricsInterval final = false <-> 1 <= k /\ List.length text <= k).
Proof.
  intros docId key text interval t0 events k s message now Ha Hnum L final.
  destruct (onOp_completion message now s Ha) as (A & B & C).
  fold L in A, B, C.
  split; [|split].
  - intros H. destruct (Z.geb_spec (clientSequenceNumber message) L); [|lia].
    rewrite A, B, C. split; [apply settle_not_None|now split].
  - intros H. destruct (Z.geb_spec (clientSequenceNumber message) L); [lia|].
    now rewrite A, B, C.
  - destruct (run_completion events
                (newSession docId key text interval t0)) as [I1 I2];
      [now split|].
    fold final in I1, I2. cbn [chunk newSession] in I1.
    rewrite Hnum, existsb_reaches_seq in I1.
    assert (G : resolved final <> None <-> 1 <= k /\ List.length text <= k).
    { rewrite I1. cbn [resolved newSession].
      split; [intros [H|H]; [congruence|exact H]|now right]. }
    split; [exact G|].
    rewrite <- G. split; intros H.
    + intros E. rewrite (proj1 I2 E) in H. discriminate.
    + destruct (metricsInterval final) eqn:EM; [|reflexivity].
      exfalso. apply H. now apply I2.
Qed.

Lemma completion_follows_sequence_number_witness :
  let s0 := newSession "c" "p-0" [97; 98] 0 0 in
  let events := [TypeEvent true 1 0; OpEvent (mkMessage 1 "c" []) 3;
                 TypeEvent true 4 0; OpEvent (mkMessage 2 "c" []) 6] in
  resolved (run s0 events) <> None <-> 1 <= 2 /\ List.length [97; 98] <= 2.
Proof.
  intros s0 events.
  apply (completion_follows_sequence_number "c" "p-0" [97; 98] 0%Z 0%Z
           events 2 s0 (mkMessage 1 "c" []) 3%Z).
  - reflexivity.
  - reflexivity.
Defined.

(** C2 as stated fails: over the corpus ["ab"] a first acknowledgement
    that carries client sequence number 2 completes the session, with one
    acknowledgement counted against a corpus of length two. *)
Lemma completion_before_ack_count :
  ~ completedAtAckCount (newSession "c" "p-0" [97; 98] 0 0)
      [OpEvent (mkMessage 2 "c" []) 5].
Proof.
  unfold completedAtAckCount. intros [H _].
  assert (E : resolved (run (newSession "c" "p-0" [97; 98] 0 0)
                            [OpEvent (mkMessage 2 "c" []) 5])
              = Some MetricsRef) by reflexivity.
  rewrite E in H. specialize (H ltac:(discriminate)).
  cbn in H. lia.
Qed.

(** ** Snapshots handed to the callback *)

Lemma onOp_callback message now s :
  attributed s message = true ->
  callbackCalls (onOp message now s)
  = callbackCalls s ++ [CloneRef (List.length (clones s))]
  /\ clones (onOp message now s) = clones s ++ [metrics (onOp message now s)].
Proof.
  intros Ha. unfold onOp. rewrite Ha.
  set (s2 := completionCheck message now
               (runningCalculation message now (countAck now s))).
  assert (F : callbackCalls s2 = callbackCalls s /\ clones s2 = clones s).
  { unfold s2, completionCheck.
    set (s1 := runningCalculation message now (countAck now s)).
    assert (F1 : callbackCalls s1 = callbackCalls s /\ clones s1 = clones s).
    { unfold s1, runningCalculation, recordRoundTrip, countAck. split; frame. }
    destruct F1 as [<- <-]. split; frame. }
  destruct F as [F1 F2]. unfold notify. proj_simpl.
  now rewrite F1, F2.
Qed.

Lemma onOp_ignored message now s :
  attributed s message = false -> onOp message now s = s.
Proof. intros Ha. unfold onOp. now rewrite Ha. Qed.










(** ** Outstanding send times *)

Lemma pop_length {A} (a : list A) :
  List.length (snd (pop a)) = pred (List.length a).
Proof.
  unfold pop. rewrite <- (length_rev a).
  destruct (rev a) as [|x r]; cbn; [reflexivity|apply length_rev].
Qed.

Lemma onOp_messageStart message now s :
  attributed s message = true ->
  messageStart (onOp message now s)
  = if (now - startTime s >? RunningCalculationDelay)%Z
    then snd (pop (messageStart s))
    else messageStart s.
Proof.
  intros Ha. unfold onOp. rewrite Ha. unfold notify. proj_simpl.
  set (s1 := runningCalculation message now (countAck now s)).
  assert (E : messageStart (completionCheck message now s1) = messageStart s1)
    by (unfold completionCheck; frame).
  rewrite E. unfold s1, runningCalculation, recordRoundTrip.
  rewrite countAck_startTime, countAck_messageStart.
  destruct (now - startTime s >? RunningCalculationDelay)%Z;
    [|apply countAck_messageStart].
  destruct (pop (messageStart s)); reflexivity.
Qed.

Lemma metricsTick_messageStart h m sec s :
  messageStart (metricsTick h m sec s) = messageStart s.
Proof. unfold metricsTick. frame. Qed.

Lemma filter_isInsert_snoc (l : list Op) (o : Op) :
  List.length (filter isInsert (l ++ [o]))
  = List.length (filter isInsert l) + (if isInsert o then 1 else 0).
Proof.
  rewrite filter_app, length_app. cbn. now destruct (isInsert o).
Qed.

(** [insertion] issues exactly one operation on the shared string and
    leaves the send times alone. *)
Lemma insertion_sent code pos s :
  sent (insertion code pos s) = S (sent s)
  /\ messageStart (insertion code pos s) = messageStart s.
Proof.
  unfold insertion, sent.
  destruct (codeIs code 10); proj_simpl.
  - destruct (_ =? 0); proj_simpl;
      rewrite ?filter_isInsert_snoc; cbn [isInsert]; split;
      try reflexivity; lia.
  - rewrite filter_isInsert_snoc; cbn [isInsert]. split; [lia|reflexivity].
Qed.

(** A typing turn sends nothing and records nothing, or sends one
    operation and records its time. *)
Lemma type_sent play now pos s :
  let s' := fst (type play now pos s) in
  (sent s' = sent s /\ messageStart s' = messageStart s)
  \/ (sent s' = S (sent s) /\ messageStart s' = messageStart s ++ [now]).
Proof.
  unfold type.
  destruct (readPosition s =? _); [left; now split|].
  destruct (negb play); [left; now split|].
  right. unfold trackOperation. proj_simpl. unfold sent. proj_simpl.
  match goal with
  | |- context [insertion ?c ?p ?x] =>
      destruct (insertion_sent c p x) as (A & B); unfold sent in A;
      rewrite A, B;
      assert (C : ops x = ops s /\ messageStart x = messageStart s)
        by (split; frame)
  end.
  destruct C as [-> ->]. now split.
Qed.

Lemma step_other_sent s e :
  isAck s e = false ->
  List.length (messageStart (step s e)) + sent s
  = List.length (messageStart s) + sent (step s e)
  /\ List.length (messageStart s) <= List.length (messageStart (step s e)).
Proof.
  intros He. destruct e as [message now|h m sec|play now pos]; cbn [step].
  - cbn in He. rewrite onOp_ignored by assumption. lia.
  - destruct (metricsInterval s); [|lia].
    unfold sent. rewrite metricsTick_messageStart, metricsTick_ops. lia.
  - unfold typingTurn. destruct (typingTimer s); [|lia].
    pose proof (type_sent play now pos s) as E.
    destruct (type play now pos s) as [s' again]. cbn [fst] in E.
    unfold sent in *. proj_simpl.
    destruct E as [[E1 E2]|[E1 E2]]; rewrite E1, E2, ?length_app; cbn; lia.
Qed.

Lemma step_ack_sent s message now :
  attributed s message = true ->
  sent (step s (OpEvent message now)) = sent s
  /\ List.length (messageStart (step s (OpEvent message now)))
     = if (now - startTime s >? RunningCalculationDelay)%Z
       then pred (List.length (messageStart s))
       else List.length (messageStart s).
Proof.
  intros Ha. cbn [step]. unfold sent. rewrite onOp_ops.
  rewrite onOp_messageStart by assumption.
  destruct (_ >? _)%Z; [rewrite pop_length|]; now split.
Qed.

Lemma isLateAck_config s s' e :
  sameConfig s s' -> isLateAck s' e = isLateAck s e.
Proof.
  intros C. destruct e as [message now| |]; try reflexivity. cbn.
  rewrite (attributed_config s s' message C).
  destruct C as (_ & _ & ->). reflexivity.
Qed.

Lemma isAck_config s s' e : sameConfig s s' -> isAck s' e = isAck s e.
Proof.
  intros C. destruct e as [message now| |]; try reflexivity. cbn.
  apply attributed_config, C.
Qed.

Lemma filter_config (f g : Event -> bool) (events : list Event) :
  (forall e, f e = g e) ->
  List.length (filter f events) = List.length (filter g events).
Proof. intros H. now rewrite (filter_ext f g H). Qed.

Lemma run_outstanding events :
  forall s acks late,
    late <= acks ->
    List.length (messageStart s) + late = sent s ->
    acksFollowSends s acks events = true ->
    List.length (messageStart (run s events)) + (late + countLateAcks s events)
    = sent (run s events).
Proof.
  induction events as [|e events IH]; intros s acks late Hle Hinv Hord.
  - cbn. unfold countLateAcks. cbn. lia.
  - cbn [run fold_left]. fold (run (step s e) events).
    pose proof (step_config s e) as C.
    assert (EL : countLateAcks s (e :: events)
                 = (if isLateAck s e then 1 else 0)
                   + countLateAcks (step s e) events).
    { unfold countLateAcks. cbn [filter].
      rewrite (filter_config (isLateAck (step s e)) (isLateAck s))
        by (intros; now apply isLateAck_config).
      now destruct (isLateAck s e). }
    rewrite EL. cbn [acksFollowSends] in Hord.
    destruct (isAck s e) eqn:He.
    + apply andb_prop in Hord as [Hlt Hord]. apply Nat.ltb_lt in Hlt.
      destruct e as [message now| |]; try discriminate. cbn in He.
      destruct (step_ack_sent s message now He) as [E1 E2].
      cbn [isLateAck]. rewrite He. cbn [andb].
      destruct (now - startTime s >? RunningCalculationDelay)%Z.
      * rewrite <- (IH _ (S acks) (S late)); [lia|lia| |exact Hord].
        rewrite E1, E2. lia.
      * rewrite <- (IH _ (S acks) late); [lia|lia| |exact Hord].
        rewrite E1, E2. lia.
    + assert (EN : isLateAck s e = false).
      { destruct e as [message now| |]; try reflexivity.
        cbn in *. now rewrite He. }
      rewrite EN.
      destruct (step_other_sent s e He) as [E1 E2].
      rewrite <- (IH _ acks late); [lia|lia|lia|exact Hord].
Qed.

Lemma ack_split s events :
  countAcks s events = countLateAcks s events + countEarlyAcks s events.
Proof.
  unfold countAcks, countLateAcks, countEarlyAcks.
  induction events as [|e events IH]; [reflexivity|].
  cbn [filter].
  destruct e as [message now| |]; cbn [isAck isLateAck isEarlyAck];
    try exact IH.
  destruct (attributed s message); cbn [andb]; [|exact IH].
  destruct (_ >? _)%Z; cbn [negb List.length]; lia.
Qed.

(** C4, as the code has it.  No event takes more than one send time away,
    and only an attributed acknowledgement handled after the start-up delay
    takes one.  In a run where every acknowledgement follows its send, the
    send times left are the operations sent minus the acknowledgements
    handled after the delay; so once every operation is acknowledged, one
    send time is left for each acknowledgement handled within the delay. *)
Theorem outstanding_sends_after_acks :
  forall (docClientId chunkKey : string) (text : list nat)
         (interval t0 : Z) (events : list Event) (s : Session) (e : Event),
    let s0 := newSession docClientId chunkKey text interval t0 in
    acksFollowSends s0 0 events = true ->
    List.length (messageStart s) <= S (List.length (messageStart (step s e)))
    /\ (isLateAck s e = false ->
        List.length (messageStart s) <= List.length (messageStart (step s e)))
    /\ List.length (messageStart (run s0 events)) + countLateAcks s0 events
       = sent (run s0 events)
    /\ (countAcks s0 events = sent (run s0 events) ->
        List.length (messageStart (run s0 events)) = countEarlyAcks s0 events).
Proof.
  intros docId key text interval t0 events s e s0 Hord.
  assert (Hstep :
            List.length (messageStart s)
            <= S (List.length (messageStart (step s e)))
            /\ (isLateAck s e = false ->
                List.length (messageStart s)
                <= List.length (messageStart (step s e)))).
  { destruct (isAck s e) eqn:He.
    - destruct e as [message now| |]; try discriminate. cbn in He.
      destruct (step_ack_sent s message now He) as [_ E]. rewrite E.
      cbn [isLateAck]. rewrite He. cbn [andb].
      destruct (_ >? _)%Z; split; try lia; discriminate.
    - destruct (step_other_sent s e He) as [_ E]. split; [lia|intros _; exact E]. }
  destruct Hstep as [H1 H2].
  pose proof (run_outstanding events s0 0 0 (le_n 0) eq_refl Hord) as H3.
  cbn [Nat.add] in H3.
  split; [exact H1|]. split; [exact H2|]. split; [exact H3|].
  intros Hall. rewrite ack_split in Hall. lia.
Qed.

Lemma outstanding_sends_after_acks_witness :
  let s0 := newSession "c" "p-0" [97; 98] 0 0 in
  let events := [TypeEvent true 9000 0; OpEvent (mkMessage 1 "c" []) 9500;
                 TypeEvent true 10500 0; OpEvent (mkMessage 2 "c" []) 11000] in
  List.length (messageStart (run s0 events)) + countLateAcks s0 events
  = sent (run s0 events).
Proof.
  intros s0 events.
  apply (outstanding_sends_after_acks "c" "p-0" [97; 98] 0%Z 0%Z events
           s0 (SnapshotEvent 0 0 0)).
  reflexivity.
Defined.

(** C4 as stated fails: the one character of ["a"] is sent at 5 and
    acknowledged at 10, within the start-up delay; every operation is then
    acknowledged and the send time 5 is still held. *)
Lemma acked_session_keeps_send_time :
  let s0 := newSession "c" "p-0" [97] 0 0 in
  let events := [TypeEvent true 5 0; OpEvent (mkMessage 1 "c" []) 10] in
  messageStart (run s0 events) = [5%Z]
  /\ ~ drainedWhenAcked s0 events.
Proof.
  cbv zeta. split; [reflexivity|].
  unfold drainedWhenAcked. intros H.
  specialize (H eq_refl). discriminate H.
Qed.

(** ** Which send an acknowledgement is paired with *)

Lemma pop_snoc {A} (a : list A) (x : A) : pop (a ++ [x]) = (Some x, a).
Proof. unfold pop. rewrite rev_app_distr. cbn. now rewrite rev_involutive. Qed.

(** An attributed acknowledgement handled after the start-up delay takes
    the send time pushed LAST and measures the round trip from it. *)
Lemma late_ack_takes_latest_send message now s older latest :
  attributed s message = true ->
  (now - startTime s > RunningCalculationDelay)%Z ->
  messageStart s = older ++ [latest] ->
  messageStart (onOp message now s) = older
  /\ histogram (onOp message now s) = histogram s ++ [ofZ (now - latest)].
Proof.
  intros Ha Hlate Hms.
  assert (G : (now - startTime s >? RunningCalculationDelay)%Z = true)
    by (apply Z.gtb_lt; lia).
  split.
  - rewrite onOp_messageStart by assumption.
    now rewrite G, Hms, pop_snoc.
  - unfold onOp. rewrite Ha. unfold notify. proj_simpl.
    set (s1 := runningCalculation message now (countAck now s)).
    assert (E : histogram (completionCheck message now s1) = histogram s1)
      by (unfold completionCheck; frame).
    rewrite E. unfold s1, runningCalculation, recordRoundTrip.
    rewrite countAck_startTime, countAck_messageStart.
    rewrite G, Hms, pop_snoc. proj_simpl. now rewrite countAck_histogram.
Qed.

(** C1, on the code.  Two characters are sent at 10001 and 10002 and the
    first acknowledgement arrives at 10003.  The listener pops the send
    time pushed last: the round trip it records is 10003 - 10002 = 1, and
    the earliest send, 10001, stays outstanding.  First-in first-out
    pairing would record 10003 - 10001 = 2 and leave 10002. *)
Theorem ack_is_paired_with_latest_send :
  let s := run (newSession "c" "p-0" [97; 98] 0 0)
               [TypeEvent true 10001 0; TypeEvent true 10002 0;
                OpEvent (mkMessage 1 "c" []) 10003] in
  ops s = [InsertText [97] 0; InsertText [98] 0]
  /\ histogram s = [Num 1]
  /\ messageStart s = [10001%Z]
  /\ histogram s <> [Num 2].
Proof.
  cbv zeta.
  assert (H : histogram (run (newSession "c" "p-0" [97; 98] 0 0)
               [TypeEvent true 10001 0; TypeEvent true 10002 0;
                OpEvent (mkMessage 1 "c" []) 10003]) = [Num 1]) by reflexivity.
  split; [reflexivity|]. split; [exact H|]. split; [reflexivity|].
  rewrite H. intros E. injection E as E. lra.
Qed.

(** ** The running latency estimator *)

Lemma sumR_app xs ys : sumR (xs ++ ys) = (sumR xs + sumR ys)%R.
Proof.
  unfold sumR. induction xs as [|x xs IH]; cbn; [lra|]. rewrite IH. lra.
Qed.

Lemma sumSquaredDelta_snoc c xs x :
  sumSquaredDelta c (xs ++ [x])
  = (sumSquaredDelta c xs + (x - c) * (x - c))%R.
Proof.
  unfold sumSquaredDelta. rewrite map_app, sumR_app. cbn. lra.
Qed.

Lemma sumSquaredDelta_expand c xs :
  sumSquaredDelta c xs
  = (sumR (map (fun x => x * x) xs) - 2 * c * sumR xs
     + INR (List.length xs) * c * c)%R.
Proof.
  unfold sumSquaredDelta, sumR.
  induction xs as [|x xs IH].
  - cbn. lra.
  - cbn [map fold_right List.length]. rewrite IH, S_INR. lra.
Qed.

Lemma sumSquaredDelta_nonneg c xs : (0 <= sumSquaredDelta c xs)%R.
Proof.
  unfold sumSquaredDelta, sumR. induction xs as [|x xs IH]; cbn; [lra|].
  pose proof (Rle_0_sqr (x - c)) as H. unfold Rsqr in H. lra.
Qed.

Lemma batchMean_nil : batchMean [] = 0%R.
Proof. unfold batchMean, Rdiv. cbn. apply Rmult_0_l. Qed.

Lemma batchMean_snoc xs x :
  batchMean (xs ++ [x]) = ((sumR xs + x) / INR (S (List.length xs)))%R.
Proof.
  unfold batchMean. rewrite sumR_app, length_app, Nat.add_1_r. cbn. f_equal. lra.
Qed.

(** Welford's step: the sum of squared deviations from the new mean is
    the old one plus [(x - mean') * (x - mean)]. *)
Lemma welford_step xs x :
  sumSquaredDelta (batchMean (xs ++ [x])) (xs ++ [x])
  = (sumSquaredDelta (batchMean xs) xs
     + (x - batchMean (xs ++ [x])) * (x - batchMean xs))%R.
Proof.
  rewrite sumSquaredDelta_snoc, batchMean_snoc.
  destruct xs as [|y ys].
  - rewrite batchMean_nil. cbn. unfold sumSquaredDelta. cbn. field.
  - rewrite !sumSquaredDelta_expand. unfold batchMean.
    set (n := List.length (y :: ys)).
    assert (Hn : INR n <> 0%R) by (apply not_0_INR; discriminate).
    assert (Hn1 : INR (S n) <> 0%R) by apply INR_S_neq_0.
    rewrite S_INR in *.
    set (S := sumR (y :: ys)). set (Q := sumR (map (fun x => (x * x)%R) (y :: ys))).
    field. split; assumption.
Qed.

Lemma map_Num_snoc_inv (fed : list jsnum) (r : jsnum) (xs' : list R) :
  fed ++ [r] = map Num xs' ->
  exists xs x, xs' = xs ++ [x] /\ fed = map Num xs /\ r = Num x.
Proof.
  intros H. destruct (exists_last (l := xs')) as (xs & x & ->).
  - intros E. subst xs'. destruct fed; discriminate.
  - rewrite map_app in H. cbn in H.
    apply app_inj_tail in H as [H1 H2]. eauto.
Qed.

Lemma recordRoundTrip_estimator message roundTrip s :
  estimatorOk (estimatorView s) ->
  estimatorOk (estimatorView (recordRoundTrip message roundTrip s)).
Proof.
  intros Hok. unfold recordRoundTrip.
  unfold estimatorView. proj_simpl.
  cbn [latencyAverage latencyStdDev set_latencyStdDev set_latencyAverage].
  unfold estimatorOk. intros xs' Hfed.
  apply map_Num_snoc_inv in Hfed as (xs & x & -> & Hfed & Hx).
  destruct (Hok xs Hfed) as (A1 & A2 & A3 & A4 & _).
  rewrite Hx.
  unfold RateCounter.getValue, RateCounter.getSamples, RateCounter.increment.
  cbn [RateCounter.accumulatedValue RateCounter.sampleCount].
  rewrite A1, A2, A3, A4.
  unfold ofNat. cbn [add sub mul lift2].
  rewrite div_Num by apply INR_S_neq_0.
  rewrite <- batchMean_snoc. cbn [sub mul add lift2].
  rewrite <- welford_step.
  rewrite sumR_app, length_app, Nat.add_1_r.
  split; [apply f_equal; cbn; lra|].
  split; [reflexivity|]. split; [reflexivity|]. split; [reflexivity|].
  intros _. split; [reflexivity|].
  destruct (List.length xs) as [|n] eqn:En.
  - reflexivity.
  - change (1 <? S (S n)) with true. change (S (S n) =? 1) with false.
    cbv iota.
    assert (Hpos : (0 < INR (S (S n)) - 1)%R).
    { rewrite S_INR. pose proof (pos_INR (S n)) as P.
      assert (INR (S n) <> 0%R) by apply INR_S_neq_0. lra. }
    rewrite div_Num by lra.
    rewrite sqrt_Num.
    + unfold batchStdDev. rewrite length_app, Nat.add_1_r, En. reflexivity.
    + apply Rmult_le_pos; [apply sumSquaredDelta_nonneg|].
      left. now apply Rinv_0_lt_compat.
Qed.

Lemma runningCalculation_estimator message now s :
  estimatorOk (estimatorView s) ->
  estimatorOk (estimatorView (runningCalculation message now s)).
Proof.
  intros Hok. unfold runningCalculation.
  destruct (_ >? _)%Z; [|exact Hok].
  destruct (pop (messageStart s)) as [popped remaining].
  now apply recordRoundTrip_estimator.
Qed.

Lemma feed_estimator samples :
  forall s,
    estimatorOk (estimatorView s) ->
    estimatorOk (estimatorView (feed s samples))
    /\ histogram (feed s samples)
       = histogram s ++ map Num (map snd samples).
Proof.
  induction samples as [|[message x] samples IH]; intros s Hok.
  - cbn. now rewrite app_nil_r.
  - cbn [feed fold_left fst snd map].
    fold (feed (recordRoundTrip message (Num x) s) samples).
    destruct (IH (recordRoundTrip message (Num x) s)) as [I1 I2].
    + now apply recordRoundTrip_estimator.
    + split; [exact I1|]. rewrite I2.
      unfold recordRoundTrip. proj_simpl. now rewrite <- app_assoc.
Qed.

Lemma onOp_estimator message now s :
  estimatorOk (estimatorView s) ->
  estimatorOk (estimatorView (onOp message now s)).
Proof.
  intros Hok. unfold onOp. destruct (attributed s message); [|exact Hok].
  set (s1 := runningCalculation message now (countAck now s)).
  assert (H1 : estimatorOk (estimatorView s1)).
  { apply runningCalculation_estimator.
    replace (estimatorView (countAck now s)) with (estimatorView s);
      [exact Hok|].
    unfold estimatorView, countAck. proj_simpl.
    destruct (_ >? _)%Z; reflexivity. }
  replace (estimatorView (notify message (completionCheck message now s1)))
    with (estimatorView s1); [exact H1|].
  unfold estimatorView, notify. proj_simpl.
  cbn [latencyAverage latencyStdDev set_ackProgress].
  unfold completionCheck. destruct (_ >=? _)%Z; reflexivity.
Qed.

Lemma metricsTick_estimator h m sec s :
  estimatorView (metricsTick h m sec s) = estimatorView s.
Proof. unfold metricsTick. destruct (isDefined _); reflexivity. Qed.

Lemma insertion_estimator code pos s :
  estimatorView (insertion code pos s) = estimatorView s.
Proof. unfold insertion. frame. Qed.

Lemma type_estimator play now pos s :
  estimatorView (fst (type play now pos s)) = estimatorView s.
Proof.
  unfold type.
  destruct (readPosition s =? _); [reflexivity|].
  destruct (negb play); [reflexivity|].
  unfold trackOperation. proj_simpl.
  match goal with
  | |- context [insertion ?c ?p ?x] =>
      pose proof (insertion_estimator c p x) as E;
      assert (F : estimatorView x = estimatorView s) by frame
  end.
  rewrite F in E. unfold estimatorView in *. proj_simpl.
  cbn [latencyAverage latencyStdDev set_typingProgress].
  exact E.
Qed.

Lemma step_estimator s e :
  estimatorOk (estimatorView s) -> estimatorOk (estimatorView (step s e)).
Proof.
  intros Hok. destruct e as [message now|h m sec|play now pos]; cbn [step].
  - now apply onOp_estimator.
  - destruct (metricsInterval s); [|exact Hok].
    now rewrite metricsTick_estimator.
  - unfold typingTurn. destruct (typingTimer s); [|exact Hok].
    pose proof (type_estimator play now pos s) as E.
    destruct (type play now pos s) as [s' again]. cbn [fst] in E.
    replace (estimatorView (set_typingTimer again s'))
      with (estimatorView s') by reflexivity.
    now rewrite E.
Qed.

Lemma newSession_estimator docClientId chunkKey text interval t0 :
  estimatorOk (estimatorView (newSession docClientId chunkKey text interval t0)).
Proof.
  unfold estimatorView, estimatorOk. cbn. intros xs Hxs.
  destruct xs; [|discriminate]. rewrite batchMean_nil.
  split; [reflexivity|]. split; [reflexivity|]. split; [reflexivity|].
  split; [reflexivity|]. intros Hn. now contradiction Hn.
Qed.

(** C5.  Take a session in any state it can reach, where the round trips
    recorded so far are the finite samples [xs], and hand its estimator any
    further samples [fed], one after the other.  If there is at least one
    sample in all, [latencyAverage] is the batch mean of all of them and
    [latencyStdDev] their batch sample standard deviation in the (n-1)
    form, exactly; with a single sample [latencyStdDev] is 0. *)
Theorem running_estimator_matches_batch :
  forall (docClientId chunkKey : string) (text : list nat)
         (interval t0 : Z) (events : list Event) (xs : list R)
         (fed : list (Message * R)),
    let reached := run (newSession docClientId chunkKey text interval t0) events in
    let s := feed reached fed in
    let all := xs ++ map snd fed in
    histogram reached = map Num xs ->
    all <> [] ->
    latencyAverage (metrics s) = Num (batchMean all)
    /\ latencyStdDev (metrics s)
       = Num (if List.length all =? 1 then 0%R else batchStdDev all)
    /\ RateCounter.getSamples (latencyCounter s) = List.length all.
Proof.
  intros docId key text interval t0 events xs fed reached s all Hfed Hne.
  assert (Hreached : estimatorOk (estimatorView reached)).
  { apply (run_invariant (fun s => estimatorOk (estimatorView s))).
    - intros s' e. apply step_estimator.
    - apply newSession_estimator. }
  destruct (feed_estimator fed reached Hreached) as [Hok Hh]. fold s in Hok, Hh.
  unfold estimatorOk, estimatorView in Hok.
  assert (Hall : histogram s = map Num all).
  { rewrite Hh, Hfed. unfold all. now rewrite map_app. }
  destruct (Hok all Hall) as (_ & A2 & _ & _ & A5).
  destruct (A5 Hne) as [B1 B2]. now repeat split.
Qed.

Lemma running_estimator_matches_batch_witness :
  let reached := run (newSession "c" "p-0" [97; 98] 0 0)
                     [TypeEvent true 10001 0; TypeEvent true 10002 0;
                      OpEvent (mkMessage 1 "c" []) 10005;
                      OpEvent (mkMessage 2 "c" []) 10009] in
  let s := feed reached [(mkMessage 3 "c" [], 4%R)] in
  latencyAverage (metrics s) = Num (batchMean [3; 8; 4]%R)
  /\ latencyStdDev (metrics s) = Num (batchStdDev [3; 8; 4]%R).
Proof.
  intros reached s.
  destruct (running_estimator_matches_batch "c" "p-0" [97; 98] 0%Z 0%Z
              [TypeEvent true 10001 0; TypeEvent true 10002 0;
               OpEvent (mkMessage 1 "c" []) 10005;
               OpEvent (mkMessage 2 "c" []) 10009] [3; 8]%R
              [(mkMessage 3 "c" [], 4%R)])
    as (H1 & H2 & _).
  - reflexivity.
  - discriminate.
  - split; [exact H1|exact H2].
Defined.

(* ================================================================== *)
(** * Further properties of the code *)

(** ** Time labels *)

Lemma little_succ_nonnil d : Decimal.Little.succ d <> Decimal.Nil.
Proof. destruct d; discriminate. Qed.

Lemma to_little_uint_nonnil n : forall acc,
  acc <> Decimal.Nil -> Nat.to_little_uint n acc <> Decimal.Nil.
Proof.
  induction n as [|n IH]; intros acc H; cbn; [exact H|].
  apply IH, little_succ_nonnil.
Qed.

Lemma revapp_nonnil d : forall acc,
  acc <> Decimal.Nil -> Decimal.revapp d acc <> Decimal.Nil.
Proof.
  induction d; intros acc H; cbn; try exact H; apply IHd; discriminate.
Qed.

Lemma to_uint_nonnil n : Nat.to_uint n <> Decimal.Nil.
Proof.
  unfold Nat.to_uint, Decimal.rev.
  pose proof (to_little_uint_nonnil n Decimal.zero) as H.
  destruct (Nat.to_little_uint n Decimal.zero) as [|d|d|d|d|d|d|d|d|d|d];
    [exfalso; apply H; [discriminate|reflexivity] | ..];
    cbn; apply revapp_nonnil; discriminate.
Qed.

Lemma toString_nonempty n : 1 <= String.length (toString n).
Proof.
  unfold toString. pose proof (to_uint_nonnil n) as H.
  destruct (Nat.to_uint n); [contradiction|..]; cbn; lia.
Qed.

Lemma substring_length (s : string) : forall n m,
  n + m <= String.length s -> String.length (substring n m s) = m.
Proof.
  induction s as [|c s IH]; intros n m H; cbn in H.
  - assert (n = 0) by lia. assert (m = 0) by lia. now subst.
  - destruct n as [|n]; cbn.
    + destruct m as [|m]; [reflexivity|]. cbn. f_equal.
      apply (IH 0 m). lia.
    + apply IH. lia.
Qed.

Lemma padTime_table :
  forallb (fun v =>
             String.eqb (padTime v)
                        (String (digitChar (v / 10))
                                (String (digitChar (v mod 10)) EmptyString)))
          (seq 0 100) = true.
Proof. vm_compute. reflexivity. Qed.

(** X1.  [padTime] always yields exactly two characters; below 100 they
    are the tens digit and the units digit of the value, so one-digit
    values get a leading zero. *)
Theorem padTime_two_characters :
  forall (value : nat),
    String.length (padTime value) = 2
    /\ (value < 100 ->
        padTime value
        = String (digitChar (value / 10))
                 (String (digitChar (value mod 10)) EmptyString)).
Proof.
  intros v. split.
  - unfold padTime, slice_last2.
    change ("0" ++ NilEmpty.string_of_uint (Nat.to_uint v))%string
      with (String "0" (toString v)).
    pose proof (toString_nonempty v) as H.
    apply substring_length. cbn [String.length]. lia.
  - intros Hv. pose proof padTime_table as T.
    rewrite forallb_forall in T.
    apply String.eqb_eq, T, in_seq. lia.
Qed.

Lemma padTime_two_characters_witness :
  padTime 7 = String (digitChar (7 / 10)) (String (digitChar (7 mod 10)) EmptyString).
Proof.
  apply (padTime_two_characters 7). lia.
Defined.

(** ** The chart series *)

Lemma combine_length first : forall second f,
  List.length (Chart.combine first second f) = List.length first.
Proof.
  induction first as [|a first IH]; intros second f; cbn; [reflexivity|].
  now rewrite IH.
Qed.

Lemma nth_tl {A} (l : list A) (k : nat) (d : A) : nth k (tl l) d = nth (S k) l d.
Proof. destruct l; [now destruct k|reflexivity]. Qed.

Lemma combine_nth first : forall second f k a,
  nth_error first k = Some a ->
  nth_error (Chart.combine first second f) k
  = Some (f a (nth k second Undefined)).
Proof.
  induction first as [|b first IH]; intros second f k a H.
  - destruct k; discriminate.
  - destruct k as [|k]; cbn in *.
    + injection H as ->. now destruct second.
    + rewrite (IH _ _ _ _ H). now rewrite nth_tl.
Qed.

(** X2.  [combine first second f] has one entry per element of [first],
    the [k]-th being [f] of the two [k]-th elements; where [second] is too
    short its element is [undefined], and a sum with it is not a number. *)
Theorem combine_is_pointwise :
  forall (first second : list jsnum) (f : jsnum -> jsnum -> jsnum)
         (k : nat) (a : jsnum),
    nth_error first k = Some a ->
    List.length (Chart.combine first second f) = List.length first
    /\ nth_error (Chart.combine first second f) k
       = Some (f a (nth k second Undefined))
    /\ (List.length second <= k ->
        nth_error (Chart.combine first second add) k = Some NonFinite).
Proof.
  intros first second f k a H.
  split; [apply combine_length|]. split; [now apply combine_nth|].
  intros Hk. rewrite (combine_nth _ _ _ _ _ H).
  rewrite nth_overflow by exact Hk. now destruct a.
Qed.

Lemma combine_is_pointwise_witness :
  nth_error (Chart.combine [Num 1; Num 2] [Num 5] add) 1 = Some NonFinite.
Proof.
  apply (combine_is_pointwise [Num 1; Num 2] [Num 5] add 1 (Num 2)).
  - reflexivity.
  - cbn. lia.
Defined.




(** ** Which handler writes what *)

Lemma countAck_typistView now s : typistView (countAck now s) = typistView s.
Proof. unfold countAck. frame. Qed.

Lemma runningCalculation_typistView message now s :
  typistView (runningCalculation message now s) = typistView s.
Proof. unfold runningCalculation, recordRoundTrip. frame. Qed.

Lemma completionCheck_typistView message now s :
  typistView (completionCheck message now s) = typistView s.
Proof. unfold completionCheck. frame. Qed.

Lemma notify_typistView message s : typistView (notify message s) = typistView s.
Proof. reflexivity. Qed.

Lemma onOp_typistView message now s :
  typistView (onOp message now s) = typistView s.
Proof.
  unfold onOp. destruct (attributed s message); [|reflexivity].
  now rewrite notify_typistView, completionCheck_typistView,
    runningCalculation_typistView, countAck_typistView.
Qed.

Lemma metricsTick_typistView h m sec s :
  typistView (metricsTick h m sec s) = typistView s.
Proof. unfold metricsTick. frame. Qed.

Lemma step_snapshot_typistView h m sec s :
  typistView (step s (SnapshotEvent h m sec)) = typistView s.
Proof.
  cbn [step]. destruct (metricsInterval s);
    [apply metricsTick_typistView|reflexivity].
Qed.

Lemma countAck_displayView now s : displayView (countAck now s) = displayView s.
Proof. unfold countAck. frame. Qed.

Lemma runningCalculation_displayView message now s :
  displayView (runningCalculation message now s) = displayView s.
Proof. unfold runningCalculation, recordRoundTrip. frame. Qed.

Lemma completionCheck_displayView message now s :
  displayView (completionCheck message now s) = displayView s.
Proof. unfold completionCheck. frame. Qed.

Lemma onOp_displayView message now s :
  displayView (onOp message now s) = displayView s.
Proof.
  unfold onOp. destruct (attributed s message); [|reflexivity].
  change (displayView (notify message ?x)) with (displayView x).
  now rewrite completionCheck_displayView, runningCalculation_displayView,
    countAck_displayView.
Qed.

Lemma insertion_displayView code pos s :
  displayView (insertion code pos s) = displayView s.
Proof. unfold insertion. frame. Qed.

Lemma insertion_listenerView code pos s :
  listenerView (insertion code pos s) = listenerView s.
Proof. unfold insertion. frame. Qed.

Lemma type_displayView play now pos s :
  displayView (fst (type play now pos s)) = displayView s.
Proof.
  unfold type.
  destruct (readPosition s =? _); [reflexivity|].
  destruct (negb play); [reflexivity|].
  unfold trackOperation. proj_simpl.
  match goal with
  | |- context [insertion ?c ?p ?x] =>
      pose proof (insertion_displayView c p x) as E;
      assert (F : displayView x = displayView s) by frame
  end.
  rewrite F in E. exact E.
Qed.

Lemma type_listenerView play now pos s :
  listenerView (fst (type play now pos s)) = listenerView s.
Proof.
  unfold type.
  destruct (readPosition s =? _); [reflexivity|].
  destruct (negb play); [reflexivity|].
  unfold trackOperation. proj_simpl.
  match goal with
  | |- context [insertion ?c ?p ?x] =>
      pose proof (insertion_listenerView c p x) as E;
      assert (F : listenerView x = listenerView s) by frame
  end.
  rewrite F in E. exact E.
Qed.

Lemma step_type_views play now pos s :
  displayView (step s (TypeEvent play now pos)) = displayView s
  /\ listenerView (step s (TypeEvent play now pos)) = listenerView s.
Proof.
  cbn [step]. unfold typingTurn. destruct (typingTimer s); [|now split].
  pose proof (type_displayView play now pos s) as E1.
  pose proof (type_listenerView play now pos s) as E2.
  destruct (type play now pos s) as [s' again]. cbn [fst] in E1, E2.
  split; [exact E1|exact E2].
Qed.

Lemma metricsTick_listenerView h m sec s :
  listenerView (metricsTick h m sec s) = listenerView s.
Proof. unfold metricsTick. frame. Qed.

Lemma step_snapshot_listenerView h m sec s :
  listenerView (step s (SnapshotEvent h m sec)) = listenerView s.
Proof.
  cbn [step]. destruct (metricsInterval s);
    [apply metricsTick_listenerView|reflexivity].
Qed.

Lemma run_config events : forall s, sameConfig s (run s events).
Proof.
  induction events as [|e events IH]; intros s; [apply sameConfig_refl|].
  cbn [run fold_left]. fold (run (step s e) events).
  eapply sameConfig_trans; [apply step_config|apply IH].
Qed.

(** ** What a snapshot tick writes *)

Lemma rearrange_assign_last {A} (hole : A) (a : list A) (i : nat) (v : A) :
  i < List.length a ->
  nth_error (Chart.rearrange (assign hole a i v) i) (List.length a - 1)
  = Some v.
Proof.
  intros H.
  rewrite rearrange_nth by (rewrite assign_length; lia).
  rewrite assign_length by lia.
  replace ((i + 1 + (List.length a - 1)) mod List.length a) with i.
  - now apply assign_nth.
  - apply Nat.mod_unique with (q := 1); lia.
Qed.

(** X4.  When the snapshot timer of a session is armed and the latency
    statistics are defined, a tick appends exactly one chart configuration
    whose last entries are the current values: the mean series ends with
    [latencyAverage], the minimum and maximum series with
    [latencyMinimum] and [latencyMaximum], the names with the label of the
    tick; and the write index moves on by one, wrapping at
    [ChartSamples]. *)
Theorem tick_shows_newest_last :
  forall (docClientId chunkKey : string) (text : list nat)
         (interval t0 : Z) (events : list Event) (hours minutes seconds : nat),
    let s := run (newSession docClientId chunkKey text interval t0) events in
    let s' := step s (SnapshotEvent hours minutes seconds) in
    metricsInterval s = true ->
    latencyStdDev (metrics s) <> Undefined ->
    exists shown,
      performanceData s' = performanceData s ++ [shown]
      /\ nth_error (Chart.meanValues shown) (ChartSamples - 1)
         = Some (latencyAverage (metrics s))
      /\ nth_error (Chart.minimumValues shown) (ChartSamples - 1)
         = Some (latencyMinimum (metrics s))
      /\ nth_error (Chart.maximumValues shown) (ChartSamples - 1)
         = Some (latencyMaximum (metrics s))
      /\ nth_error (Chart.categoryNames shown) (ChartSamples - 1)
         = Some (padTime hours ++ ":" ++ padTime minutes ++ ":"
                   ++ padTime seconds)%string
      /\ Chart.index (chartData s')
         = (Chart.index (chartData s) + 1) mod ChartSamples.
Proof.
  intros docId key text interval t0 events h m sec s s' Harmed Hdef.
  destruct (reachable_chartShape docId key text interval t0 events)
    as (H1 & H2 & H3 & H4 & H5 & H6).
  fold s in H1, H2, H3, H4, H5, H6.
  unfold s'. cbn [step]. rewrite Harmed. unfold metricsTick.
  destruct (latencyStdDev (metrics s)) eqn:E; [contradiction| |];
    cbn [isDefined]; proj_simpl;
    (eexists; split; [reflexivity|]);
    unfold Chart.getChartConfiguration;
    cbn [Chart.categoryNames Chart.meanValues Chart.minimumValues
         Chart.maximumValues Chart.label Chart.mean Chart.minimum
         Chart.maximum Chart.stdDev Chart.index];
    rewrite <- H3 at 1; rewrite <- H1 at 1; rewrite <- H2 at 1;
    rewrite <- H5 at 1;
    rewrite !rearrange_assign_last by lia;
    rewrite assign_length by lia; rewrite H2;
    repeat split; reflexivity.
Qed.

Lemma tick_shows_newest_last_witness :
  let s := run (newSession "c" "p-0" [97; 98] 0 0)
               [TypeEvent true 10001 0; OpEvent (mkMessage 1 "c" []) 10004] in
  exists shown,
    performanceData (step s (SnapshotEvent 9 5 7)) = performanceData s ++ [shown]
    /\ nth_error (Chart.categoryNames shown) (ChartSamples - 1)
       = Some "09:05:07"%string.
Proof.
  intros s.
  destruct (tick_shows_newest_last "c" "p-0" [97; 98] 0%Z 0%Z
              [TypeEvent true 10001 0; OpEvent (mkMessage 1 "c" []) 10004]
              9 5 7) as (shown & H1 & _ & _ & _ & H5 & _).
  - reflexivity.
  - discriminate.
  - exists shown. split; [exact H1|exact H5].
Defined.

Lemma step_display_index s e :
  Chart.index (chartData s)
  = List.length (performanceData s) mod List.length (Chart.maximum (chartData s)) ->
  chartShape ChartSamples (chartData s) ->
  Chart.index (chartData (step s e))
  = List.length (performanceData (step s e))
    mod List.length (Chart.maximum (chartData (step s e))).
Proof.
  intros Hi Hs.
  destruct e as [message now|h m sec|play now pos].
  - pose proof (onOp_displayView message now s) as E. unfold displayView in E.
    injection E as E1 E2. cbn [step]. now rewrite E1, E2.
  - cbn [step]. destruct (metricsInterval s); [|exact Hi].
    unfold metricsTick. destruct (isDefined _); [|exact Hi].
    destruct Hs as (_ & H2 & _ & _ & _ & H6).
    proj_simpl. cbn [Chart.index Chart.maximum].
    rewrite assign_length by lia. rewrite Hi, length_app. cbn [List.length].
    now rewrite Nat.Div0.add_mod_idemp_l.
  - destruct (step_type_views play now pos s) as [E _].
    unfold displayView in E. injection E as E1 E2. cbn [step] in *.
    now rewrite E1, E2.
Qed.

(** X5.  The write index of the chart buffer is the number of chart
    configurations written so far, modulo [ChartSamples]: each snapshot
    that is written fills the next slot, and the eleventh overwrites the
    first. *)
Theorem write_index_counts_snapshots :
  forall (docClientId chunkKey : string) (text : list nat)
         (interval t0 : Z) (events : list Event),
    let s := run (newSession docClientId chunkKey text interval t0) events in
    Chart.index (chartData s) = List.length (performanceData s) mod ChartSamples.
Proof.
  intros docId key text interval t0 events s.
  assert (G : Chart.index (chartData s)
              = List.length (performanceData s)
                mod List.length (Chart.maximum (chartData s))
              /\ chartShape ChartSamples (chartData s)).
  { apply (run_invariant
             (fun s => Chart.index (chartData s)
                       = List.length (performanceData s)
                         mod List.length (Chart.maximum (chartData s))
                       /\ chartShape ChartSamples (chartData s))).
    - intros x e [A B]. split; [now apply step_display_index|].
      now apply step_chartShape.
    - split; [reflexivity|].
      cbn. apply createChartData_shape. unfold ChartSamples. lia. }
  destruct G as [G (_ & H2 & _)]. now rewrite H2 in G.
Qed.

(** ** The statistics before and after the first round trip *)

Lemma countAck_estimatorView now s :
  estimatorView (countAck now s) = estimatorView s.
Proof. unfold countAck. frame. Qed.

Lemma completionCheck_estimatorView message now s :
  estimatorView (completionCheck message now s) = estimatorView s.
Proof. unfold completionCheck. frame. Qed.

Lemma latencyStdDev_of_estimatorView s s' :
  estimatorView s' = estimatorView s ->
  latencyStdDev (metrics s') = latencyStdDev (metrics s)
  /\ latencyAverage (metrics s') = latencyAverage (metrics s)
  /\ histogram s' = histogram s
  /\ stdDev s' = stdDev s /\ mean s' = mean s.
Proof. unfold estimatorView. intros E. injection E as -> _ -> -> -> ->. now repeat split. Qed.

Lemma onOp_estimatorView_early message now s :
  isLateAck s (OpEvent message now) = false ->
  estimatorView (onOp message now s) = estimatorView s.
Proof.
  cbn [isLateAck]. intros H. unfold onOp.
  destruct (attributed s message); [|reflexivity]. cbn [andb] in H.
  change (estimatorView (notify message ?x)) with (estimatorView x).
  rewrite completionCheck_estimatorView. unfold runningCalculation.
  rewrite countAck_startTime, H. apply countAck_estimatorView.
Qed.

Lemma countLateAcks_cons s e events :
  countLateAcks s (e :: events)
  = (if isLateAck s e then 1 else 0) + countLateAcks (step s e) events.
Proof.
  unfold countLateAcks. cbn [filter].
  rewrite (filter_config (isLateAck (step s e)) (isLateAck s))
    by (intros; apply isLateAck_config, step_config).
  now destruct (isLateAck s e).
Qed.

Lemma step_not_late_views s e :
  isLateAck s e = false ->
  estimatorView (step s e) = estimatorView s
  /\ (latencyStdDev (metrics s) = Undefined ->
      displayView (step s e) = displayView s).
Proof.
  intros H. destruct e as [message now|h m sec|play now pos].
  - cbn [step]. split; [now apply onOp_estimatorView_early|].
    intros _. apply onOp_displayView.
  - cbn [step]. destruct (metricsInterval s); [|now split].
    split; [apply metricsTick_estimator|].
    intros U. unfold metricsTick. now rewrite U.
  - destruct (step_type_views play now pos s) as [E _].
    split; [|intros _; exact E].
    cbn [step]. unfold typingTurn. destruct (typingTimer s); [|reflexivity].
    pose proof (type_estimator play now pos s) as F.
    destruct (type play now pos s) as [s' again]. exact F.
Qed.

Lemma run_not_late_views events : forall s,
  countLateAcks s events = 0 ->
  latencyStdDev (metrics s) = Undefined ->
  estimatorView (run s events) = estimatorView s
  /\ displayView (run s events) = displayView s.
Proof.
  induction events as [|e events IH]; intros s Hc Hu; [now split|].
  rewrite countLateAcks_cons in Hc.
  destruct (isLateAck s e) eqn:He; [discriminate|]. cbn in Hc.
  destruct (step_not_late_views s e He) as [E1 E2].
  specialize (E2 Hu).
  destruct (latencyStdDev_of_estimatorView _ _ E1) as (U & _).
  cbn [run fold_left]. fold (run (step s e) events).
  destruct (IH (step s e) Hc) as [I1 I2]; [now rewrite U|].
  split; congruence.
Qed.

(** X6.  As long as no attributed acknowledgement has been handled after
    the start-up delay, the latency metrics stay [undefined], nothing has
    been added to the histogram, and the snapshot timer writes nothing:
    the chart buffer is as created and no chart configuration has been
    set. *)
Theorem no_snapshot_before_first_round_trip :
  forall (docClientId chunkKey : string) (text : list nat)
         (interval t0 : Z) (events : list Event),
    let s0 := newSession docClientId chunkKey text interval t0 in
    let s := run s0 events in
    countLateAcks s0 events = 0 ->
    latencyStdDev (metrics s) = Undefined
    /\ latencyAverage (metrics s) = Undefined
    /\ histogram s = []
    /\ performanceData s = []
    /\ chartData s = Chart.createChartData ChartSamples.
Proof.
  intros docId key text interval t0 events s0 s Hc.
  destruct (run_not_late_views events s0 Hc eq_refl) as [E1 E2]. fold s in E1, E2.
  destruct (latencyStdDev_of_estimatorView _ _ E1) as (A & B & C & _).
  unfold displayView in E2. injection E2 as D1 D2.
  now repeat split.
Qed.

Lemma no_snapshot_before_first_round_trip_witness :
  performanceData
    (run (newSession "c" "p-0" [97; 98] 0 0)
         [TypeEvent true 100 0; OpEvent (mkMessage 1 "c" []) 200;
          SnapshotEvent 9 5 7; SnapshotEvent 9 5 8])
  = [].
Proof.
  apply (no_snapshot_before_first_round_trip "c" "p-0" [97; 98] 0%Z 0%Z
           [TypeEvent true 100 0; OpEvent (mkMessage 1 "c" []) 200;
            SnapshotEvent 9 5 7; SnapshotEvent 9 5 8]).
  reflexivity.
Defined.

Lemma sqrt_defined x : JS.sqrt x <> Undefined.
Proof.
  unfold JS.sqrt. destruct x; try discriminate.
  destruct (Rlt_dec r 0); discriminate.
Qed.

Lemma recordRoundTrip_defined message roundTrip s :
  latencyStdDev (metrics (recordRoundTrip message roundTrip s)) <> Undefined.
Proof.
  unfold recordRoundTrip. proj_simpl. cbn [latencyStdDev set_latencyStdDev].
  destruct (1 <? _); [apply sqrt_defined|discriminate].
Qed.

Lemma onOp_keeps_defined message now s :
  latencyStdDev (metrics s) <> Undefined ->
  latencyStdDev (metrics (onOp message now s)) <> Undefined.
Proof.
  intros H. unfold onOp. destruct (attributed s message); [|exact H].
  change (latencyStdDev (metrics (notify message ?x)))
    with (latencyStdDev (metrics x)).
  destruct (latencyStdDev_of_estimatorView _ _
              (completionCheck_estimatorView message now
                 (runningCalculation message now (countAck now s))))
    as (-> & _).
  unfold runningCalculation.
  destruct (_ >? _)%Z.
  - destruct (pop _). apply recordRoundTrip_defined.
  - destruct (latencyStdDev_of_estimatorView _ _ (countAck_estimatorView now s))
      as (-> & _). exact H.
Qed.

Lemma onOp_late_defined message now s :
  attributed s message = true ->
  (now - startTime s > RunningCalculationDelay)%Z ->
  latencyStdDev (metrics (onOp message now s)) <> Undefined.
Proof.
  intros Ha Hl. unfold onOp. rewrite Ha.
  change (latencyStdDev (metrics (notify message ?x)))
    with (latencyStdDev (metrics x)).
  destruct (latencyStdDev_of_estimatorView _ _
              (completionCheck_estimatorView message now
                 (runningCalculation message now (countAck now s))))
    as (-> & _).
  unfold runningCalculation. rewrite countAck_startTime.
  assert (G : (now - startTime s >? RunningCalculationDelay)%Z = true)
    by (apply Z.gtb_lt; lia).
  rewrite G. destruct (pop _). apply recordRoundTrip_defined.
Qed.

Lemma step_keeps_defined s e :
  latencyStdDev (metrics s) <> Undefined ->
  latencyStdDev (metrics (step s e)) <> Undefined.
Proof.
  intros H. destruct e as [message now|h m sec|play now pos].
  - now apply onOp_keeps_defined.
  - cbn [step]. destruct (metricsInterval s); [|exact H].
    destruct (latencyStdDev_of_estimatorView _ _ (metricsTick_estimator h m sec s))
      as (-> & _). exact H.
  - cbn [step]. unfold typingTurn. destruct (typingTimer s); [|exact H].
    pose proof (type_estimator play now pos s) as F.
    destruct (type play now pos s) as [s' again]. cbn [fst] in F.
    change (latencyStdDev (metrics (set_typingTimer again s')))
      with (latencyStdDev (metrics s')).
    destruct (latencyStdDev_of_estimatorView _ _ F) as (-> & _). exact H.
Qed.

(** X7.  Once an attributed acknowledgement has been handled after the
    start-up delay, [latencyStdDev] is never [undefined] again, whatever
    happens to the session afterwards; so from then on every tick of the
    armed snapshot timer writes one chart configuration. *)
Theorem snapshots_run_after_first_round_trip :
  forall (s : Session) (message : Message) (now : Z) (events : list Event)
         (hours minutes seconds : nat),
    attributed s message = true ->
    (now - startTime s > RunningCalculationDelay)%Z ->
    let s' := run (onOp message now s) events in
    latencyStdDev (metrics s') <> Undefined
    /\ (metricsInterval s' = true ->
        List.length (performanceData (step s' (SnapshotEvent hours minutes seconds)))
        = S (List.length (performanceData s'))).
Proof.
  intros s message now events h m sec Ha Hl s'.
  assert (D : latencyStdDev (metrics s') <> Undefined).
  { apply (run_invariant (fun x => latencyStdDev (metrics x) <> Undefined)).
    - intros x e. apply step_keeps_defined.
    - now apply onOp_late_defined. }
  split; [exact D|]. intros Harmed. cbn [step]. rewrite Harmed.
  unfold metricsTick.
  destruct (latencyStdDev (metrics s')); [contradiction| |];
    cbn [isDefined]; proj_simpl; rewrite length_app; cbn [List.length]; lia.
Qed.

Lemma snapshots_run_after_first_round_trip_witness :
  let s := run (newSession "c" "p-0" [97; 98; 99] 0 0) [TypeEvent true 10001 0] in
  latencyStdDev
    (metrics (run (onOp (mkMessage 1 "c" []) 10004 s)
                  [TypeEvent true 10005 0; OpEvent (mkMessage 2 "c" []) 10006]))
  <> Undefined.
Proof.
  intros s.
  apply (snapshots_run_after_first_round_trip s (mkMessage 1 "c" []) 10004%Z
           [TypeEvent true 10005 0; OpEvent (mkMessage 2 "c" []) 10006] 0 0 0).
  - reflexivity.
  - reflexivity.
Defined.

(** ** After completion *)

Lemma run_completed events : forall s r,
  resolved s = Some r ->
  metricsInterval s = false ->
  resolved (run s events) = Some r
  /\ metricsInterval (run s events) = false
  /\ displayView (run s events) = displayView s.
Proof.
  induction events as [|e events IH]; intros s r Hr Hm; [now repeat split|].
  cbn [run fold_left]. fold (run (step s e) events).
  assert (G : resolved (step s e) = Some r
              /\ metricsInterval (step s e) = false
              /\ displayView (step s e) = displayView s).
  { destruct (isAck s e) eqn:He.
    - destruct e as [message now| |]; try discriminate. cbn in He.
      destruct (onOp_completion message now s He) as (A & B & _).
      cbn [step]. rewrite A, B, Hr, Hm.
      split; [now destruct (_ >=? _)%Z|].
      split; [now destruct (_ >=? _)%Z|]. apply onOp_displayView.
    - destruct (step_completion_other s e He) as (A & B).
      rewrite A, B. split; [exact Hr|]. split; [exact Hm|].
      destruct e as [message now|h m sec|play now pos].
      + apply onOp_displayView.
      + cbn [step]. now rewrite Hm.
      + apply step_type_views. }
  destruct G as (G1 & G2 & G3).
  destruct (IH (step s e) r G1 G2) as (I1 & I2 & I3).
  split; [exact I1|]. split; [exact I2|]. congruence.
Qed.

(** X8.  Completion is final.  Once the promise of a session is settled
    and its snapshot timer cleared, no later event settles the promise with
    anything else, re-arms the timer, or writes to the chart buffer or the
    chart cell. *)
Theorem completion_is_final :
  forall (s : Session) (r : Ref) (events : list Event),
    resolved s = Some r ->
    metricsInterval s = false ->
    resolved (run s events) = Some r
    /\ metricsInterval (run s events) = false
    /\ chartData (run s events) = chartData s
    /\ performanceData (run s events) = performanceData s.
Proof.
  intros s r events Hr Hm.
  destruct (run_completed events s r Hr Hm) as (A & B & C).
  unfold displayView in C. injection C as C1 C2. now repeat split.
Qed.

Lemma completion_is_final_witness :
  let s := run (newSession "c" "p-0" [97] 0 0)
               [TypeEvent true 10001 0; OpEvent (mkMessage 1 "c" []) 10004] in
  performanceData (run s [SnapshotEvent 9 5 7; OpEvent (mkMessage 2 "c" []) 10009;
                          SnapshotEvent 9 5 8])
  = performanceData s.
Proof.
  intros s.
  apply (completion_is_final s MetricsRef
           [SnapshotEvent 9 5 7; OpEvent (mkMessage 2 "c" []) 10009;
            SnapshotEvent 9 5 8]).
  - reflexivity.
  - reflexivity.
Defined.

(** ** One typing turn, spelled out *)

Lemma type_at_end play now pos s :
  readPosition s = List.length (chunk s) ->
  type play now pos s
  = (set_queueCallbackCalls (queueCallbackCalls s ++ [MetricsRef]) s, false).
Proof. intros H. unfold type. now rewrite H, Nat.eqb_refl. Qed.

Lemma type_running now pos s :
  readPosition s <> List.length (chunk s) ->
  let skip := codeIs (charCodeAt (chunk s) (readPosition s)) 13 in
  let cursor := if skip then S (readPosition s) else readPosition s in
  let code := charCodeAt (chunk s) cursor in
  let s' := fst (type true now pos s) in
  snd (type true now pos s) = true
  /\ readPosition s' = S cursor
  /\ typingTimer s' = typingTimer s
  /\ queueCallbackCalls s' = queueCallbackCalls s
  /\ messageStart s' = messageStart s ++ [now]
  /\ typingProgress (metrics s')
     = div (ofNat (S cursor)) (ofNat (List.length (chunk s)))
  /\ (if codeIs code 10
      then lineNumber s' = S (lineNumber s)
           /\ ops s'
              = ops s ++ InsertMarker pos
                  :: (if S (lineNumber s) mod saveLineFrequency =? 0
                      then [Save (S (lineNumber s))] else [])
      else lineNumber s' = lineNumber s
           /\ ops s' = ops s ++ [InsertText (charAt (chunk s) cursor) pos]).
Proof.
  intros H skip cursor code s'. unfold s', type.
  destruct (Nat.eqb_spec (readPosition s) (List.length (chunk s)));
    [contradiction|].
  cbn [negb fst snd]. fold skip.
  unfold code, cursor. clear s' code cursor.
  unfold trackOperation, insertion, push.
  destruct skip; proj_simpl;
    destruct (_ >? _)%Z; proj_simpl;
    destruct (codeIs _ 10); proj_simpl;
    try (destruct (_ =? 0); proj_simpl);
    cbn [typingProgress set_typingProgress];
    rewrite <- ?app_assoc; repeat split; reflexivity.
Qed.

Lemma typingTurn_at_end play now pos s :
  typingTimer s = true ->
  readPosition s = List.length (chunk s) ->
  typingTurn play now pos s
  = set_typingTimer false
      (set_queueCallbackCalls (queueCallbackCalls s ++ [MetricsRef]) s).
Proof.
  intros Ht He. unfold typingTurn. now rewrite Ht, type_at_end.
Qed.

Lemma typingTurn_running now pos s :
  typingTimer s = true ->
  readPosition s <> List.length (chunk s) ->
  typingTurn true now pos s = set_typingTimer true (fst (type true now pos s)).
Proof.
  intros Ht Hr. unfold typingTurn. rewrite Ht.
  destruct (type_running now pos s Hr) as (A & _).
  destruct (type true now pos s) as [s' again]. cbn [fst snd] in *.
  now subst again.
Qed.

(** The typist's part of the state after any event, by cases. *)
Lemma step_typist_cases s e :
  typistView (step s e) = typistView s
  \/ (exists play now pos,
        e = TypeEvent play now pos /\ typingTimer s = true
        /\ readPosition s = List.length (chunk s)
        /\ step s e
           = set_typingTimer false
               (set_queueCallbackCalls (queueCallbackCalls s ++ [MetricsRef]) s))
  \/ (exists now pos,
        e = TypeEvent true now pos /\ typingTimer s = true
        /\ readPosition s <> List.length (chunk s)
        /\ step s e = set_typingTimer true (fst (type true now pos s))).
Proof.
  destruct e as [message now|h m sec|play now pos].
  - left. apply onOp_typistView.
  - left. apply step_snapshot_typistView.
  - cbn [step]. destruct (typingTimer s) eqn:Ht.
    + destruct (Nat.eq_dec (readPosition s) (List.length (chunk s))) as [He|Hn].
      * right. left. exists play, now, pos.
        repeat split; try assumption. now apply typingTurn_at_end.
      * destruct play.
        -- right. right. exists now, pos. repeat split; try assumption.
           now apply typingTurn_running.
        -- left. now rewrite typingTurn_paused.
    + left. unfold typingTurn. now rewrite Ht.
Qed.

(** ** References handed out *)

Lemma countAcks_snoc s events e :
  countAcks s (events ++ [e])
  = countAcks s events + (if isAck s e then 1 else 0).
Proof.
  unfold countAcks. rewrite filter_app, length_app. cbn [filter].
  now destruct (isAck s e).
Qed.

Lemma step_queueCallbackCalls s e :
  queueCallbackCalls (step s e) = queueCallbackCalls s
  \/ queueCallbackCalls (step s e) = queueCallbackCalls s ++ [MetricsRef].
Proof.
  destruct (step_typist_cases s e) as [E|[(play & now & pos & _ & _ & _ & E)
                                         |(now & pos & -> & _ & Hr & E)]].
  - left. unfold typistView in E. now injection E.
  - right. now rewrite E.
  - left. destruct (type_running now pos s Hr) as (_ & _ & _ & Q & _).
    rewrite E. proj_simpl. exact Q.
Qed.

Lemma step_listener_other s e :
  isAck s e = false ->
  clones (step s e) = clones s /\ callbackCalls (step s e) = callbackCalls s.
Proof.
  intros He. destruct e as [message now|h m sec|play now pos].
  - cbn in He. cbn [step]. now rewrite onOp_ignored.
  - pose proof (step_snapshot_listenerView h m sec s) as E.
    unfold listenerView in E. now injection E.
  - destruct (step_type_views play now pos s) as [_ E].
    unfold listenerView in E. now injection E.
Qed.

Lemma NoDup_map_CloneRef (l : list nat) : NoDup l -> NoDup (map CloneRef l).
Proof.
  induction 1 as [|x l Hx Hl IH]; cbn; constructor; [|exact IH].
  intros Hin. apply in_map_iff in Hin as (y & E & Hy).
  injection E as ->. contradiction.
Qed.

Lemma step_loopState text s e : loopState text s -> loopState text (step s e).
Proof.
  intros (C & H). destruct (step_config s e) as (_ & C' & _).
  split; [congruence|].
  destruct (step_typist_cases s e)
    as [E|[(play & now & pos & _ & Ht & He & E)|(now & pos & -> & Ht & Hr & E)]].
  - unfold typistView in E. injection E as -> _ _ -> -> _. exact H.
  - right. rewrite E. proj_simpl.
    destruct H as [[_ ->]|[Hf _]]; [|congruence].
    split; [reflexivity|]. split; [reflexivity|congruence].
  - left. destruct (type_running now pos s Hr) as (_ & _ & _ & Q & _).
    rewrite E. proj_simpl. rewrite Q.
    destruct H as [[_ ->]|[Hf _]]; [now split|congruence].
Qed.

Lemma skipn_length_app {A} (l x : list A) :
  skipn (List.length l) (l ++ x) = x.
Proof.
  rewrite skipn_app, skipn_all, Nat.sub_diag. reflexivity.
Qed.

Lemma step_callbackCalls_app s e :
  callbackCalls (step s e) = callbackCalls s ++ callbackOf s e.
Proof.
  unfold callbackOf. destruct (isAck s e) eqn:He.
  - destruct e as [message now| |]; try discriminate. cbn in He.
    destruct (onOp_callback message now s He) as [C _].
    cbn [step]. rewrite C. now rewrite skipn_length_app.
  - destruct (step_listener_other s e He) as [_ C].
    rewrite C, skipn_all. now rewrite app_nil_r.
Qed.

Lemma step_queueCallbackCalls_app s e :
  queueCallbackCalls (step s e) = queueCallbackCalls s ++ queueCallbackOf s e.
Proof.
  unfold queueCallbackOf.
  destruct (step_queueCallbackCalls s e) as [-> | ->].
  - rewrite skipn_all. now rewrite app_nil_r.
  - now rewrite skipn_length_app.
Qed.

Lemma handedToCaller_snoc writers events : forall s e,
  handedToCaller writers s (events ++ [e])
  = handedToCaller writers s events
      ++ callbackOf (run s events) e
      ++ (if (writers =? 1)%Z then queueCallbackOf (run s events) e else []).
Proof.
  induction events as [|x events IH]; intros s e.
  - cbn. now rewrite !app_nil_r.
  - cbn [app handedToCaller run fold_left]. fold (run (step s x) events).
    rewrite IH. now rewrite <- !app_assoc.
Qed.

Lemma handedToCaller_logs writers events : forall s,
  Permutation
    (handedToCaller writers s events)
    (skipn (List.length (callbackCalls s)) (callbackCalls (run s events))
       ++ (if (writers =? 1)%Z
           then skipn (List.length (queueCallbackCalls s))
                      (queueCallbackCalls (run s events))
           else [])).
Proof.
  induction events as [|e events IH] using rev_ind; intros s.
  - cbn. rewrite !skipn_all. now destruct (writers =? 1)%Z.
  - rewrite handedToCaller_snoc, run_snoc.
    rewrite step_callbackCalls_app, step_queueCallbackCalls_app.
    set (r := run s events) in *.
    assert (PC : exists c, callbackCalls r = callbackCalls s ++ c).
    { unfold r. clear. induction events as [|e events IH] using rev_ind.
      - exists []. now rewrite app_nil_r.
      - destruct IH as [c E]. rewrite run_snoc, step_callbackCalls_app, E.
        eexists. now rewrite <- app_assoc. }
    assert (PQ : exists q, queueCallbackCalls r = queueCallbackCalls s ++ q).
    { unfold r. clear. induction events as [|e events IH] using rev_ind.
      - exists []. now rewrite app_nil_r.
      - destruct IH as [q E].
        rewrite run_snoc, step_queueCallbackCalls_app, E.
        eexists. now rewrite <- app_assoc. }
    destruct PC as [c PC]. destruct PQ as [q PQ].
    specialize (IH s). fold r in IH. rewrite PC, PQ in IH |- *.
    rewrite <- !app_assoc, !skipn_length_app in *.
    destruct (writers =? 1)%Z.
    + rewrite IH, <- !app_assoc. apply Permutation_app_head.
      apply Permutation_app_swap_app.
    + rewrite !app_nil_r in *. now rewrite IH.
Qed.

(** X9.  The references a session hands out, in every run.  Through the
    parameter [callback] of [typeChunk]: one call per attributed
    acknowledgement, the [k]-th with the [k]-th object allocated by [clone],
    so no two of those calls share an object.  Through the parameter
    [queueCallback]: nothing while the typing loop is armed, and the live
    [metrics] object, once, after it has stopped.  The promise, if settled,
    is settled with that same live object.  The function given to
    [typeFile] receives, up to order, the calls of [callback] and, with one
    writer, where it is passed in both positions, those of [queueCallback]
    as well: it never receives the same reference twice, and it receives
    the live [metrics] object exactly when there is one writer and the
    typing loop has stopped. *)
Theorem references_handed_out :
  forall (docClientId chunkKey : string) (text : list nat)
         (interval t0 : Z) (writers : Z) (events : list Event),
    let s0 := newSession docClientId chunkKey text interval t0 in
    let s := run s0 events in
    let got := handedToCaller writers s0 events in
    callbackCalls s = map CloneRef (seq 0 (countAcks s0 events))
    /\ List.length (clones s) = countAcks s0 events
    /\ NoDup (callbackCalls s)
    /\ queueCallbackCalls s = (if typingTimer s then [] else [MetricsRef])
    /\ (resolved s = None \/ resolved s = Some MetricsRef)
    /\ Permutation got
         (callbackCalls s
            ++ (if (writers =? 1)%Z then queueCallbackCalls s else []))
    /\ NoDup got
    /\ (In MetricsRef got <-> writers = 1%Z /\ typingTimer s = false).
Proof.
  intros docId key text interval t0 writers events s0 s got.
  assert (G : callbackCalls s = map CloneRef (seq 0 (countAcks s0 events))
              /\ List.length (clones s) = countAcks s0 events
              /\ (resolved s = None \/ resolved s = Some MetricsRef)).
  { unfold s. clear s got. induction events as [|e events IH] using rev_ind.
    - cbn. repeat split; auto.
    - rewrite run_snoc, countAcks_snoc.
      set (s := run s0 events) in *.
      destruct IH as (I1 & I2 & I4).
      assert (Ea : isAck s e = isAck s0 e)
        by (apply isAck_config, run_config).
      rewrite <- Ea.
      destruct (isAck s e) eqn:He.
      + destruct e as [message now| |]; try discriminate. cbn in He.
        destruct (onOp_callback message now s He) as [C1 C2].
        destruct (onOp_completion message now s He) as (R & _).
        cbn [step] in *.
        split; [now rewrite C1, I1, I2, Nat.add_1_r, seq_S, map_app|].
        split; [rewrite C2, length_app, I2; cbn; lia|].
        rewrite R.
        destruct (_ >=? _)%Z; [|exact I4].
        right. destruct I4 as [-> | ->]; reflexivity.
      + destruct (step_listener_other s e He) as [C1 C2].
        destruct (step_completion_other s e He) as [R _].
        rewrite C1, C2, R, I1, I2, Nat.add_0_r. now repeat split. }
  assert (L : loopState text s).
  { apply (run_invariant (loopState text)).
    - intros x e. apply step_loopState.
    - split; [reflexivity|]. left. now split. }
  assert (Q : queueCallbackCalls s = (if typingTimer s then [] else [MetricsRef])).
  { destruct L as (_ & [[-> ->]|(-> & -> & _)]); reflexivity. }
  assert (P : Permutation got
                (callbackCalls s
                   ++ (if (writers =? 1)%Z then queueCallbackCalls s else []))).
  { pose proof (handedToCaller_logs writers events s0) as P.
    cbn [newSession callbackCalls queueCallbackCalls List.length skipn] in P.
    unfold s0 in P at 2 3. exact P. }
  destruct G as (G1 & G2 & G4).
  assert (N : NoDup (callbackCalls s))
    by (rewrite G1; apply NoDup_map_CloneRef, seq_NoDup).
  assert (M : ~ In MetricsRef (callbackCalls s)).
  { rewrite G1. intros Hin. apply in_map_iff in Hin as (y & E & _).
    discriminate. }
  split; [exact G1|]. split; [exact G2|]. split; [exact N|].
  split; [exact Q|]. split; [exact G4|]. split; [exact P|]. split.
  - apply (Permutation_NoDup (Permutation_sym P)).
    destruct (writers =? 1)%Z; [|now rewrite app_nil_r].
    rewrite Q. destruct (typingTimer s); [now rewrite app_nil_r|].
    apply NoDup_app; [exact N|repeat constructor; auto|].
    intros x Hx [<-|[]]. contradiction.
  - split.
    + intros Hin. apply (Permutation_in _ P) in Hin.
      apply in_app_or in Hin as [Hin|Hin]; [contradiction|].
      destruct (writers =? 1)%Z eqn:W; [|destruct Hin].
      split; [lia|]. rewrite Q in Hin.
      destruct (typingTimer s); [destruct Hin|reflexivity].
    + intros [-> Ht]. apply (Permutation_in _ (Permutation_sym P)).
      apply in_or_app. right. cbn. rewrite Q, Ht. now left.
Qed.

Lemma references_handed_out_witness :
  let s0 := newSession "c" "p-0" [97] 0 0 in
  let events := [TypeEvent true 10001 0; OpEvent (mkMessage 1 "c" []) 10005;
                 TypeEvent true 10006 0] in
  In MetricsRef (handedToCaller 1 s0 events)
  /\ NoDup (handedToCaller 1 s0 events)
  /\ ~ In MetricsRef (handedToCaller 2 s0 events).
Proof.
  intros s0 events.
  destruct (references_handed_out "c" "p-0" [97] 0%Z 0%Z 1%Z events)
    as (_ & _ & _ & _ & _ & _ & N & I).
  destruct (references_handed_out "c" "p-0" [97] 0%Z 0%Z 2%Z events)
    as (_ & _ & _ & _ & _ & _ & _ & J).
  split; [apply I; split; reflexivity|].
  split; [exact N|].
  intros Hin. apply J in Hin as [E _]. discriminate.
Defined.

(** ** The cursor and the text typed *)

Lemma codeIs_spec code n : codeIs code n = true <-> code = Some n.
Proof.
  unfold codeIs. destruct code as [c|]; [|split; discriminate].
  rewrite Nat.eqb_eq. split; [now intros ->|now intros [= ->]].
Qed.

Lemma ofNat_ratio_unit (a b : nat) :
  a <= b -> 0 < b ->
  exists r, div (ofNat a) (ofNat b) = Num r /\ (0 <= r <= 1)%R.
Proof.
  intros Hab Hb. unfold ofNat.
  assert (Hb' : (0 < INR b)%R) by (now apply lt_0_INR).
  rewrite div_Num by lra. eexists. split; [reflexivity|].
  pose proof (pos_INR a) as Ha. apply le_INR in Hab.
  split.
  - apply Rmult_le_pos; [exact Ha|]. left. now apply Rinv_0_lt_compat.
  - apply (Rmult_le_reg_r (INR b)); [exact Hb'|].
    unfold Rdiv. rewrite Rmult_assoc, Rinv_l by lra. lra.
Qed.

Lemma step_cursor_bounded s e :
  nth_error (chunk s) (List.length (chunk s) - 1) <> Some 13 ->
  readPosition s <= List.length (chunk s) ->
  unsetOrUnit (typingProgress (metrics s)) ->
  readPosition (step s e) <= List.length (chunk s)
  /\ unsetOrUnit (typingProgress (metrics (step s e))).
Proof.
  intros Hlast Hle Hp.
  destruct (step_typist_cases s e)
    as [E|[(play & now & pos & _ & _ & _ & E)|(now & pos & -> & _ & Hr & E)]].
  - unfold typistView in E. injection E as -> _ _ _ _ ->. now split.
  - rewrite E. now split.
  - destruct (type_running now pos s Hr) as (_ & R & _ & _ & _ & P & _).
    rewrite E. proj_simpl. rewrite R, P.
    set (skip := codeIs (charCodeAt (chunk s) (readPosition s)) 13) in *.
    assert (B : S (if skip then S (readPosition s) else readPosition s)
                <= List.length (chunk s)).
    { destruct skip eqn:Hs; [|lia].
      apply codeIs_spec in Hs. unfold charCodeAt in Hs.
      destruct (Nat.eq_dec (readPosition s) (List.length (chunk s) - 1)) as [Q|Q];
        [rewrite Q in Hs; contradiction|lia]. }
    split; [exact B|]. right. apply ofNat_ratio_unit; lia.
Qed.

(** X10.  When the corpus does not end in a carriage return, the read
    cursor never passes the end of the corpus, and [typingProgress] is
    either not yet set or a number between 0 and 1. *)
Theorem cursor_stays_inside_corpus :
  forall (docClientId chunkKey : string) (text : list nat)
         (interval t0 : Z) (events : list Event),
    nth_error text (List.length text - 1) <> Some 13 ->
    let s := run (newSession docClientId chunkKey text interval t0) events in
    readPosition s <= List.length text
    /\ unsetOrUnit (typingProgress (metrics s)).
Proof.
  intros docId key text interval t0 events Hlast s.
  assert (G : chunk s = text
              /\ readPosition s <= List.length text
              /\ unsetOrUnit (typingProgress (metrics s))).
  { apply (run_invariant
             (fun s => chunk s = text
                       /\ readPosition s <= List.length text
                       /\ unsetOrUnit (typingProgress (metrics s)))).
    - intros x e (C & A & B).
      destruct (step_config x e) as (_ & C' & _).
      split; [congruence|]. rewrite <- C in *.
      now apply step_cursor_bounded.
    - split; [reflexivity|]. split; [cbn; lia|now left]. }
  now destruct G as (_ & G).
Qed.

Lemma cursor_stays_inside_corpus_witness :
  readPosition
    (run (newSession "c" "p-0" [97; 13; 10] 0 0)
         [TypeEvent true 1 0; TypeEvent true 2 0; TypeEvent true 3 0])
  <= List.length [97; 13; 10].
Proof.
  apply (cursor_stays_inside_corpus "c" "p-0" [97; 13; 10] 0%Z 0%Z
           [TypeEvent true 1 0; TypeEvent true 2 0; TypeEvent true 3 0]).
  discriminate.
Defined.

Lemma firstn_snoc_nth {A} (l : list A) : forall n x,
  nth_error l n = Some x -> firstn (S n) l = firstn n l ++ [x].
Proof.
  induction l as [|y l IH]; intros [|n] x H; cbn in *; try discriminate.
  - now injection H as ->.
  - f_equal. now apply IH.
Qed.

Lemma crFollowed_nth text : forall i,
  crFollowed text = true ->
  nth_error text i = Some 13 ->
  exists d, nth_error text (S i) = Some d /\ d <> 13.
Proof.
  induction text as [|c rest IH]; intros [|i] H Hi; cbn in *;
    try discriminate.
  - injection Hi as ->. cbn in H. destruct rest as [|d rest]; [discriminate|].
    apply andb_prop in H as [H _]. exists d. split; [reflexivity|].
    intros ->. discriminate.
  - apply andb_prop in H as [_ H]. now apply IH.
Qed.

Lemma filter_notCR_snoc (l : list nat) (d : nat) :
  d <> 13 -> filter notCR (l ++ [d]) = filter notCR l ++ [d].
Proof.
  intros H. rewrite filter_app. cbn. unfold notCR.
  destruct (Nat.eqb_spec d 13); [contradiction|reflexivity].
Qed.

Lemma filter_notCR_skip (l : list nat) (d : nat) :
  d <> 13 -> filter notCR (l ++ [13; d]) = filter notCR l ++ [d].
Proof.
  intros H. rewrite filter_app. cbn. unfold notCR.
  destruct (Nat.eqb_spec d 13); [contradiction|reflexivity].
Qed.

Lemma charAt_some text i d : nth_error text i = Some d -> charAt text i = [d].
Proof. intros H. unfold charAt. now rewrite H. Qed.

Lemma typedUnits_emitted (opsBefore emitted : list Op) :
  flat_map unitsOf (opsBefore ++ emitted)
  = flat_map unitsOf opsBefore ++ flat_map unitsOf emitted.
Proof. apply flat_map_app. Qed.

(** What a running turn adds to the text, when the unit under the cursor
    (after a skipped carriage return) is [d]. *)
Lemma type_running_units now pos s cursor d :
  readPosition s <> List.length (chunk s) ->
  cursor = (if codeIs (charCodeAt (chunk s) (readPosition s)) 13
            then S (readPosition s) else readPosition s) ->
  nth_error (chunk s) cursor = Some d ->
  flat_map unitsOf (ops (fst (type true now pos s)))
  = flat_map unitsOf (ops s) ++ [d].
Proof.
  intros Hr Hc Hd.
  destruct (type_running now pos s Hr) as (_ & _ & _ & _ & _ & _ & O).
  rewrite <- Hc in O. unfold charCodeAt in O at 1. rewrite Hd in O.
  destruct (codeIs (Some d) 10) eqn:Hm.
  - apply codeIs_spec in Hm. injection Hm as ->.
    destruct O as [_ ->]. rewrite typedUnits_emitted. f_equal.
    now destruct (_ =? 0).
  - destruct O as [_ ->]. rewrite typedUnits_emitted. f_equal.
    cbn. rewrite (charAt_some _ _ _ Hd). reflexivity.
Qed.

Lemma step_typed_prefix s e :
  crFollowed (chunk s) = true ->
  readPosition s <= List.length (chunk s) ->
  typedUnits s = filter notCR (firstn (readPosition s) (chunk s)) ->
  readPosition (step s e) <= List.length (chunk s)
  /\ typedUnits (step s e)
     = filter notCR (firstn (readPosition (step s e)) (chunk s)).
Proof.
  intros Hcr Hle Ht. unfold typedUnits in *.
  destruct (step_typist_cases s e)
    as [E|[(play & now & pos & _ & _ & _ & E)|(now & pos & -> & _ & Hr & E)]].
  - unfold typistView in E. injection E as -> _ -> _ _ _. now split.
  - rewrite E. now split.
  - destruct (type_running now pos s Hr) as (_ & R & _).
    rewrite E. proj_simpl. rewrite R.
    destruct (codeIs (charCodeAt (chunk s) (readPosition s)) 13) eqn:Hs.
    + apply codeIs_spec in Hs. unfold charCodeAt in Hs.
      destruct (crFollowed_nth _ _ Hcr Hs) as (d & Hd & Hd13).
      assert (S (readPosition s) < List.length (chunk s))
        by (apply nth_error_Some; rewrite Hd; discriminate).
      split; [lia|].
      rewrite (type_running_units now pos s (S (readPosition s)) d Hr);
        [|unfold charCodeAt; rewrite Hs; reflexivity|exact Hd].
      rewrite (firstn_snoc_nth _ _ _ Hd), (firstn_snoc_nth _ _ _ Hs).
      rewrite <- app_assoc. cbn [app].
      now rewrite filter_notCR_skip, Ht.
    + assert (Hlt : readPosition s < List.length (chunk s)) by lia.
      destruct (nth_error (chunk s) (readPosition s)) as [d|] eqn:Hd;
        [|apply nth_error_None in Hd; lia].
      assert (Hd13 : d <> 13).
      { intros ->. unfold charCodeAt in Hs. rewrite Hd in Hs. discriminate. }
      split; [lia|].
      rewrite (type_running_units now pos s (readPosition s) d Hr);
        [|now rewrite Hs|exact Hd].
      rewrite (firstn_snoc_nth _ _ _ Hd).
      now rewrite filter_notCR_snoc, Ht.
Qed.

(** X11.  When every carriage return of the corpus is followed by another
    code unit that is not one, the code units put into the shared string so
    far (a marker standing for its line feed) are exactly the part of the
    corpus before the cursor with the carriage returns left out, in order;
    with the cursor at the end, that is the whole corpus without its
    carriage returns. *)
Theorem typed_text_is_corpus_prefix :
  forall (docClientId chunkKey : string) (text : list nat)
         (interval t0 : Z) (events : list Event),
    crFollowed text = true ->
    let s := run (newSession docClientId chunkKey text interval t0) events in
    typedUnits s = filter notCR (firstn (readPosition s) text)
    /\ (readPosition s = List.length text -> typedUnits s = filter notCR text).
Proof.
  intros docId key text interval t0 events Hcr s.
  assert (G : chunk s = text
              /\ readPosition s <= List.length text
              /\ typedUnits s = filter notCR (firstn (readPosition s) text)).
  { apply (run_invariant
             (fun s => chunk s = text
                       /\ readPosition s <= List.length text
                       /\ typedUnits s
                          = filter notCR (firstn (readPosition s) text))).
    - intros x e (C & A & B).
      destruct (step_config x e) as (_ & C' & _).
      split; [congruence|]. rewrite <- C in *.
      now apply step_typed_prefix.
    - split; [reflexivity|]. split; [cbn; lia|reflexivity]. }
  destruct G as (_ & _ & G). split; [exact G|].
  intros E. rewrite G, E. now rewrite firstn_all.
Qed.

Lemma typed_text_is_corpus_prefix_witness :
  typedUnits
    (run (newSession "c" "p-0" [104; 13; 10; 105] 0 0)
         [TypeEvent true 1 0; TypeEvent false 2 0; TypeEvent true 3 0])
  = filter notCR
      (firstn (readPosition
                 (run (newSession "c" "p-0" [104; 13; 10; 105] 0 0)
                      [TypeEvent true 1 0; TypeEvent false 2 0;
                       TypeEvent true 3 0]))
              [104; 13; 10; 105]).
Proof.
  apply (typed_text_is_corpus_prefix "c" "p-0" [104; 13; 10; 105] 0%Z 0%Z
           [TypeEvent true 1 0; TypeEvent false 2 0; TypeEvent true 3 0]).
  reflexivity.
Defined.

(** ** Checkpoints *)

Lemma div_succ_step (n : nat) :
  S n / saveLineFrequency
  = n / saveLineFrequency
    + (if S n mod saveLineFrequency =? 0 then 1 else 0).
Proof.
  unfold saveLineFrequency.
  pose proof (Nat.div_mod_eq n 5) as A.
  pose proof (Nat.div_mod_eq (S n) 5) as B.
  pose proof (Nat.mod_upper_bound n 5 ltac:(lia)) as C.
  pose proof (Nat.mod_upper_bound (S n) 5 ltac:(lia)) as D.
  destruct (Nat.eqb_spec (S n mod 5) 0) as [E|E]; nia.
Qed.

Lemma step_checkpointsOk s e : checkpointsOk s -> checkpointsOk (step s e).
Proof.
  intros (A & B & C). unfold checkpointsOk.
  destruct (step_typist_cases s e)
    as [E|[(play & now & pos & _ & _ & _ & E)|(now & pos & -> & _ & Hr & E)]].
  - unfold typistView in E. injection E as _ -> -> _ _ _.
    split; [exact A|]. split; [exact B|exact C].
  - rewrite E. proj_simpl. split; [exact A|]. split; [exact B|exact C].
  - destruct (type_running now pos s Hr) as (_ & _ & _ & _ & _ & _ & O).
    rewrite E. proj_simpl.
    destruct (codeIs _ 10).
    + destruct O as [-> ->].
      rewrite !filter_app, !length_app. cbn [filter isMarker isSave].
      rewrite div_succ_step.
      destruct (Nat.eqb_spec (S (lineNumber s) mod saveLineFrequency) 0) as [Q|Q];
        cbn [filter isMarker isSave List.length];
        (split; [lia|]); (split; [lia|]);
        intros n Hin; apply in_app_or in Hin as [Hin|Hin].
      * destruct (C n Hin). split; [assumption|lia].
      * cbn in Hin. destruct Hin as [Hin|[Hin|[]]]; [discriminate|].
        injection Hin as <-. split; [exact Q|lia].
      * destruct (C n Hin). split; [assumption|lia].
      * cbn in Hin. destruct Hin as [Hin|[]]. discriminate.
    + destruct O as [-> ->].
      rewrite !filter_app, !length_app. cbn [filter isMarker isSave List.length].
      split; [lia|]. split; [lia|].
      intros n Hin. apply in_app_or in Hin as [Hin|Hin]; [now apply C|].
      cbn in Hin. destruct Hin as [Hin|[]]. discriminate.
Qed.

(** X12.  The line counter of a session is the number of markers it has
    inserted; [doc.save] has been called once for every full
    [saveLineFrequency] lines, so [lineNumber / 5] times; and every call
    was for a line number that is a positive multiple of
    [saveLineFrequency] and no larger than the line counter. *)
Theorem checkpoint_every_fifth_line :
  forall (docClientId chunkKey : string) (text : list nat)
         (interval t0 : Z) (events : list Event),
    let s := run (newSession docClientId chunkKey text interval t0) events in
    lineNumber s = List.length (filter isMarker (ops s))
    /\ List.length (filter isSave (ops s)) = lineNumber s / saveLineFrequency
    /\ forall n, In (Save n) (ops s) ->
                 n mod saveLineFrequency = 0 /\ 1 <= n <= lineNumber s.
Proof.
  intros docId key text interval t0 events s.
  apply (run_invariant checkpointsOk).
  - intros x e. apply step_checkpointsOk.
  - unfold checkpointsOk. cbn. repeat split; try reflexivity; contradiction.
Qed.

Lemma checkpoint_every_fifth_line_witness :
  let s := run (newSession "c" "p-0" [10; 10; 10; 10; 10; 10] 0 0)
               (map (fun n => TypeEvent true (Z.of_nat n) 7) (seq 1 6)) in
  5 mod saveLineFrequency = 0 /\ 1 <= 5 <= lineNumber s.
Proof.
  intros s.
  apply (checkpoint_every_fifth_line "c" "p-0" [10; 10; 10; 10; 10; 10] 0%Z 0%Z
           (map (fun n => TypeEvent true (Z.of_nat n) 7) (seq 1 6))).
  match goal with
  | |- In _ ?l =>
      assert (E : l = [InsertMarker 7; InsertMarker 7; InsertMarker 7;
                       InsertMarker 7; InsertMarker 7; Save 5; InsertMarker 7])
        by reflexivity;
      rewrite E
  end.
  cbn [In]. tauto.
Defined.

(** ** The end of the typing loop *)

(** X13.  The typing loop of a session calls [queueCallback] at most once:
    while the loop is armed it has not been called, and once the loop has
    stopped it has been called exactly once, with the live [metrics]
    object, and the cursor is at the end of the corpus.  A turn that finds
    the cursor at the end stops the loop even while typing is paused, and
    issues no operation. *)
Theorem typing_loop_stops_once :
  forall (docClientId chunkKey : string) (text : list nat)
         (interval t0 : Z) (events : list Event) (play : bool) (now pos : Z),
    let s := run (newSession docClientId chunkKey text interval t0) events in
    ((typingTimer s = true /\ queueCallbackCalls s = [])
     \/ (typingTimer s = false /\ queueCallbackCalls s = [MetricsRef]
         /\ readPosition s = List.length text))
    /\ (typingTimer s = true ->
        readPosition s = List.length text ->
        let s' := step s (TypeEvent play now pos) in
        typingTimer s' = false
        /\ queueCallbackCalls s' = [MetricsRef]
        /\ ops s' = ops s /\ messageStart s' = messageStart s).
Proof.
  intros docId key text interval t0 events play now pos s.
  assert (G : loopState text s).
  { apply (run_invariant (loopState text)).
    - intros x e. apply step_loopState.
    - split; [reflexivity|]. left. now split. }
  destruct G as (C & G). split; [exact G|].
  intros Ht He s'. unfold s'. cbn [step].
  rewrite typingTurn_at_end by congruence. proj_simpl.
  destruct G as [[_ ->]|[Hf _]]; [now repeat split|congruence].
Qed.

Lemma typing_loop_stops_once_witness :
  let s := run (newSession "c" "p-0" [] 0 0) [] in
  let s' := step s (TypeEvent false 5 0) in
  typingTimer s' = false /\ queueCallbackCalls s' = [MetricsRef]
  /\ ops s' = ops s /\ messageStart s' = messageStart s.
Proof.
  intros s s'.
  apply (typing_loop_stops_once "c" "p-0" [] 0%Z 0%Z [] false 5%Z 0%Z).
  - reflexivity.
  - reflexivity.
Defined.

Lemma run_stopped events : forall s,
  typingTimer s = false -> typistView (run s events) = typistView s.
Proof.
  induction events as [|e events IH]; intros s Hf; [reflexivity|].
  cbn [run fold_left]. fold (run (step s e) events).
  assert (E : typistView (step s e) = typistView s).
  { destruct (step_typist_cases s e)
      as [E|[(play & now & pos & _ & Ht & _)|(now & pos & _ & Ht & _)]];
      [exact E|congruence|congruence]. }
  rewrite IH; [exact E|].
  unfold typistView in E. injection E as _ _ _ -> _ _. exact Hf.
Qed.

(** X14.  A stopped typing loop stays stopped: from then on no event
    whatsoever issues an operation, moves the cursor or the line counter,
    calls [queueCallback] or changes [typingProgress]. *)
Theorem stopped_loop_is_silent :
  forall (s : Session) (events : list Event),
    typingTimer s = false ->
    typingTimer (run s events) = false
    /\ ops (run s events) = ops s
    /\ readPosition (run s events) = readPosition s
    /\ lineNumber (run s events) = lineNumber s
    /\ queueCallbackCalls (run s events) = queueCallbackCalls s
    /\ typingProgress (metrics (run s events)) = typingProgress (metrics s).
Proof.
  intros s events Hf.
  pose proof (run_stopped events s Hf) as E.
  unfold typistView in E. injection E as -> -> -> -> -> ->.
  now repeat split.
Qed.

Lemma stopped_loop_is_silent_witness :
  let s := run (newSession "c" "p-0" [97] 0 0)
               [TypeEvent true 1 0; TypeEvent true 2 0] in
  ops (run s [TypeEvent true 3 0; OpEvent (mkMessage 1 "c" []) 4;
              TypeEvent true 5 0])
  = ops s.
Proof.
  intros s.
  apply (stopped_loop_is_silent s
           [TypeEvent true 3 0; OpEvent (mkMessage 1 "c" []) 4;
            TypeEvent true 5 0]).
  reflexivity.
Defined.

Lemma step_overshot s e :
  List.length (chunk s) < readPosition s ->
  typingTimer s = true ->
  readPosition s <= readPosition (step s e)
  /\ typingTimer (step s e) = true
  /\ queueCallbackCalls (step s e) = queueCallbackCalls s.
Proof.
  intros Hlt Ht.
  destruct (step_typist_cases s e)
    as [E|[(play & now & pos & _ & _ & He & _)|(now & pos & -> & _ & Hr & E)]].
  - unfold typistView in E. injection E as -> _ _ -> -> _. now repeat split.
  - lia.
  - destruct (type_running now pos s Hr) as (_ & R & _ & Q & _).
    rewrite E. proj_simpl. rewrite R, Q.
    assert (N : nth_error (chunk s) (readPosition s) = None)
      by (apply nth_error_None; lia).
    unfold charCodeAt. rewrite N. cbn [codeIs]. now repeat split; try lia.
Qed.

Lemma run_overshot events : forall s,
  List.length (chunk s) < readPosition s ->
  typingTimer s = true ->
  List.length (chunk (run s events)) < readPosition (run s events)
  /\ readPosition s <= readPosition (run s events)
  /\ typingTimer (run s events) = true
  /\ queueCallbackCalls (run s events) = queueCallbackCalls s.
Proof.
  induction events as [|e events IH]; intros s Hlt Ht; [now repeat split|].
  cbn [run fold_left]. fold (run (step s e) events).
  destruct (step_overshot s e Hlt Ht) as (A & B & C).
  destruct (step_config s e) as (_ & D & _).
  destruct (IH (step s e)) as (I1 & I2 & I3 & I4); [rewrite D; lia|exact B|].
  split; [exact I1|]. split; [lia|]. split; [exact I3|congruence].
Qed.

(** X15.  Once the cursor has passed the end of the corpus (which happens
    when the corpus ends in a carriage return), the loop never stops: the
    cursor stays beyond the end, the loop stays armed, [queueCallback] is
    never called, and every unpaused turn inserts the empty string and
    moves the cursor one further. *)
Theorem overshot_cursor_never_stops :
  forall (s : Session) (events : list Event) (now pos : Z),
    List.length (chunk s) < readPosition s ->
    typingTimer s = true ->
    let s' := run s events in
    List.length (chunk s') < readPosition s'
    /\ typingTimer s' = true
    /\ queueCallbackCalls s' = queueCallbackCalls s
    /\ ops (step s' (TypeEvent true now pos)) = ops s' ++ [InsertText [] pos]
    /\ readPosition (step s' (TypeEvent true now pos)) = S (readPosition s').
Proof.
  intros s events now pos Hlt Ht s'.
  destruct (run_overshot events s Hlt Ht) as (A & _ & B & C). fold s' in A, B, C.
  split; [exact A|]. split; [exact B|]. split; [exact C|].
  assert (Hr : readPosition s' <> List.length (chunk s')) by lia.
  cbn [step]. rewrite typingTurn_running by assumption. proj_simpl.
  destruct (type_running now pos s' Hr) as (_ & R & _ & _ & _ & _ & O).
  assert (N : nth_error (chunk s') (readPosition s') = None)
    by (apply nth_error_None; lia).
  unfold charCodeAt, charAt in *. rewrite N in *. cbn [codeIs] in *.
  rewrite N in O. cbn [codeIs] in O. destruct O as [_ O].
  now rewrite R, O.
Qed.

Lemma overshot_cursor_never_stops_witness :
  let s := run (newSession "c" "p-0" [97; 13] 0 0)
               [TypeEvent true 1 0; TypeEvent true 2 0] in
  let s' := run s [TypeEvent true 3 0; TypeEvent false 4 0] in
  typingTimer s' = true
  /\ ops (step s' (TypeEvent true 5 0)) = ops s' ++ [InsertText [] 0%Z].
Proof.
  intros s s'.
  destruct (overshot_cursor_never_stops s
              [TypeEvent true 3 0; TypeEvent false 4 0] 5%Z 0%Z)
    as (_ & H2 & _ & H4 & _).
  - cbn. lia.
  - reflexivity.
  - split; [exact H2|exact H4].
Defined.

(** ** Round trips under a clock that does not run backwards *)

Lemma pop_In {A} (a : list A) :
  (forall x, fst (pop a) = Some x -> In x a)
  /\ (forall x, In x (snd (pop a)) -> In x a).
Proof.
  unfold pop. destruct (rev a) as [|y r] eqn:E; cbn.
  - split; [discriminate|contradiction].
  - assert (Ea : a = rev r ++ [y]).
    { rewrite <- (rev_involutive a), E. reflexivity. }
    split.
    + intros x [= <-]. rewrite Ea. apply in_or_app. right. now left.
    + intros x Hx. rewrite Ea. apply in_or_app. now left.
Qed.

Lemma onOp_late_effect message now s :
  attributed s message = true ->
  (now - startTime s >? RunningCalculationDelay)%Z = true ->
  messageStart (onOp message now s) = snd (pop (messageStart s))
  /\ histogram (onOp message now s)
     = histogram s
         ++ [match fst (pop (messageStart s)) with
             | Some sent => ofZ (now - sent)
             | None => NonFinite
             end].
Proof.
  intros Ha G. split.
  - rewrite onOp_messageStart by assumption. now rewrite G.
  - unfold onOp. rewrite Ha.
    destruct (latencyStdDev_of_estimatorView _ _
                (completionCheck_estimatorView message now
                   (runningCalculation message now (countAck now s))))
      as (_ & _ & H & _).
    change (histogram (notify message ?x)) with (histogram x).
    rewrite H. unfold runningCalculation.
    rewrite countAck_startTime, G, countAck_messageStart.
    destruct (pop (messageStart s)) as [popped remaining].
    unfold recordRoundTrip. proj_simpl. now rewrite countAck_histogram.
Qed.

Lemma clockOk_later latest now s :
  (latest <= now)%Z -> clockOk latest s -> clockOk now s.
Proof.
  intros H [A B]. split; [|exact B]. intros x Hx. specialize (A x Hx). lia.
Qed.

Lemma nanOrNonNegative_ofZ z : (0 <= z)%Z -> nanOrNonNegative (ofZ z).
Proof.
  intros H. right. exists (IZR z). split; [reflexivity|].
  now apply IZR_le in H.
Qed.

Lemma onOp_clockOk message now s : clockOk now s -> clockOk now (onOp message now s).
Proof.
  intros [A B].
  destruct (attributed s message) eqn:Ha; [|now rewrite onOp_ignored].
  destruct (now - startTime s >? RunningCalculationDelay)%Z eqn:G.
  - destruct (onOp_late_effect message now s Ha G) as [E1 E2].
    destruct (pop_In (messageStart s)) as [P1 P2].
    split.
    + rewrite E1. intros x Hx. apply A, P2, Hx.
    + rewrite E2. apply Forall_app. split; [exact B|]. constructor; [|constructor].
      destruct (fst (pop (messageStart s))) as [sent|] eqn:Ep; [|now left].
      apply nanOrNonNegative_ofZ. specialize (A sent (P1 sent eq_refl)). lia.
  - split.
    + rewrite onOp_messageStart by assumption. now rewrite G.
    + assert (E : isLateAck s (OpEvent message now) = false)
        by (cbn; now rewrite Ha, G).
      destruct (latencyStdDev_of_estimatorView _ _
                  (onOp_estimatorView_early message now s E)) as (_ & _ & -> & _).
      exact B.
Qed.

Lemma typingTurn_clockOk play now pos s :
  clockOk now s -> clockOk now (typingTurn play now pos s).
Proof.
  intros [A B]. unfold typingTurn. destruct (typingTimer s); [|now split].
  pose proof (type_sent play now pos s) as M. cbn zeta in M.
  pose proof (type_listenerView play now pos s) as L.
  destruct (type play now pos s) as [s' again]. cbn [fst] in M, L.
  unfold listenerView in L. injection L as _ _ _ _ L _ _ _ _ _.
  split; proj_simpl.
  - intros x Hx. destruct M as [[_ M]|[_ M]]; rewrite M in Hx.
    + now apply A.
    + apply in_app_or in Hx as [Hx|[<-|[]]]; [now apply A|lia].
  - now rewrite L.
Qed.

Lemma run_clockOk events : forall latest s,
  clockMonotone latest events = true ->
  clockOk latest s ->
  Forall nanOrNonNegative (histogram (run s events)).
Proof.
  induction events as [|e events IH]; intros latest s Hm Hok.
  - apply Hok.
  - cbn [run fold_left]. fold (run (step s e) events).
    destruct e as [message now|h m sec|play now pos]; cbn [clockMonotone] in Hm.
    + apply andb_prop in Hm as [H1 H2]. apply Z.leb_le in H1.
      apply (IH now); [exact H2|].
      apply onOp_clockOk. now apply (clockOk_later latest).
    + apply (IH latest); [exact Hm|].
      destruct Hok as [A B].
      pose proof (step_snapshot_listenerView h m sec s) as L.
      unfold listenerView in L. cbn [step] in L |- *.
      injection L as _ _ _ _ L _ _ _ _ _.
      split; [|now rewrite L].
      destruct (metricsInterval s); [|exact A].
      now rewrite metricsTick_messageStart.
    + apply andb_prop in Hm as [H1 H2]. apply Z.leb_le in H1.
      apply (IH now); [exact H2|].
      apply typingTurn_clockOk. now apply (clockOk_later latest).
Qed.

(** X16.  When the clock never runs backwards along a run, no round trip
    that enters the statistics is negative: each one is a finite number
    that is at least 0, or [NaN] when the acknowledgement found no send
    time to pop. *)
Theorem round_trips_are_not_negative :
  forall (docClientId chunkKey : string) (text : list nat)
         (interval t0 : Z) (events : list Event),
    clockMonotone t0 events = true ->
    Forall nanOrNonNegative
           (histogram (run (newSession docClientId chunkKey text interval t0)
                           events)).
Proof.
  intros docId key text interval t0 events Hm.
  apply (run_clockOk events t0); [exact Hm|].
  split; [intros x []|constructor].
Qed.

Lemma round_trips_are_not_negative_witness :
  Forall nanOrNonNegative
         (histogram (run (newSession "c" "p-0" [97; 98] 0 0)
                         [TypeEvent true 10001 0;
                          OpEvent (mkMessage 1 "c" []) 10004;
                          OpEvent (mkMessage 7 "c" []) 10005])).
Proof.
  apply (round_trips_are_not_negative "c" "p-0" [97; 98] 0%Z 0%Z
           [TypeEvent true 10001 0; OpEvent (mkMessage 1 "c" []) 10004;
            OpEvent (mkMessage 7 "c" []) 10005]).
  reflexivity.
Defined.

(** ** An acknowledgement with nothing outstanding *)

Lemma poisoned_estimatorView s s' :
  estimatorView s' = estimatorView s -> poisoned s -> poisoned s'.
Proof.
  unfold estimatorView, poisoned. intros E. injection E as _ -> -> -> -> _.
  auto.
Qed.

Lemma recordRoundTrip_poisoned message roundTrip s :
  poisoned s -> poisoned (recordRoundTrip message roundTrip s).
Proof.
  intros (A & B & C & D). unfold poisoned, recordRoundTrip. proj_simpl.
  cbn [latencyAverage set_latencyStdDev set_latencyAverage].
  unfold RateCounter.getValue, RateCounter.increment.
  cbn [RateCounter.accumulatedValue]. rewrite A, B. now repeat split.
Qed.

Lemma recordRoundTrip_NaN message s :
  poisoned (recordRoundTrip message NonFinite s).
Proof.
  unfold poisoned, recordRoundTrip. proj_simpl.
  cbn [latencyAverage set_latencyStdDev set_latencyAverage].
  unfold RateCounter.getValue, RateCounter.increment.
  cbn [RateCounter.accumulatedValue].
  assert (E : add (RateCounter.accumulatedValue (latencyCounter s)) NonFinite
              = NonFinite)
    by (now destruct (RateCounter.accumulatedValue (latencyCounter s))).
  rewrite E. cbn [div sub mul lift2].
  repeat split; try reflexivity. now destruct (stdDev s).
Qed.

Lemma onOp_poisoned message now s : poisoned s -> poisoned (onOp message now s).
Proof.
  intros H. unfold onOp. destruct (attributed s message); [|exact H].
  apply (poisoned_estimatorView
           (completionCheck message now
              (runningCalculation message now (countAck now s)))).
  { reflexivity. }
  apply (poisoned_estimatorView
           (runningCalculation message now (countAck now s)));
    [apply completionCheck_estimatorView|].
  assert (H1 : poisoned (countAck now s))
    by (apply (poisoned_estimatorView s); [apply countAck_estimatorView|exact H]).
  unfold runningCalculation. destruct (_ >? _)%Z; [|exact H1].
  destruct (pop _). apply recordRoundTrip_poisoned.
  apply (poisoned_estimatorView (countAck now s)); [reflexivity|exact H1].
Qed.

Lemma step_poisoned s e : poisoned s -> poisoned (step s e).
Proof.
  intros H. destruct e as [message now|h m sec|play now pos]; cbn [step].
  - now apply onOp_poisoned.
  - destruct (metricsInterval s); [|exact H].
    apply (poisoned_estimatorView s); [apply metricsTick_estimator|exact H].
  - unfold typingTurn. destruct (typingTimer s); [|exact H].
    pose proof (type_estimator play now pos s) as F.
    destruct (type play now pos s) as [s' again]. cbn [fst] in F.
    apply (poisoned_estimatorView s'); [reflexivity|].
    now apply (poisoned_estimatorView s).
Qed.

(** X17.  An attributed acknowledgement handled after the start-up delay
    while no send time is outstanding records [NaN] as its round trip, and
    the statistics never recover: from then on, whatever happens, the
    running sum, the two Welford variables and [latencyAverage] are not
    numbers. *)
Theorem empty_pop_poisons_statistics :
  forall (s : Session) (message : Message) (now : Z) (events : list Event),
    attributed s message = true ->
    (now - startTime s > RunningCalculationDelay)%Z ->
    messageStart s = [] ->
    let s' := run (onOp message now s) events in
    histogram (onOp message now s) = histogram s ++ [NonFinite]
    /\ stdDev s' = NonFinite
    /\ mean s' = NonFinite
    /\ latencyAverage (metrics s') = NonFinite.
Proof.
  intros s message now events Ha Hl He s'.
  assert (G : (now - startTime s >? RunningCalculationDelay)%Z = true)
    by (apply Z.gtb_lt; lia).
  destruct (onOp_late_effect message now s Ha G) as [_ E].
  rewrite He in E. cbn in E. split; [exact E|].
  assert (P : poisoned s').
  { apply (run_invariant poisoned); [intros x e; apply step_poisoned|].
    unfold onOp. rewrite Ha.
    apply (poisoned_estimatorView
             (completionCheck message now
                (runningCalculation message now (countAck now s))));
      [reflexivity|].
    apply (poisoned_estimatorView
             (runningCalculation message now (countAck now s)));
      [apply completionCheck_estimatorView|].
    unfold runningCalculation.
    rewrite countAck_startTime, G, countAck_messageStart, He. cbn [pop rev].
    apply recordRoundTrip_NaN. }
  destruct P as (_ & P2 & P3 & P4). now repeat split.
Qed.

Lemma empty_pop_poisons_statistics_witness :
  let s := newSession "c" "p-0" [97; 98] 0 0 in
  latencyAverage
    (metrics (run (onOp (mkMessage 1 "c" []) 10004 s)
                  [TypeEvent true 10005 0; OpEvent (mkMessage 2 "c" []) 10009]))
  = NonFinite.
Proof.
  intros s.
  apply (empty_pop_poisons_statistics s (mkMessage 1 "c" []) 10004%Z
           [TypeEvent true 10005 0; OpEvent (mkMessage 2 "c" []) 10009]).
  - reflexivity.
  - reflexivity.
  - reflexivity.
Defined.

(** ** Progress reported with an acknowledgement *)

Lemma onOp_ackProgress message now s :
  attributed s message = true ->
  ackProgress (metrics (onOp message now s))
  = div (ofZ (clientSequenceNumber message)) (ofNat (List.length (chunk s))).
Proof.
  intros Ha. unfold onOp. rewrite Ha. unfold notify. proj_simpl.
  cbn [ackProgress set_ackProgress].
  set (x := completionCheck message now
              (runningCalculation message now (countAck now s))).
  assert (C : chunk x = chunk s).
  { unfold x.
    destruct (completionCheck_config message now
                (runningCalculation message now (countAck now s))) as (_ & -> & _).
    destruct (runningCalculation_config message now (countAck now s))
      as (_ & -> & _).
    apply countAck_config. }
  now rewrite C.
Qed.

(** X18.  With a corpus that is not empty, an attributed acknowledgement
    sets [ackProgress] to its client sequence number over the corpus
    length, and it completes the session exactly when that quotient is at
    least 1; below 1 the completion state is left as it was.  With an
    empty corpus the quotient is not a finite number. *)
Theorem ack_progress_and_completion :
  forall (s : Session) (message : Message) (now : Z),
    attributed s message = true ->
    let s' := onOp message now s in
    let L := List.length (chunk s) in
    (L = 0 -> ackProgress (metrics s') = NonFinite)
    /\ (0 < L ->
        exists r,
          ackProgress (metrics s') = Num r
          /\ r = (IZR (clientSequenceNumber message) / INR L)%R
          /\ ((1 <= r)%R ->
              resolved s' <> None /\ metricsInterval s' = false)
          /\ ((r < 1)%R ->
              resolved s' = resolved s
              /\ metricsInterval s' = metricsInterval s)).
Proof.
  intros s message now Ha s' L.
  pose proof (onOp_ackProgress message now s Ha) as P. fold s' L in P.
  destruct (onOp_completion message now s Ha) as (A & B & _).
  fold s' L in A, B. cbn zeta in A, B.
  split.
  - intros E. rewrite P, E. unfold ofZ, ofNat, div. cbn [INR].
    destruct (Req_dec_T 0 0); [reflexivity|contradiction].
  - intros HL. assert (HL' : (0 < INR L)%R) by (now apply lt_0_INR).
    exists (IZR (clientSequenceNumber message) / INR L)%R.
    split; [rewrite P; unfold ofZ, ofNat; apply div_Num; lra|].
    split; [reflexivity|].
    assert (Q : forall c : Z,
               (1 <= IZR c / INR L)%R <-> (Z.of_nat L <= c)%Z).
    { intros c. rewrite INR_IZR_INZ in *. split; intros H.
      - apply le_IZR.
        apply (Rmult_le_compat_r (IZR (Z.of_nat L))) in H; [|lra].
        unfold Rdiv in H. rewrite Rmult_assoc, Rinv_l in H by lra. lra.
      - apply IZR_le in H.
        apply (Rmult_le_reg_r (IZR (Z.of_nat L))); [exact HL'|].
        unfold Rdiv. rewrite Rmult_assoc, Rinv_l by lra. lra. }
    split; intros H.
    + apply Q in H.
      destruct (Z.geb_spec (clientSequenceNumber message) (Z.of_nat L)); [|lia].
      rewrite A, B. split; [apply settle_not_None|reflexivity].
    + assert (N : ~ (Z.of_nat L <= clientSequenceNumber message)%Z)
        by (intros H'; apply Q in H'; lra).
      destruct (Z.geb_spec (clientSequenceNumber message) (Z.of_nat L)); [lia|].
      now rewrite A, B.
Qed.

Lemma ack_progress_and_completion_witness :
  let s := newSession "c" "p-0" [] 0 0 in
  ackProgress (metrics (onOp (mkMessage 1 "c" []) 5 s)) = NonFinite.
Proof.
  intros s.
  apply (ack_progress_and_completion s (mkMessage 1 "c" []) 5%Z).
  - reflexivity.
  - reflexivity.
Defined.

(** ** The histogram chart *)

Lemma mapIndexed_as_map {A B} (f : A -> nat -> B) (l : list A) : forall from,
  List.length (mapIndexed f from l) = List.length l
  /\ forall k a, nth_error l k = Some a ->
                 nth_error (mapIndexed f from l) k = Some (f a (from + k)).
Proof.
  induction l as [|x l IH]; intros from; cbn.
  - split; [reflexivity|]. intros [|k]; discriminate.
  - destruct (IH (S from)) as [I1 I2]. split; [now rewrite I1|].
    intros [|k] a H; cbn in *.
    + injection H as ->. now rewrite Nat.add_0_r.
    + rewrite (I2 k a H). f_equal. f_equal. lia.
Qed.

Lemma toString_injective a b : toString a = toString b -> a = b.
Proof.
  unfold toString. intros H.
  apply DecimalNat.Unsigned.to_uint_inj.
  assert (E : Some (Nat.to_uint a) = Some (Nat.to_uint b)).
  { rewrite <- !NilEmpty.usu. now rewrite H. }
  now injection E.
Qed.

(** X19.  The histogram chart has one category per bucket, the values are
    the bucket counts unchanged, and the name of the [k]-th category is the
    decimal form of [k * increment], the lower bound of the bucket; with a
    positive increment two different buckets never get the same name. *)
Theorem histogram_categories :
  forall (buckets : list nat) (increment k j : nat),
    k < List.length buckets ->
    j < List.length buckets ->
    let shown := getHistogramConfiguration buckets increment in
    List.length (bucketNames shown) = List.length buckets
    /\ bucketValues shown = buckets
    /\ nth_error (bucketNames shown) k = Some (toString (k * increment))
    /\ (0 < increment ->
        nth_error (bucketNames shown) k = nth_error (bucketNames shown) j ->
        k = j).
Proof.
  intros buckets increment k j Hk Hj shown.
  destruct (mapIndexed_as_map
              (fun (bucket : nat) index => toString (index * increment))
              buckets 0) as [L N].
  assert (Nk : forall i, i < List.length buckets ->
                         nth_error (bucketNames shown) i
                         = Some (toString (i * increment))).
  { intros i Hi.
    destruct (nth_error buckets i) as [a|] eqn:E;
      [|apply nth_error_None in E; lia].
    exact (N i a E). }
  split; [exact L|]. split; [reflexivity|]. split; [now apply Nk|].
  intros Hinc E. rewrite (Nk k Hk), (Nk j Hj) in E. injection E as E.
  apply toString_injective in E. nia.
Qed.

Lemma histogram_categories_witness :
  nth_error (bucketNames (getHistogramConfiguration [4; 0; 7] 5)) 2
  = Some (toString (2 * 5)).
Proof.
  apply (histogram_categories [4; 0; 7] 5 2 0); cbn; lia.
Defined.

(** ** The two branches of [typeFile] *)

(** X20.  With one writer [typeFile] is the promise of [typeChunk]
    unchanged, a rejection included, whatever the chunk map and its view
    are.  With several writers no rejection ever leaves [typeFile], and
    once the chunk view is obtained the result of the queue promise passes
    through, a rejection of it becomes [null], and a queue that never
    drains leaves [typeFile] unsettled. *)
Theorem typeFile_branches :
  forall (IMap ChunkView Metrics : Type)
         (chunks : Promise.t (option IMap))
         (getView : IMap -> Promise.t ChunkView)
         (single : Promise.t Metrics)
         (queued : ChunkView -> Z -> Promise.t Metrics)
         (writers : Z),
    let result w := typeFile IMap ChunkView Metrics chunks getView single queued w in
    result 1%Z
    = match single with
      | Promise.Resolved m => Promise.Resolved (Some m)
      | Promise.Rejected error => Promise.Rejected error
      | Promise.Pending => Promise.Pending
      end
    /\ (writers <> 1%Z ->
        (forall error, result writers <> Promise.Rejected error)
        /\ (forall (map : IMap) (view : ChunkView),
               chunks = Promise.Resolved (Some map) ->
               getView map = Promise.Resolved view ->
               result writers
               = match queued view writers with
                 | Promise.Resolved m => Promise.Resolved (Some m)
                 | Promise.Rejected _ => Promise.Resolved None
                 | Promise.Pending => Promise.Pending
                 end)).
Proof.
  intros IMap ChunkView Metrics chunks getView single queued writers result.
  split.
  - unfold result, typeFile. cbn. now destruct single.
  - intros Hw. unfold result, typeFile.
    destruct (Z.eqb_spec writers 1); [contradiction|]. split.
    + intros error.
      destruct chunks as [[map|]| |]; cbn; try discriminate.
      destruct (getView map) as [view| |]; cbn; try discriminate.
      destruct (queued view writers); cbn; discriminate.
    + intros map view Hc Hv.
      rewrite Hc. cbn. rewrite Hv. cbn. now destruct (queued view writers).
Qed.

Lemma typeFile_branches_witness :
  typeFile unit unit nat (Promise.Resolved (Some tt))
           (fun _ => Promise.Resolved tt) (Promise.Rejected "offline")
           (fun _ _ => Promise.Rejected "worker failed") 3
  = Promise.Resolved None.
Proof.
  destruct (typeFile_branches unit unit nat (Promise.Resolved (Some tt))
              (fun _ => Promise.Resolved tt) (Promise.Rejected "offline")
              (fun _ _ => Promise.Rejected "worker failed") 3%Z)
    as [_ H].
  destruct H as [_ H]; [lia|].
  apply (H tt tt); reflexivity.
Defined.

(** ** The pause flags of [DeltaQueueProxy] *)

Lemma handle_queueAgrees p r :
  queueAgrees p -> queueAgrees (DeltaQueueProxy.handle p r).
Proof.
  unfold queueAgrees.
  destruct p as [sys loc calls]. intros H.
  destruct r, sys, loc; cbn in *; eauto.
Qed.

(** X21.  After any sequence of pause and resume requests, system or
    local, on a new proxy: while either pause flag is set, the last call
    the proxy made on the wrapped queue is a pause; while both are clear,
    it is a resume, or no call was made at all.  So the wrapped queue is
    never left resumed while a pause is still in force. *)
Theorem proxy_queue_follows_flags :
  forall (requests : list DeltaQueueProxy.Request),
    let p := DeltaQueueProxy.serve DeltaQueueProxy.create requests in
    (DeltaQueueProxy.systemPaused p || DeltaQueueProxy.localPaused p = true ->
     exists before,
       DeltaQueueProxy.calls p = before ++ [DeltaQueueProxy.QueuePause])
    /\ (DeltaQueueProxy.systemPaused p || DeltaQueueProxy.localPaused p = false ->
        DeltaQueueProxy.calls p = []
        \/ exists before,
            DeltaQueueProxy.calls p = before ++ [DeltaQueueProxy.QueueResume]).
Proof.
  intros requests p.
  assert (G : queueAgrees p).
  { unfold p, DeltaQueueProxy.serve.
    assert (H : forall rs q, queueAgrees q ->
                             queueAgrees (fold_left DeltaQueueProxy.handle rs q)).
    { induction rs as [|r rs IH]; intros q Hq; [exact Hq|].
      cbn. apply IH, handle_queueAgrees, Hq. }
    apply H. unfold queueAgrees. cbn. now left. }
  unfold queueAgrees in G.
  split; intros E; rewrite E in G; exact G.
Qed.

Lemma proxy_queue_follows_flags_witness :
  let p := DeltaQueueProxy.serve DeltaQueueProxy.create
             [DeltaQueueProxy.SystemPause; DeltaQueueProxy.Pause;
              DeltaQueueProxy.Resume] in
  exists before,
    DeltaQueueProxy.calls p = before ++ [DeltaQueueProxy.QueuePause].
Proof.
  intros p.
  apply (proxy_queue_follows_flags
           [DeltaQueueProxy.SystemPause; DeltaQueueProxy.Pause;
            DeltaQueueProxy.Resume]).
  reflexivity.
Defined.

Lemma handle_local_under_system_pause p r :
  DeltaQueueProxy.isLocal r = true ->
  DeltaQueueProxy.systemPaused p = true ->
  DeltaQueueProxy.systemPaused (DeltaQueueProxy.handle p r) = true
  /\ exists one,
      DeltaQueueProxy.calls (DeltaQueueProxy.handle p r)
      = DeltaQueueProxy.calls p ++ one
      /\ ~ In DeltaQueueProxy.QueueResume one.
Proof.
  destruct p as [sys loc calls]. cbn. intros Hr ->.
  destruct r; try discriminate; cbn.
  - split; [reflexivity|]. exists [DeltaQueueProxy.QueuePause].
    split; [reflexivity|]. intros [F|[]]. discriminate.
  - split; [reflexivity|]. exists []. split; [now rewrite app_nil_r|intros []].
Qed.

Lemma handle_system_under_local_pause p r :
  DeltaQueueProxy.isLocal r = false ->
  DeltaQueueProxy.localPaused p = true ->
  DeltaQueueProxy.localPaused (DeltaQueueProxy.handle p r) = true
  /\ exists one,
      DeltaQueueProxy.calls (DeltaQueueProxy.handle p r)
      = DeltaQueueProxy.calls p ++ one
      /\ ~ In DeltaQueueProxy.QueueResume one.
Proof.
  destruct p as [sys loc calls]. cbn. intros Hr ->.
  destruct r; try discriminate; cbn.
  - split; [reflexivity|]. exists [DeltaQueueProxy.QueuePause].
    split; [reflexivity|]. intros [F|[]]. discriminate.
  - split; [reflexivity|]. exists []. split; [now rewrite app_nil_r|intros []].
Qed.

Lemma serve_held (requests : list DeltaQueueProxy.Request) :
  forall p,
    (forallb DeltaQueueProxy.isLocal requests = true
     /\ DeltaQueueProxy.systemPaused p = true)
    \/ (forallb (fun r => negb (DeltaQueueProxy.isLocal r)) requests = true
        /\ DeltaQueueProxy.localPaused p = true) ->
    exists made,
      DeltaQueueProxy.calls (DeltaQueueProxy.serve p requests)
      = DeltaQueueProxy.calls p ++ made
      /\ ~ In DeltaQueueProxy.QueueResume made.
Proof.
  induction requests as [|r requests IH]; intros p H.
  - exists []. split; [cbn; now rewrite app_nil_r|intros []].
  - cbn [DeltaQueueProxy.serve fold_left].
    fold (DeltaQueueProxy.serve (DeltaQueueProxy.handle p r) requests).
    assert (S1 : exists one,
               DeltaQueueProxy.calls (DeltaQueueProxy.handle p r)
               = DeltaQueueProxy.calls p ++ one
               /\ ~ In DeltaQueueProxy.QueueResume one
               /\ ((forallb DeltaQueueProxy.isLocal requests = true
                    /\ DeltaQueueProxy.systemPaused (DeltaQueueProxy.handle p r)
                       = true)
                   \/ (forallb (fun r => negb (DeltaQueueProxy.isLocal r))
                               requests = true
                       /\ DeltaQueueProxy.localPaused (DeltaQueueProxy.handle p r)
                          = true))).
    { destruct H as [[Hr Hs]|[Hr Hl]]; cbn [forallb] in Hr;
        apply andb_prop in Hr as [Hr1 Hr2].
      - destruct (handle_local_under_system_pause p r Hr1 Hs)
          as (A & one & B & C).
        exists one. split; [exact B|]. split; [exact C|]. now left.
      - apply negb_true_iff in Hr1.
        destruct (handle_system_under_local_pause p r Hr1 Hl)
          as (A & one & B & C).
        exists one. split; [exact B|]. split; [exact C|]. now right. }
    destruct S1 as (one & E1 & N1 & H').
    destruct (IH _ H') as (made & E2 & N2).
    exists (one ++ made). split; [now rewrite E2, E1, app_assoc|].
    intros Hin. apply in_app_or in Hin as [Hin|Hin]; contradiction.
Qed.

(** X22.  One kind of resume never lifts the other kind of pause.  While
    the system pause is set, local pause and resume requests never make the
    proxy call resume on the wrapped queue; and while the local pause is
    set, system pause and resume requests never make it call resume
    either. *)
Theorem proxy_resume_respects_other_pause :
  forall (p : DeltaQueueProxy.t) (requests : list DeltaQueueProxy.Request),
    (forallb DeltaQueueProxy.isLocal requests = true
     /\ DeltaQueueProxy.systemPaused p = true)
    \/ (forallb (fun r => negb (DeltaQueueProxy.isLocal r)) requests = true
        /\ DeltaQueueProxy.localPaused p = true) ->
    exists made,
      DeltaQueueProxy.calls (DeltaQueueProxy.serve p requests)
      = DeltaQueueProxy.calls p ++ made
      /\ ~ In DeltaQueueProxy.QueueResume made.
Proof.
  intros p requests H. exact (serve_held requests p H).
Qed.

Lemma proxy_resume_respects_other_pause_witness :
  exists made,
    DeltaQueueProxy.calls
      (DeltaQueueProxy.serve
         (DeltaQueueProxy.systemPause DeltaQueueProxy.create)
         [DeltaQueueProxy.Pause; DeltaQueueProxy.Resume; DeltaQueueProxy.Resume])
    = DeltaQueueProxy.calls (DeltaQueueProxy.systemPause DeltaQueueProxy.create)
        ++ made
    /\ ~ In DeltaQueueProxy.QueueResume made.
Proof.
  apply (proxy_resume_respects_other_pause
           (DeltaQueueProxy.systemPause DeltaQueueProxy.create)
           [DeltaQueueProxy.Pause; DeltaQueueProxy.Resume; DeltaQueueProxy.Resume]).
  left. split; reflexivity.
Defined.
